(** * infinitive: the HVAC model, the state poller, the snoop decoders and
      the mutation path of [infinitive.go]

    A shallow embedding of the functions of [infinitive.go] that project the
    thermostat tables into the zone view ([holdTime], [getZonesConfig],
    [getZNConfig]), write a parameter ([putConfig]), refresh the cache
    ([statePoller]) and decode snooped frames ([attachSnoops]).

    Conventions.
    - Go's [uint8], [uint16], [uint] and [int] values are [Z]; every place
      where the source can wrap has its [mod] written out.
    - Raw bytes of a frame payload and of a zone name are [Byte.byte].
    - Go strings are [string]; [+:+] is concatenation.
    - A fixed array [[8]T] is a [list T] of length 8; [arr[i]] is
      [nth i arr 0] and [arr[i] = v] is [<[i:=v]> arr]. The loops over such
      an array run over the indices 0..7, which Go's array type guarantees
      to be in range.
    - A Go [(T, bool)] or [(T, error)] result is an [option T].
    - A run-time panic (slice or index out of range, nil dereference) is the
      [Panic] outcome of [Res]. *)

From Stdlib Require Import ZArith QArith Strings.String Strings.Ascii Strings.Byte Lia.
From stdpp Require Import base gmap strings list sorting.

Local Open Scope Z_scope.

(* ===================================================================== *)
(** * Go runtime and standard library, as far as [infinitive.go] uses it *)
(* ===================================================================== *)

(** The numeric value of a byte. *)
Definition u8 (b : byte) : Z := Z.of_N (Byte.to_N b).

(** The code of a character of a string, Go's [s[i]]. *)
Definition code (c : ascii) : Z := Z.of_nat (nat_of_ascii c).

(** Outcome of code that can panic. *)
Inductive Res (A : Type) : Type :=
| Ok (a : A)
| Panic.
Arguments Ok {A} a.
Arguments Panic {A}.

#[global] Instance Res_ret : MRet Res := λ A a, Ok a.

#[global] Instance Res_bind : MBind Res := λ A B k r,
  match r with
  | Ok a => k a
  | Panic => Panic
  end.

(** Go slice expressions on a byte slice. The bounds are checked against the
    length; Go checks the upper bound against the capacity, which is at
    least the length, so every slice that is [Ok] here is also one in Go and
    has the same contents. *)
Definition sliceFrom (s : list byte) (lo : nat) : Res (list byte) :=
  if (lo <=? length s)%nat then Ok (drop lo s) else Panic.

Definition slice (s : list byte) (lo hi : nat) : Res (list byte) :=
  if ((lo <=? hi) && (hi <=? length s))%nat
  then Ok (take (hi - lo) (drop lo s)) else Panic.

(** [s[i]] on a byte slice. *)
Definition index (s : list byte) (i : nat) : Res byte :=
  match s !! i with
  | Some b => Ok b
  | None => Panic
  end.

Module bytes.

(** [bytes.Equal]: same length and same bytes. *)
Fixpoint Equal (a b : list byte) : bool :=
  match a, b with
  | [], [] => true
  | x :: a', y :: b' => Byte.eqb x y && Equal a' b'
  | _, _ => false
  end.

(** Membership in the set built by [makeASCIISet cutset]. *)
Definition contains (cutset : list byte) (c : byte) : bool :=
  existsb (Byte.eqb c) cutset.

(** [trimLeftASCII]: drop bytes of the set from the front. *)
Fixpoint trimLeftASCII (s : list byte) (cutset : list byte) : list byte :=
  match s with
  | [] => []
  | c :: s' => if contains cutset c then trimLeftASCII s' cutset else s
  end.

(** [trimRightASCII]: drop bytes of the set from the back. *)
Definition trimRightASCII (s : list byte) (cutset : list byte) : list byte :=
  reverse (trimLeftASCII (reverse s) cutset).

(** [bytes.Trim s cutset] for a cutset of ASCII bytes, the only kind
    [infinitive.go] passes: the right end is trimmed, then the left. *)
Definition Trim (s : list byte) (cutset : list byte) : list byte :=
  trimLeftASCII (trimRightASCII s cutset) cutset.

End bytes.

Module binary.

(** [binary.BigEndian.Uint16 b]: the bounds check [_ = b[1]], then
    [uint16(b[1]) | uint16(b[0])<<8]. *)
Definition BigEndian_Uint16 (b : list byte) : Res Z :=
  match b with
  | b0 :: b1 :: _ => Ok (Z.lor (u8 b1) (Z.shiftl (u8 b0) 8 mod 2^16))
  | _ => Panic
  end.

End binary.

Module strconv.

(** Size of [int]; the program is built for 64-bit targets. *)
Definition intSize : Z := 64.

Definition maxUint64 : Z := 2^64 - 1.

(** The digit loop of [ParseUint s 10 bitSize]: [n] is the value read so
    far. A byte that is not a decimal digit is a syntax error (letters
    decode to 10 and more, which base 10 refuses), an overflow is a range
    error; both are [None]. *)
Fixpoint parseUintLoop (maxVal : Z) (s : string) (n : Z) : option Z :=
  match s with
  | EmptyString => Some n
  | String c s' =>
      if (48 <=? code c) && (code c <=? 57) then
        let d := code c - 48 in
        if maxUint64 / 10 + 1 <=? n then None
        else
          let n10 := n * 10 in
          let n1 := (n10 + d) mod 2^64 in
          if (n1 <? n10) || (maxVal <? n1) then None
          else parseUintLoop maxVal s' n1
      else None
  end.

(** [strconv.ParseUint s 10 bitSize]. *)
Definition ParseUint (s : string) (bitSize : Z) : option Z :=
  if String.eqb s "" then None
  else
    let bitSize := if bitSize =? 0 then intSize else bitSize in
    parseUintLoop (2^bitSize - 1) s 0.

(** [strconv.ParseInt s 10 0]. *)
Definition ParseInt (s : string) : option Z :=
  match s with
  | EmptyString => None
  | String c s' =>
      let neg := Ascii.eqb c "-" in
      let s1 := if Ascii.eqb c "+" || neg then s' else s in
      match ParseUint s1 0 with
      | None => None
      | Some un =>
          let cutoff := 2^(intSize - 1) in
          if negb neg && (cutoff <=? un) then None
          else if neg && (cutoff <? un) then None
          else Some (if neg then - un else un)
      end
  end.

(** The digit loop of the fast path of [Atoi]: [ch -= '0'] wraps in a
    byte, [ch > 9] rejects. *)
Fixpoint atoiLoop (s : string) (n : Z) : option Z :=
  match s with
  | EmptyString => Some n
  | String c s' =>
      let ch := (code c - 48) mod 256 in
      if 9 <? ch then None else atoiLoop s' (n * 10 + ch)
  end.

(** [strconv.Atoi]: fewer than 19 bytes take the fast path, the rest go
    through [ParseInt]. *)
Definition Atoi (s : string) : option Z :=
  let sLen := String.length s in
  if ((0 <? sLen) && (sLen <? 19))%nat then
    match s with
    | EmptyString => None
    | String c s' =>
        let signed := Ascii.eqb c "-" || Ascii.eqb c "+" in
        let s1 := if signed then s' else s in
        if signed && (String.length s1 <? 1)%nat then None
        else
          match atoiLoop s1 0 with
          | None => None
          | Some n => Some (if Ascii.eqb c "-" then - n else n)
          end
    end
  else ParseInt s.

End strconv.

Module fmt.

(** [byte('0' + d)]. *)
Definition digitChar (d : Z) : ascii := ascii_of_nat (Z.to_nat (48 + d)).

(** The digit loop of [fmtInteger] in base 10 for a value [u >= 0]: the
    last digit is [u - (u/10)*10], the digits before it are those of
    [u/10]. A 64-bit value has at most 20 digits, which bounds the
    loop. *)
Fixpoint digits (fuel : nat) (u : Z) : string :=
  match fuel with
  | O => ""
  | S fuel' =>
      if u <? 10 then String (digitChar u) ""
      else digits fuel' (u / 10) +:+ String (digitChar (u - (u / 10) * 10)) ""
  end.

(** Left padding with zeros up to [prec] digits. *)
Fixpoint zeroPad (n : nat) (s : string) : string :=
  match n with
  | O => s
  | S n' => String "0" (zeroPad n' s)
  end.

(** [fmtInteger] for a value [u >= 0], the only kind [infinitive.go]
    prints: verb [%d] has [prec = 0], verb [%02d] has [prec = 2]. *)
Definition fmtInteger (u : Z) (prec : nat) : string :=
  let s := digits 20 u in
  zeroPad (prec - String.length s) s.

(** [Sprintf "%d" u] and [Sprintf "%02d" u]. *)
Definition d (u : Z) : string := fmtInteger u 0.
Definition d02 (u : Z) : string := fmtInteger u 2.

End fmt.

(* ===================================================================== *)
(** * The HVAC model *)
(* ===================================================================== *)

(** ** Thermostat tables *)

Module TStatZoneParams.
(** Modelled from the spec: the table struct is declared in another file of
    the package. [TStatZoneParams] holds the setpoints, the hold bitmap, the
    override durations, the fan modes, the zone names and the target
    humidity; the per-zone fields are arrays of 8 entries ([uint8], and
    [uint16] for the durations), a name is 12 bytes and the hold bitmap is
    an 8-bit mask. *)
Record t := {
  ZFanMode : list Z;
  ZoneHold : Z;
  ZHeatSetpoint : list Z;
  ZCoolSetpoint : list Z;
  ZTargetHumidity : list Z;
  ZOvrdDuration : list Z;
  ZName : list (list byte);
}.

(** The zero value [TStatZoneParams{}]. *)
Definition zero : t := {|
  ZFanMode := replicate 8 0;
  ZoneHold := 0;
  ZHeatSetpoint := replicate 8 0;
  ZCoolSetpoint := replicate 8 0;
  ZTargetHumidity := replicate 8 0;
  ZOvrdDuration := replicate 8 0;
  ZName := replicate 8 (replicate 12 x00);
|}.

Definition setZFanMode (zi : nat) (v : Z) (p : t) : t := {|
  ZFanMode := <[zi := v]> (ZFanMode p);
  ZoneHold := ZoneHold p;
  ZHeatSetpoint := ZHeatSetpoint p;
  ZCoolSetpoint := ZCoolSetpoint p;
  ZTargetHumidity := ZTargetHumidity p;
  ZOvrdDuration := ZOvrdDuration p;
  ZName := ZName p;
|}.

Definition setZHeatSetpoint (zi : nat) (v : Z) (p : t) : t := {|
  ZFanMode := ZFanMode p;
  ZoneHold := ZoneHold p;
  ZHeatSetpoint := <[zi := v]> (ZHeatSetpoint p);
  ZCoolSetpoint := ZCoolSetpoint p;
  ZTargetHumidity := ZTargetHumidity p;
  ZOvrdDuration := ZOvrdDuration p;
  ZName := ZName p;
|}.

Definition setZCoolSetpoint (zi : nat) (v : Z) (p : t) : t := {|
  ZFanMode := ZFanMode p;
  ZoneHold := ZoneHold p;
  ZHeatSetpoint := ZHeatSetpoint p;
  ZCoolSetpoint := <[zi := v]> (ZCoolSetpoint p);
  ZTargetHumidity := ZTargetHumidity p;
  ZOvrdDuration := ZOvrdDuration p;
  ZName := ZName p;
|}.

Definition setZoneHold (v : Z) (p : t) : t := {|
  ZFanMode := ZFanMode p;
  ZoneHold := v;
  ZHeatSetpoint := ZHeatSetpoint p;
  ZCoolSetpoint := ZCoolSetpoint p;
  ZTargetHumidity := ZTargetHumidity p;
  ZOvrdDuration := ZOvrdDuration p;
  ZName := ZName p;
|}.
End TStatZoneParams.
Abbreviation TStatZoneParams := TStatZoneParams.t.

Module TStatCurrentParams.
(** Modelled from the spec: the table struct is declared in another file of
    the package. [TStatCurrentParams] holds the live mode and stage byte,
    the outdoor temperature and the per-zone current temperatures and
    humidities, arrays of 8 [uint8]. *)
Record t := {
  ZCurrentTemp : list Z;
  ZCurrentHumidity : list Z;
  OutdoorAirTemp : Z;
  Mode : Z;
}.

(** [TStatCurrentParams{Mode: mode}]. *)
Definition withMode (mode : Z) : t := {|
  ZCurrentTemp := replicate 8 0;
  ZCurrentHumidity := replicate 8 0;
  OutdoorAirTemp := 0;
  Mode := mode;
|}.
End TStatCurrentParams.
Abbreviation TStatCurrentParams := TStatCurrentParams.t.

(** ** Projected views *)

Module TStatZoneConfig.
(** [Hold] is a [*bool]: [None] is the nil pointer. *)
Record t := {
  ZoneNumber : Z;
  CurrentTemp : Z;
  CurrentHumidity : Z;
  TargetHumidity : Z;
  ZoneName : string;
  FanMode : string;
  Hold : option bool;
  Preset : string;
  HeatSetpoint : Z;
  CoolSetpoint : Z;
  OvrdDuration : string;
  OvrdDurationMins : Z;
  OutdoorTemp : Z;
  Mode : string;
  Stage : Z;
  Action : string;
  RawMode : Z;
}.

(** The zero value [TStatZoneConfig{}]. *)
Definition zero : t := {|
  ZoneNumber := 0; CurrentTemp := 0; CurrentHumidity := 0;
  TargetHumidity := 0; ZoneName := ""; FanMode := ""; Hold := None;
  Preset := ""; HeatSetpoint := 0; CoolSetpoint := 0; OvrdDuration := "";
  OvrdDurationMins := 0; OutdoorTemp := 0; Mode := ""; Stage := 0;
  Action := ""; RawMode := 0;
|}.
End TStatZoneConfig.
Abbreviation TStatZoneConfig := TStatZoneConfig.t.

Module TStatZonesConfig.
Record t := {
  Zones : list TStatZoneConfig;
  OutdoorTemp : Z;
  Mode : string;
  Stage : Z;
  Action : string;
  RawMode : Z;
}.
End TStatZonesConfig.
Abbreviation TStatZonesConfig := TStatZonesConfig.t.

Module AirHandler.
(** [StaticPressure] is a [float32], kept as the rational it denotes. *)
Record t := {
  BlowerRPM : Z;
  AirFlowCFM : Z;
  StaticPressure : Q;
  HeatStage : Z;
  ElecHeat : bool;
  Action : string;
}.

Definition zero : t := {|
  BlowerRPM := 0; AirFlowCFM := 0; StaticPressure := 0%Q; HeatStage := 0;
  ElecHeat := false; Action := "";
|}.
End AirHandler.
Abbreviation AirHandler := AirHandler.t.

Module HeatPump.
(** [CoilTemp] and [OutsideTemp] are [float32], kept as the rationals
    they denote. *)
Record t := {
  CoilTemp : Q;
  OutsideTemp : Q;
  Stage : Z;
}.

Definition zero : t := {| CoilTemp := 0%Q; OutsideTemp := 0%Q; Stage := 0 |}.
End HeatPump.
Abbreviation HeatPump := HeatPump.t.

Module DamperPosition.
Record t := { DamperPos : list Z }.

Definition zero : t := {| DamperPos := replicate 8 0 |}.
End DamperPosition.
Abbreviation DamperPosition := DamperPosition.t.

(** ** What [infinitive.go] takes from the rest of the package

    The device address of the thermostat and the enum translators are
    declared in other files of the package. [round32] is the rounding of a
    real result to the nearest [float32]. *)
Class Tables := {
  devTSTAT : Z;
  rawModeToString : Z → string;
  rawFanModeToString : Z → string;
  rawActionToString : Z → string;
  stringModeToRaw : string → option Z;
  stringFanModeToRaw : string → option Z;
  round32 : Q → Q;
}.

(** [holdTime]. *)
Definition holdTime (ht : Z) : string :=
  if ht =? 0 then ""
  else fmt.d (ht / 60) +:+ ":" +:+ fmt.d02 (ht mod 60).


(** ** The earlier revision's air handler view *)

Module Rev1.
Module AirHandler.
Record t := {
  BlowerRPM : Z;
  AirFlowCFM : Z;
  ElecHeat : bool;
}.

Definition zero : t :=
  {| BlowerRPM := 0; AirFlowCFM := 0; ElecHeat := false |}.
End AirHandler.
End Rev1.

(* ===================================================================== *)
(** * The state cache *)
(* ===================================================================== *)

(** A value held by the cache, Go's [interface{}]: one constructor per
    dynamic type the program stores. The struct values are stored through
    pointers to copies that are never written again. *)
Inductive Value : Type :=
| VTStat (c : TStatZonesConfig)
| VAirHandler (a : AirHandler)
| VAirHandlerRev1 (a : Rev1.AirHandler.t)
| VHeatPump (h : HeatPump)
| VDamperPosition (d : DamperPosition)
| VUint8 (n : Z)
| VUint16 (n : Z)
| VUint (n : Z)
| VFloat32 (q : Q)
| VString (s : string)
| VBool (b : bool).

(** Modelled from the spec: the cache is declared in another file of the
    package. It is a mapping from string keys to values where [update] is
    last-writer-wins and publishes a change event, and [get] returns the
    current value or nothing. [events] is the sequence of published changes,
    oldest first. *)
Record Cache := {
  store : gmap string Value;
  events : list (string * Value);
}.

(** Code that reads and updates the cache and can panic. *)
Definition M (A : Type) : Type := Cache → Res (A * Cache).

#[global] Instance M_ret : MRet M := λ A a c, Ok (a, c).

#[global] Instance M_bind : MBind M := λ A B k m c,
  match m c with
  | Ok (a, c') => k a c'
  | Panic => Panic
  end.

(** A step that only computes. *)
Definition lift {A : Type} (r : Res A) : M A := λ c,
  match r with
  | Ok a => Ok (a, c)
  | Panic => Panic
  end.

(** [for _, x := range l { s = body x s }]. *)
Fixpoint forEach {A S : Type} (l : list A) (body : A → S → M S) (s : S) : M S :=
  match l with
  | [] => mret s
  | x :: l' => s' ← body x s; forEach l' body s'
  end.

Module cache.

(** The cache after [update key v]. *)
Definition put (key : string) (v : Value) (c : Cache) : Cache :=
  {| store := <[key := v]> (store c);
     events := events c ++ [(key, v)] |}.

Definition update (key : string) (v : Value) : M unit := λ c,
  Ok (tt, put key v c).

Definition get (key : string) : M (option Value) := λ c,
  Ok (store c !! key, c).

Definition empty : Cache := {| store := ∅; events := [] |}.

End cache.

(** The final cache of a computation. *)
Definition exec {A : Type} (m : M A) (c : Cache) : Res Cache :=
  match m c with
  | Ok (_, c') => Ok c'
  | Panic => Panic
  end.

(** The changes published for one key. *)
Definition eventsOf (key : string) (evs : list (string * Value)) : list Value :=
  (filter (λ e, e.1 = key) evs).*2.

(* ===================================================================== *)
(** * The bus *)
(* ===================================================================== *)

(** Modelled from the spec: the protocol engine is declared in another file
    of the package. [ReadTable] decodes the response into the caller's table
    value and fails on a timeout, a refusal or a decode error; a [Bus] gives
    the outcome of the reads of one moment. *)
Record Bus := {
  readZoneParams : Z → option TStatZoneParams;
  readCurrentParams : Z → option TStatCurrentParams;
  readRaw : Z → list byte → option (list byte);
}.

(** The write requests [putConfig] hands to the protocol engine. *)
Inductive BusWrite : Type :=
| WriteTableZ (dev : Z) (tbl : TStatZoneParams) (zone : Z) (flags : Z)
| WriteTable (dev : Z) (tbl : TStatCurrentParams) (flags : Z).

Module InfinityFrame.
(** Modelled from the spec: the frame struct is declared in another file of
    the package. Of a frame the snoop callbacks read the payload [data] and
    their dispatch reads the 16-bit source address. *)
Record t := {
  src : Z;
  data : list byte;
}.
End InfinityFrame.
Abbreviation InfinityFrame := InfinityFrame.t.

(* ===================================================================== *)
(** * Projections of the tables *)
(* ===================================================================== *)

Section Program.
Context `{Tables}.

Import TStatZoneParams TStatCurrentParams.

(** [(hold & (0x01 << zi)) != 0] on the 8-bit hold bitmap. *)
Definition holdBit (hold : Z) (zi : Z) : bool :=
  negb (Z.land hold (Z.shiftl 1 zi mod 256) =? 0).

(** The entry [getZonesConfig] builds for zone index [zi]. *)
Definition zoneEntry (cfg : TStatZoneParams) (params : TStatCurrentParams)
    (zi : nat) : TStatZoneConfig :=
  let holdz := holdBit (ZoneHold cfg) (Z.of_nat zi) in
  let presetz := if holdz then "hold" else "none" in
  {| TStatZoneConfig.ZoneNumber := (Z.of_nat zi + 1) mod 256;
     TStatZoneConfig.CurrentTemp := nth zi (ZCurrentTemp params) 0;
     TStatZoneConfig.CurrentHumidity := nth zi (ZCurrentHumidity params) 0;
     TStatZoneConfig.TargetHumidity := 0;
     TStatZoneConfig.ZoneName :=
       string_of_list_byte (bytes.Trim (nth zi (ZName cfg) []) [x20; x00]);
     TStatZoneConfig.FanMode := rawFanModeToString (nth zi (ZFanMode cfg) 0);
     TStatZoneConfig.Hold := Some holdz;
     TStatZoneConfig.Preset := presetz;
     TStatZoneConfig.HeatSetpoint := nth zi (ZHeatSetpoint cfg) 0;
     TStatZoneConfig.CoolSetpoint := nth zi (ZCoolSetpoint cfg) 0;
     TStatZoneConfig.OvrdDuration := holdTime (nth zi (ZOvrdDuration cfg) 0);
     TStatZoneConfig.OvrdDurationMins := nth zi (ZOvrdDuration cfg) 0;
     TStatZoneConfig.OutdoorTemp := 0;
     TStatZoneConfig.Mode := "";
     TStatZoneConfig.Stage := 0;
     TStatZoneConfig.Action := "";
     TStatZoneConfig.RawMode := 0 |}.

(** One iteration of the loop of [getZonesConfig]: [zoneArr] and the count
    [zc] of entries written so far. *)
Definition zoneStep (cfg : TStatZoneParams) (params : TStatCurrentParams)
    (st : list TStatZoneConfig * nat) (zi : nat) : list TStatZoneConfig * nat :=
  let '(zoneArr, zc) := st in
  if (0 <? nth zi (ZCurrentTemp params) 0) && (nth zi (ZCurrentTemp params) 0 <? 255)
  then (<[zc := zoneEntry cfg params zi]> zoneArr, S zc)
  else (zoneArr, zc).

(** [getZonesConfig]: both tables are read, then the 8 zone slots are
    scanned in order. *)
Definition getZonesConfig (bus : Bus) : option TStatZonesConfig :=
  cfg ← readZoneParams bus devTSTAT;
  params ← readCurrentParams bus devTSTAT;
  let zoneArr := replicate 8 TStatZoneConfig.zero in
  let '(zoneArr, zc) := foldl (zoneStep cfg params) (zoneArr, 0%nat) (seq 0 8) in
  Some {| TStatZonesConfig.Zones := take zc zoneArr;
          TStatZonesConfig.OutdoorTemp := OutdoorAirTemp params;
          TStatZonesConfig.Mode := rawModeToString (Z.land (Mode params) 0xf);
          TStatZonesConfig.Stage := Z.shiftr (Mode params) 5;
          TStatZonesConfig.Action := rawActionToString (Z.shiftr (Mode params) 5);
          TStatZonesConfig.RawMode := Mode params |}.

(** [getZNConfig]. *)
Definition getZNConfig (bus : Bus) (zi : Z) : option TStatZoneConfig :=
  if (zi <? 0) || (7 <? zi) then None
  else
    cfg ← readZoneParams bus devTSTAT;
    params ← readCurrentParams bus devTSTAT;
    let hold := holdBit (ZoneHold cfg) zi in
    let presetz := if hold then "hold" else "none" in
    let i := Z.to_nat zi in
    Some {| TStatZoneConfig.ZoneNumber := 0;
            TStatZoneConfig.CurrentTemp := nth i (ZCurrentTemp params) 0;
            TStatZoneConfig.CurrentHumidity := nth i (ZCurrentHumidity params) 0;
            TStatZoneConfig.OutdoorTemp := OutdoorAirTemp params;
            TStatZoneConfig.Mode := rawModeToString (Z.land (Mode params) 0xf);
            TStatZoneConfig.Stage := Z.shiftr (Mode params) 5;
            TStatZoneConfig.Action := rawActionToString (Z.shiftr (Mode params) 5);
            TStatZoneConfig.FanMode := rawFanModeToString (nth i (ZFanMode cfg) 0);
            TStatZoneConfig.Hold := Some hold;
            TStatZoneConfig.Preset := presetz;
            TStatZoneConfig.HeatSetpoint := nth i (ZHeatSetpoint cfg) 0;
            TStatZoneConfig.CoolSetpoint := nth i (ZCoolSetpoint cfg) 0;
            TStatZoneConfig.OvrdDuration := holdTime (nth i (ZOvrdDuration cfg) 0);
            TStatZoneConfig.OvrdDurationMins := nth i (ZOvrdDuration cfg) 0;
            TStatZoneConfig.ZoneName :=
              string_of_list_byte (bytes.Trim (nth i (ZName cfg) []) [x20; x00]);
            TStatZoneConfig.TargetHumidity := nth i (ZTargetHumidity cfg) 0;
            TStatZoneConfig.RawMode := Mode params |}.

(* ===================================================================== *)
(** * The mutation path *)
(* ===================================================================== *)

(** [putConfig]: the result and the write requests issued, in order. The
    inner [switch] yields the table and the mask to write, or nothing where
    the source returns [false]. *)
Definition putConfig (zone param value : string) : bool * list BusWrite :=
  let params := TStatZoneParams.zero in
  let flags := 0 in
  match strconv.Atoi zone with
  | None => (false, [])
  | Some zn =>
      let zi := zn - 1 in
      if (1 <=? zn) && (zn <=? 8) then
        let sw :=
          if String.eqb param "fanMode" then
            match stringFanModeToRaw value with
            | None => None
            | Some mode =>
                Some (setZFanMode (Z.to_nat zi) mode params, Z.lor flags 0x01)
            end
          else if String.eqb param "coolSetpoint" then
            match strconv.ParseUint value 8 with
            | None => None
            | Some val =>
                Some (setZCoolSetpoint (Z.to_nat zi) (val mod 256) params,
                      Z.lor flags 0x08)
            end
          else if String.eqb param "heatSetpoint" then
            match strconv.ParseUint value 8 with
            | None => None
            | Some val =>
                Some (setZHeatSetpoint (Z.to_nat zi) (val mod 256) params,
                      Z.lor flags 0x04)
            end
          else if String.eqb param "hold" then
            let val :=
              if String.eqb value "true" then Some true
              else if String.eqb value "false" then Some false
              else None in
            match val with
            | None => None
            | Some val =>
                Some (if val then setZoneHold (Z.shiftl 1 zi mod 256) params
                      else params,
                      Z.lor flags 0x02)
            end
          else if String.eqb param "preset" then
            let val :=
              if String.eqb value "hold" then Some true
              else if String.eqb value "none" then Some false
              else None in
            match val with
            | None => None
            | Some val =>
                Some (if val then setZoneHold (Z.shiftl 1 zi mod 256) params
                      else params,
                      Z.lor flags 0x02)
            end
          else None in
        match sw with
        | None => (false, [])
        | Some (params, flags) =>
            (true,
             if negb (flags =? 0)
             then [WriteTableZ devTSTAT params (zi mod 256) flags]
             else [])
        end
      else if zn =? 0 then
        if String.eqb param "mode" then
          match stringModeToRaw value with
          | None => (false, [])
          | Some mode =>
              (true, [WriteTable devTSTAT (TStatCurrentParams.withMode mode) 0x10])
          end
        else (false, [])
      else (false, [])
  end.

(* ===================================================================== *)
(** * Cached views *)
(* ===================================================================== *)

(** [getAirHandler], [getHeatPump], [getDamperPosition]: the cached value
    when it has the expected dynamic type. *)
Definition getAirHandler : M (option AirHandler) :=
  b ← cache.get "blower";
  mret (match b with Some (VAirHandler tb) => Some tb | _ => None end).

Definition getHeatPump : M (option HeatPump) :=
  h ← cache.get "heatpump";
  mret (match h with Some (VHeatPump th) => Some th | _ => None end).

Definition getDamperPosition : M (option DamperPosition) :=
  h ← cache.get "damperpos";
  mret (match h with Some (VDamperPosition th) => Some th | _ => None end).

(* ===================================================================== *)
(** * The state poller *)
(* ===================================================================== *)

(** [byte(x)] of an integer. *)
Definition toByte (x : Z) : byte :=
  default x00 (Byte.of_N (Z.to_N (x mod 256))).

(** [getRawData]: the table address is copied from [tbl[0:3]], the read is
    issued and its outcome only logged. *)
Definition getRawData (bus : Bus) (dev : Z) (tbl : list byte) : Res unit :=
  addr ← slice tbl 0 3;
  match readRaw bus dev addr with
  | Some _ => Ok tt
  | None => Ok tt
  end.

(** One iteration of the loop of [statePoller] over the zone list: the
    flat mirror keys of the zone [z]. [hum] is the local of that name. *)
Definition pollZone (pf : string) (z : TStatZoneConfig) (hum : Z) : M Z :=
  let zp := pf +:+ "/zone/" +:+ fmt.d (TStatZoneConfig.ZoneNumber z) in
  cache.update (zp +:+ "/currentTemp") (VUint8 (TStatZoneConfig.CurrentTemp z));;
  cache.update (zp +:+ "/humidity") (VUint8 (TStatZoneConfig.CurrentHumidity z));;
  let hum := TStatZoneConfig.CurrentHumidity z in
  cache.update (zp +:+ "/coolSetpoint") (VUint8 (TStatZoneConfig.CoolSetpoint z));;
  cache.update (zp +:+ "/heatSetpoint") (VUint8 (TStatZoneConfig.HeatSetpoint z));;
  cache.update (zp +:+ "/fanMode") (VString (TStatZoneConfig.FanMode z));;
  hold ← lift (match TStatZoneConfig.Hold z with
               | Some b => Ok b
               | None => Panic
               end);
  cache.update (zp +:+ "/hold") (VBool hold);;
  cache.update (zp +:+ "/overrideDuration") (VString (TStatZoneConfig.OvrdDuration z));;
  cache.update (zp +:+ "/preset") (VString (TStatZoneConfig.Preset z));;
  mret hum.

(** The body of the [if ok] of [statePoller]: the typed key, then the flat
    mirror keys. *)
Definition pollUpdate (c1 : TStatZonesConfig) : M unit :=
  cache.update "tstat" (VTStat c1);;
  let pf := "mqtt/infinitive" in
  hum ← forEach (TStatZonesConfig.Zones c1) (pollZone pf) 0;
  (if 0 <? hum then cache.update (pf +:+ "/humidity") (VUint8 hum) else mret tt);;
  cache.update (pf +:+ "/outdoorTemp") (VUint8 (TStatZonesConfig.OutdoorTemp c1));;
  cache.update (pf +:+ "/mode") (VString (TStatZonesConfig.Mode c1));;
  cache.update (pf +:+ "/rawMode") (VUint8 (TStatZonesConfig.RawMode c1)).

(** One pass of the loop of [statePoller]; [bus] gives the outcome of the
    reads of this pass, the result is the next [mon_i]. The sleep at the end
    of the pass is not modelled. *)
Definition pollTick (monArray : list Z) (bus : Bus) (mon_i : nat) : M nat :=
  match getZonesConfig bus with
  | Some c1 => pollUpdate c1
  | None => mret tt
  end;;
  if (0 <? length monArray)%nat then
    m ← lift (match monArray !! mon_i with Some m => Ok m | None => Panic end);
    lift (getRawData bus 0x2001
            [x00; toByte (Z.land (Z.shiftr m 8) 0xff); toByte (Z.land m 0xff)]);;
    mret ((mon_i + 1) mod length monArray)%nat
  else mret mon_i.

(** The loop of [statePoller] from a given [mon_i], for as many passes as
    [ticks] is long. *)
Fixpoint pollLoop (monArray : list Z) (ticks : list Bus) (mon_i : nat) : M nat :=
  match ticks with
  | [] => mret mon_i
  | bus :: ticks' =>
      mon_i' ← pollTick monArray bus mon_i;
      pollLoop monArray ticks' mon_i'
  end.

(** [statePoller]: the loop starts with [mon_i := 0]. *)
Definition statePoller (monArray : list Z) (ticks : list Bus) : M nat :=
  pollLoop monArray ticks 0%nat.

(* ===================================================================== *)
(** * The snoop decoders *)
(* ===================================================================== *)

(** A registration made by [snoopResponse]. *)
Record Snoop := {
  srcMin : Z;
  srcMax : Z;
  cb : InfinityFrame → M unit;
}.

(** [float32(u) / float32(16)] for a [uint16] [u]: the conversion and the
    division by a power of two are exact in [float32]. *)
Definition div16 (u : Z) : Q := Qmake u 16.

(** [int(q)]: truncation toward zero. *)
Definition truncate (q : Q) : Z := Z.quot (Qnum q) (Z.pos (Qden q)).

(** The static pressure of the air handler: every [float32] operation that
    can round is followed by [round32]. *)
Definition staticPressure (u : Z) : Q :=
  let x := round32 (Qmake u 65536 * inject_Z 10000)%Q in
  let y := round32 (x + Qmake 1 2)%Q in
  round32 (inject_Z (truncate y) / inject_Z 10000)%Q.

Definition snoopHeatPump (frame : InfinityFrame) : M unit :=
  data ← lift (sliceFrom (InfinityFrame.data frame) 3);
  hp ← getHeatPump;
  match hp with
  | Some heatPump =>
      pfx ← lift (slice (InfinityFrame.data frame) 0 3);
      if bytes.Equal pfx [x00; x3e; x01] then
        s ← lift (slice data 2 4);
        coil ← lift (binary.BigEndian_Uint16 s);
        let heatPump := {| HeatPump.CoilTemp := div16 coil;
                           HeatPump.OutsideTemp := HeatPump.OutsideTemp heatPump;
                           HeatPump.Stage := HeatPump.Stage heatPump |} in
        s ← lift (slice data 0 2);
        outside ← lift (binary.BigEndian_Uint16 s);
        let heatPump := {| HeatPump.CoilTemp := HeatPump.CoilTemp heatPump;
                           HeatPump.OutsideTemp := div16 outside;
                           HeatPump.Stage := HeatPump.Stage heatPump |} in
        cache.update "heatpump" (VHeatPump heatPump);;
        cache.update "mqtt/infinitive/coilTemp" (VFloat32 (HeatPump.CoilTemp heatPump));;
        cache.update "mqtt/infinitive/outsideTemp" (VFloat32 (HeatPump.OutsideTemp heatPump))
      else
        pfx ← lift (slice (InfinityFrame.data frame) 0 3);
        if bytes.Equal pfx [x00; x3e; x02] then
          b ← lift (index data 0);
          let heatPump := {| HeatPump.CoilTemp := HeatPump.CoilTemp heatPump;
                             HeatPump.OutsideTemp := HeatPump.OutsideTemp heatPump;
                             HeatPump.Stage := Z.shiftr (u8 b) 1 |} in
          cache.update "heatpump" (VHeatPump heatPump);;
          cache.update "mqtt/infinitive/acStage" (VUint8 (HeatPump.Stage heatPump))
        else mret tt
  | None => mret tt
  end.

Definition snoopAirHandler (frame : InfinityFrame) : M unit :=
  data ← lift (sliceFrom (InfinityFrame.data frame) 3);
  ah ← getAirHandler;
  match ah with
  | Some airHandler =>
      pfx ← lift (slice (InfinityFrame.data frame) 0 3);
      if bytes.Equal pfx [x00; x03; x06] then
        s ← lift (slice data 1 3);
        rpm ← lift (binary.BigEndian_Uint16 s);
        let airHandler := {| AirHandler.BlowerRPM := rpm;
                             AirHandler.AirFlowCFM := AirHandler.AirFlowCFM airHandler;
                             AirHandler.StaticPressure := AirHandler.StaticPressure airHandler;
                             AirHandler.HeatStage := AirHandler.HeatStage airHandler;
                             AirHandler.ElecHeat := AirHandler.ElecHeat airHandler;
                             AirHandler.Action := AirHandler.Action airHandler |} in
        cache.update "blower" (VAirHandler airHandler);;
        cache.update "mqtt/infinitive/blowerRPM" (VUint16 (AirHandler.BlowerRPM airHandler))
      else
        pfx ← lift (slice (InfinityFrame.data frame) 0 3);
        if bytes.Equal pfx [x00; x03; x16] then
          b0 ← lift (index data 0);
          let heatStage := u8 b0 in
          s ← lift (slice data 4 6);
          cfm ← lift (binary.BigEndian_Uint16 s);
          s ← lift (slice data 7 9);
          sp ← lift (binary.BigEndian_Uint16 s);
          b0 ← lift (index data 0);
          let elecHeat := negb (Z.land (u8 b0) 0x03 =? 0) in
          b2 ← lift (index data 2);
          action ←
            (if negb (Z.land (u8 b2) 0x03 =? 0) then mret "cooling"
             else
               b0 ← lift (index data 0);
               if negb (Z.land (u8 b0) 0x03 =? 0) then mret "heating"
               else mret "idle");
          let airHandler := {| AirHandler.BlowerRPM := AirHandler.BlowerRPM airHandler;
                               AirHandler.AirFlowCFM := cfm;
                               AirHandler.StaticPressure := staticPressure sp;
                               AirHandler.HeatStage := heatStage;
                               AirHandler.ElecHeat := elecHeat;
                               AirHandler.Action := action |} in
          cache.update "blower" (VAirHandler airHandler);;
          cache.update "mqtt/infinitive/heatStage" (VUint8 (AirHandler.HeatStage airHandler));;
          cache.update "mqtt/infinitive/action" (VString (AirHandler.Action airHandler));;
          cache.update "mqtt/infinitive/airflowCFM" (VUint16 (AirHandler.AirFlowCFM airHandler));;
          cache.update "mqtt/infinitive/staticPressure"
            (VFloat32 (AirHandler.StaticPressure airHandler))
        else mret tt
  | None => mret tt
  end.

(** One iteration of the loop over the 8 damper slots. The mirrored value
    is [uint(pos) * 100 / 15]. *)
Definition damperStep (data : list byte) (zi : nat) (damperPos : DamperPosition)
    : M DamperPosition :=
  b ← lift (index data zi);
  if negb (u8 b =? 0xff) then
    let damperPos :=
      {| DamperPosition.DamperPos := <[zi := u8 b]> (DamperPosition.DamperPos damperPos) |} in
    cache.update ("mqtt/infinitive/zone/" +:+ fmt.d (Z.of_nat zi + 1) +:+ "/damperPos")
      (VUint ((nth zi (DamperPosition.DamperPos damperPos) 0 * 100) mod 2^64 / 15));;
    mret damperPos
  else mret damperPos.

Definition snoopDamper (frame : InfinityFrame) : M unit :=
  data ← lift (sliceFrom (InfinityFrame.data frame) 3);
  dp ← getDamperPosition;
  match dp with
  | Some damperPos =>
      pfx ← lift (slice (InfinityFrame.data frame) 0 3);
      if bytes.Equal pfx [x00; x03; x19] then
        damperPos ← forEach (seq 0 8) (damperStep data) damperPos;
        cache.update "damperpos" (VDamperPosition damperPos)
      else mret tt
  | None => mret tt
  end.

(** [attachSnoops]: the three registrations, in order. *)
Definition attachSnoops : list Snoop :=
  [ {| srcMin := 0x5000; srcMax := 0x51ff; cb := snoopHeatPump |};
    {| srcMin := 0x4000; srcMax := 0x42ff; cb := snoopAirHandler |};
    {| srcMin := 0x6000; srcMax := 0x61ff; cb := snoopDamper |} ].

(** Modelled from the spec: the snoop dispatcher is declared in another file
    of the package. On an inbound frame it invokes every callback whose
    source range covers the source of the frame, in registration order. *)
Definition dispatch (snoops : list Snoop) (frame : InfinityFrame) : M unit :=
  forEach snoops (λ s _,
    if (srcMin s <=? InfinityFrame.src frame) && (InfinityFrame.src frame <=? srcMax s)
    then cb s frame else mret tt) tt.

(** The cache as [main] leaves it before the snoops are attached. *)
Definition mainCache : Cache :=
  cache.put "damperpos" (VDamperPosition DamperPosition.zero)
    (cache.put "heatpump" (VHeatPump HeatPump.zero)
       (cache.put "blower" (VAirHandler AirHandler.zero) cache.empty)).

End Program.

(** ** The air handler decoder of the earlier revision *)

Module Rev1Snoop.

Definition getAirHandler : M (option Rev1.AirHandler.t) :=
  b ← cache.get "blower";
  mret (match b with Some (VAirHandlerRev1 tb) => Some tb | _ => None end).

Definition snoopAirHandler (frame : InfinityFrame) : M unit :=
  data ← lift (sliceFrom (InfinityFrame.data frame) 3);
  ah ← getAirHandler;
  match ah with
  | Some airHandler =>
      pfx ← lift (slice (InfinityFrame.data frame) 0 3);
      if bytes.Equal pfx [x00; x03; x06] then
        s ← lift (slice data 1 5);
        rpm ← lift (binary.BigEndian_Uint16 s);
        let airHandler :=
          {| Rev1.AirHandler.BlowerRPM := rpm;
             Rev1.AirHandler.AirFlowCFM := Rev1.AirHandler.AirFlowCFM airHandler;
             Rev1.AirHandler.ElecHeat := Rev1.AirHandler.ElecHeat airHandler |} in
        cache.update "blower" (VAirHandlerRev1 airHandler)
      else
        pfx ← lift (slice (InfinityFrame.data frame) 0 3);
        if bytes.Equal pfx [x00; x03; x16] then
          s ← lift (slice data 4 8);
          cfm ← lift (binary.BigEndian_Uint16 s);
          b0 ← lift (index data 0);
          let airHandler :=
            {| Rev1.AirHandler.BlowerRPM := Rev1.AirHandler.BlowerRPM airHandler;
               Rev1.AirHandler.AirFlowCFM := cfm;
               Rev1.AirHandler.ElecHeat := negb (Z.land (u8 b0) 0x03 =? 0) |} in
          cache.update "blower" (VAirHandlerRev1 airHandler)
        else mret tt
  | None => mret tt
  end.

End Rev1Snoop.

(* ===================================================================== *)
(** * A concrete instance of the missing declarations *)
(* ===================================================================== *)

(** Rounding of a positive rational to 24 significant bits, ties to even;
    zero and negative values are left alone. This is [float32] rounding on
    the range the air handler decoder reaches. *)
Definition roundNearest24 (q : Q) : Q :=
  let n := Qnum q in
  let d := Z.pos (Qden q) in
  if n <=? 0 then q
  else
    let e0 := Z.log2 n - Z.log2 d in
    let below := if e0 <? 0 then n * 2^(- e0) <? d else n <? d * 2^e0 in
    let e := (if below then e0 - 1 else e0) - 23 in
    let num := if e <? 0 then n * 2^(- e) else n in
    let den := if e <? 0 then d else d * 2^e in
    let f := num / den in
    let r := 2 * (num - f * den) in
    let m := if r <? den then f
             else if den <? r then f + 1
             else if Z.even f then f else f + 1 in
    if e <? 0 then Qmake m (Z.to_pos (2^(- e))) else inject_Z (m * 2^e).

(** Modelled from the spec: the enum translators, declared in another file
    of the package, with the strings the spec lists; the address of the
    thermostat is the device the raw probes of [statePoller] read. *)
#[global] Instance specTables : Tables := {|
  devTSTAT := 0x2001;
  rawModeToString := λ m,
    if m =? 0 then "off" else if m =? 1 then "heat" else if m =? 2 then "cool"
    else if m =? 3 then "auto" else if m =? 4 then "electric"
    else if m =? 5 then "heatpump" else "unknown";
  rawFanModeToString := λ m,
    if m =? 0 then "auto" else if m =? 1 then "low" else if m =? 2 then "medium"
    else if m =? 3 then "high" else "unknown";
  rawActionToString := λ a, if a =? 0 then "idle" else "active";
  stringModeToRaw := λ s,
    if String.eqb s "off" then Some 0 else if String.eqb s "heat" then Some 1
    else if String.eqb s "cool" then Some 2 else if String.eqb s "auto" then Some 3
    else if String.eqb s "electric" then Some 4
    else if String.eqb s "heatpump" then Some 5 else None;
  stringFanModeToRaw := λ s,
    if String.eqb s "auto" then Some 0 else if String.eqb s "low" then Some 1
    else if String.eqb s "medium" then Some 2
    else if String.eqb s "high" then Some 3 else None;
  round32 := roundNearest24;
|}.

(* ===================================================================== *)
(** * Vocabulary of the specification *)
(* ===================================================================== *)

(** The value of a string of decimal digits read from the left, starting
    from [acc]; nothing when a character is not a digit. *)
Fixpoint decimalFrom (s : string) (acc : Z) : option Z :=
  match s with
  | EmptyString => Some acc
  | String c s' =>
      if (48 <=? code c) && (code c <=? 57)
      then decimalFrom s' (acc * 10 + (code c - 48))
      else None
  end.

(** The number a nonempty string of decimal digits denotes. *)
Definition decimalValue (s : string) : option Z :=
  match s with
  | EmptyString => None
  | _ => decimalFrom s 0
  end.

(** A numeral has no leading zero when it is ["0"] or does not start with
    the digit zero. *)
Definition noLeadingZero (s : string) : bool :=
  match s with
  | EmptyString => false
  | String c EmptyString => true
  | String c _ => negb (Ascii.eqb c "0")
  end.

(** The zone slot [zi] is active: its current temperature is strictly
    between 0 and 255. *)
Definition activeZone (params : TStatCurrentParams) (zi : nat) : Prop :=
  0 < nth zi (TStatCurrentParams.ZCurrentTemp params) 0 < 255.

#[global] Instance activeZone_dec params zi : Decision (activeZone params zi) :=
  and_dec (Z.lt_dec _ _) (Z.lt_dec _ _).

(** A byte of the cutset of the zone names: space or NUL. *)
Definition inCutset (c : byte) : Prop := c = x20 ∨ c = x00.

(** [nm] is [raw] with its leading and trailing cutset bytes removed and
    nothing else removed. *)
Definition trimmedBothEnds (raw nm : list byte) : Prop :=
  ∃ l r, raw = l ++ nm ++ r ∧ Forall inCutset l ∧ Forall inCutset r ∧
         (∀ c, head nm = Some c → ¬ inCutset c) ∧
         (∀ c, last nm = Some c → ¬ inCutset c).

(** [nm] is [raw] with its trailing cutset bytes removed and nothing else
    removed. *)
Definition trimmedTrailing (raw nm : list byte) : Prop :=
  ∃ r, raw = nm ++ r ∧ Forall inCutset r ∧
       (∀ c, last nm = Some c → ¬ inCutset c).

(** The integer a string denotes: an optional sign, then a nonempty string
    of decimal digits. *)
Definition integerValue (s : string) : option Z :=
  match s with
  | EmptyString => None
  | String c s' =>
      if Ascii.eqb c "+" then decimalValue s'
      else if Ascii.eqb c "-" then Z.opp <$> decimalValue s'
      else decimalValue s
  end.

Section MutationVocabulary.
Context `{Tables}.

(** What a recognized parameter and value of a zone ask to write for the
    0-based zone index [zi]: the write mask and the table sent, which is
    all zero except for the slot of the zone, or for the hold bitmap. *)
Inductive zoneWrite (zi : Z) : string → string → Z → TStatZoneParams → Prop :=
| write_fanMode value mode :
    stringFanModeToRaw value = Some mode →
    zoneWrite zi "fanMode" value 0x01
      (TStatZoneParams.setZFanMode (Z.to_nat zi) mode TStatZoneParams.zero)
| write_heatSetpoint value v :
    decimalValue value = Some v → v ≤ 255 →
    zoneWrite zi "heatSetpoint" value 0x04
      (TStatZoneParams.setZHeatSetpoint (Z.to_nat zi) v TStatZoneParams.zero)
| write_coolSetpoint value v :
    decimalValue value = Some v → v ≤ 255 →
    zoneWrite zi "coolSetpoint" value 0x08
      (TStatZoneParams.setZCoolSetpoint (Z.to_nat zi) v TStatZoneParams.zero)
| write_hold_true :
    zoneWrite zi "hold" "true" 0x02
      (TStatZoneParams.setZoneHold (2 ^ zi) TStatZoneParams.zero)
| write_hold_false :
    zoneWrite zi "hold" "false" 0x02 TStatZoneParams.zero
| write_preset_hold :
    zoneWrite zi "preset" "hold" 0x02
      (TStatZoneParams.setZoneHold (2 ^ zi) TStatZoneParams.zero)
| write_preset_none :
    zoneWrite zi "preset" "none" 0x02 TStatZoneParams.zero.

(** The calls the mutation path refuses: the zone is not an integer of
    0..8, or the parameter is not one of the zone kind, or the value is not
    an encoding of the parameter. *)
Inductive Rejected : string → string → string → Prop :=
| rej_zone zone param value :
    (∀ zn, integerValue zone = Some zn → zn < 0 ∨ 8 < zn) →
    Rejected zone param value
| rej_global_param zone param value :
    integerValue zone = Some 0 → param ≠ "mode" →
    Rejected zone param value
| rej_mode zone value :
    integerValue zone = Some 0 → stringModeToRaw value = None →
    Rejected zone "mode" value
| rej_zone_param zone param value zn :
    integerValue zone = Some zn → 1 ≤ zn ≤ 8 →
    param ∉ ["fanMode"; "coolSetpoint"; "heatSetpoint"; "hold"; "preset"] →
    Rejected zone param value
| rej_fanMode zone value zn :
    integerValue zone = Some zn → 1 ≤ zn ≤ 8 →
    stringFanModeToRaw value = None →
    Rejected zone "fanMode" value
| rej_setpoint zone param value zn :
    integerValue zone = Some zn → 1 ≤ zn ≤ 8 →
    param ∈ ["coolSetpoint"; "heatSetpoint"] →
    (∀ v, decimalValue value = Some v → 255 < v) →
    Rejected zone param value
| rej_hold zone value zn :
    integerValue zone = Some zn → 1 ≤ zn ≤ 8 →
    value ∉ ["true"; "false"] →
    Rejected zone "hold" value
| rej_preset zone value zn :
    integerValue zone = Some zn → 1 ≤ zn ≤ 8 →
    value ∉ ["hold"; "none"] →
    Rejected zone "preset" value.

End MutationVocabulary.

(** The big-endian 16-bit value of two bytes. *)
Definition be16 (hi lo : byte) : Z := 256 * u8 hi + u8 lo.

(** The mirror key of the damper position of zone slot [zi]. *)
Definition damperKey (zi : nat) : string :=
  "mqtt/infinitive/zone/" +:+ fmt.d (Z.of_nat zi + 1) +:+ "/damperPos".

(** The percentage a damper position projects to. *)
Definition damperPercent (pos : Z) : Z := pos * 100 / 15.

(** The flat mirror key of the humidity. *)
Definition humidityKey : string := "mqtt/infinitive/humidity".

(** The cursor of the probe list is usable: the list is empty, or the
    cursor points into it. *)
Definition monValid (monArray : list Z) (mon_i : nat) : Prop :=
  monArray = [] ∨ (mon_i < length monArray)%nat.

(** The three typed keys hold views of their types, as [main] leaves them:
    the snoop decoders find the view they update. *)
Definition typedKeys (c : Cache) : Prop :=
  (∃ ah, store c !! "blower" = Some (VAirHandler ah)) ∧
  (∃ hp, store c !! "heatpump" = Some (VHeatPump hp)) ∧
  (∃ dp, store c !! "damperpos" = Some (VDamperPosition dp) ∧
         length (DamperPosition.DamperPos dp) = 8%nat).

Section Activities.
Context `{Tables}.

(** The two activities that update the cache, each taken as a unit: the
    reader hands an inbound frame to the snoop dispatcher, or the poller
    makes one pass. The state is the cache and the probe cursor. *)
Inductive step (monArray : list Z) : Cache * nat → Cache * nat → Prop :=
| step_frame frame c c' mon_i :
    exec (dispatch attachSnoops frame) c = Ok c' →
    step monArray (c, mon_i) (c', mon_i)
| step_tick bus c c' mon_i mon_i' :
    pollTick monArray bus mon_i c = Ok (mon_i', c') →
    step monArray (c, mon_i) (c', mon_i').

(** The states the program reaches after [main] has filled the typed keys
    and started the poller. *)
Definition reachable (monArray : list Z) (st : Cache * nat) : Prop :=
  rtc (step monArray) (mainCache, 0%nat) st.

End Activities.

(* ===================================================================== *)
(** * Sample data *)
(* ===================================================================== *)

(** A thermostat with four zones configured; the name of the second zone
    starts with a space and the third zone reports no temperature. *)
Definition sampleZoneParams : TStatZoneParams := {|
  TStatZoneParams.ZFanMode := [0; 1; 2; 3; 0; 0; 0; 0];
  TStatZoneParams.ZoneHold := 0x09;
  TStatZoneParams.ZHeatSetpoint := [68; 66; 65; 67; 0; 0; 0; 0];
  TStatZoneParams.ZCoolSetpoint := [74; 76; 75; 77; 0; 0; 0; 0];
  TStatZoneParams.ZTargetHumidity := [40; 40; 40; 40; 0; 0; 0; 0];
  TStatZoneParams.ZOvrdDuration := [75; 0; 0; 600; 0; 0; 0; 0];
  TStatZoneParams.ZName :=
    [ list_byte_of_string "Upstairs    ";
      list_byte_of_string " Den        ";
      list_byte_of_string "Attic" ++ replicate 7 x00;
      list_byte_of_string "Guest room  ";
      replicate 12 x00; replicate 12 x00; replicate 12 x00; replicate 12 x00 ];
|}.

Definition sampleCurrentParams : TStatCurrentParams := {|
  TStatCurrentParams.ZCurrentTemp := [72; 70; 255; 71; 0; 0; 0; 0];
  TStatCurrentParams.ZCurrentHumidity := [45; 47; 0; 48; 0; 0; 0; 0];
  TStatCurrentParams.OutdoorAirTemp := 55;
  TStatCurrentParams.Mode := 0x22;
|}.

(** A bus on which every read succeeds. *)
Definition sampleBus : Bus := {|
  readZoneParams := λ _, Some sampleZoneParams;
  readCurrentParams := λ _, Some sampleCurrentParams;
  readRaw := λ _ _, Some [];
|}.

(** A bus on which the second table read times out. *)
Definition timeoutBus : Bus := {|
  readZoneParams := λ _, Some sampleZoneParams;
  readCurrentParams := λ _, None;
  readRaw := λ _ _, None;
|}.

(** A temperature frame from the heat pump at address 0x5001. *)
Definition sampleHeatPumpFrame : InfinityFrame := {|
  InfinityFrame.src := 0x5001;
  InfinityFrame.data := [x00; x3e; x01; x01; x20; x00; xf0];
|}.

(** A blower frame from the air handler at address 0x4001: 0x044C is
    1100 RPM. *)
Definition sampleBlowerFrame : InfinityFrame := {|
  InfinityFrame.src := 0x4001;
  InfinityFrame.data := [x00; x03; x06; x00; x04; x4c; x00; x00; x00];
|}.

(** The cache of the earlier revision as its [main] leaves it before the
    snoops are attached, as far as the air handler decoder reads it. *)
Definition mainCacheRev1 : Cache :=
  cache.put "blower" (VAirHandlerRev1 Rev1.AirHandler.zero) cache.empty.

(** A damper frame from the zone controller at address 0x6001: slot 0 is
    fully open, slot 1 is closed, slot 2 is half open and the other slots
    are unknown. *)
Definition sampleDamperFrame : InfinityFrame := {|
  InfinityFrame.src := 0x6001;
  InfinityFrame.data :=
    [x00; x03; x19; x0f; x00; x07; xff; xff; xff; xff; xff; x00];
|}.

(** The probe list of [main]. *)
Definition rawMonTable : list Z :=
  [0x3b04; 0x3b05; 0x3b06; 0x3b0e; 0x3b0f; 0x3d02; 0x3d03].

(** A bus on which the last active zone reports no humidity while the first
    one does. *)
Definition dryLastZoneBus : Bus := {|
  readZoneParams := λ _, Some sampleZoneParams;
  readCurrentParams := λ _, Some {|
    TStatCurrentParams.ZCurrentTemp := [72; 70; 0; 0; 0; 0; 0; 0];
    TStatCurrentParams.ZCurrentHumidity := [45; 0; 0; 0; 0; 0; 0; 0];
    TStatCurrentParams.OutdoorAirTemp := 55;
    TStatCurrentParams.Mode := 0x22;
  |};
  readRaw := λ _ _, Some [];
|}.

Section MutationShape.
Context `{Tables}.

(** The writes [putConfig] may issue: one zoned write with a zone index of
    0..7, a mask of a single field and a hold bitmap that is zero or the
    bit of the zone, or one unzoned write with the mask 0x10. *)
Definition wellFormedWrite (w : BusWrite) : Prop :=
  match w with
  | WriteTableZ dev tbl zi flags =>
      dev = devTSTAT ∧ 0 ≤ zi ≤ 7 ∧ flags ∈ [0x01; 0x02; 0x04; 0x08] ∧
      (TStatZoneParams.ZoneHold tbl = 0 ∨
       flags = 0x02 ∧ TStatZoneParams.ZoneHold tbl = 2 ^ zi) ∧
      length (TStatZoneParams.ZFanMode tbl) = 8%nat ∧
      length (TStatZoneParams.ZHeatSetpoint tbl) = 8%nat ∧
      length (TStatZoneParams.ZCoolSetpoint tbl) = 8%nat
  | WriteTable dev tbl flags => dev = devTSTAT ∧ flags = 0x10
  end.

End MutationShape.

(** A status frame from the air handler at address 0x4001: heat stage 1,
    0x0320 is 800 CFM, the compressor bits are clear. *)
Definition sampleStatusFrame : InfinityFrame := {|
  InfinityFrame.src := 0x4001;
  InfinityFrame.data :=
    [x00; x03; x16; x01; x00; x00; x00; x03; x20; x00; x01; x00];
|}.

(** A frame cut off after two bytes. *)
Definition shortFrame : InfinityFrame := {|
  InfinityFrame.src := 0x5001;
  InfinityFrame.data := [x00; x3e];
|}.

(** A frame of a table no decoder knows. *)
Definition otherTableFrame : InfinityFrame := {|
  InfinityFrame.src := 0x4001;
  InfinityFrame.data := [x00; x04; x20; x01; x02];
|}.

(** A frame from the thermostat, which no decoder listens to. *)
Definition tstatFrame : InfinityFrame := {|
  InfinityFrame.src := 0x2001;
  InfinityFrame.data := [x00; x3e];
|}.

(** The payload prefixes the decoders recognise. *)
Definition heatPumpPrefixes : list (list byte) := [[x00; x3e; x01]; [x00; x3e; x02]].
Definition airHandlerPrefixes : list (list byte) := [[x00; x03; x06]; [x00; x03; x16]].
Definition damperPrefixes : list (list byte) := [[x00; x03; x19]].

(** The source ranges some decoder listens to. *)
Definition snooped (src : Z) : Prop :=
  0x5000 ≤ src ≤ 0x51ff ∨ 0x4000 ≤ src ≤ 0x42ff ∨ 0x6000 ≤ src ≤ 0x61ff.
(** A damper frame that carries only four slots. *)
Definition fourSlotDamperFrame : InfinityFrame := {|
  InfinityFrame.src := 0x6001;
  InfinityFrame.data := [x00; x03; x19; x0f; x00; x07; xff];
|}.

(* ===================================================================== *)
(** * The changes of a poller pass *)
(* ===================================================================== *)

(** The cache after a list of updates, oldest first. *)
Definition putAll (ws : list (string * Value)) (c : Cache) : Cache :=
  foldl (λ c kv, cache.put kv.1 kv.2 c) c ws.

(** The flat mirror key of the field [field] of the zone numbered [n]. *)
Definition zoneKey (n : Z) (field : string) : string :=
  "mqtt/infinitive/zone/" +:+ fmt.d n +:+ field.

(** The fields of a zone the poller mirrors, in the order of the loop
    body. *)
Definition zoneSuffixes : list string :=
  [ "/currentTemp"; "/humidity"; "/coolSetpoint"; "/heatSetpoint"; "/fanMode";
    "/hold"; "/overrideDuration"; "/preset" ].

(** The values mirrored for a zone whose hold flag is set, by field. *)
Definition zoneFields (z : TStatZoneConfig) : list (string * Value) :=
  [ ("/currentTemp", VUint8 (TStatZoneConfig.CurrentTemp z));
    ("/humidity", VUint8 (TStatZoneConfig.CurrentHumidity z));
    ("/coolSetpoint", VUint8 (TStatZoneConfig.CoolSetpoint z));
    ("/heatSetpoint", VUint8 (TStatZoneConfig.HeatSetpoint z));
    ("/fanMode", VString (TStatZoneConfig.FanMode z));
    ("/hold", VBool (default false (TStatZoneConfig.Hold z)));
    ("/overrideDuration", VString (TStatZoneConfig.OvrdDuration z));
    ("/preset", VString (TStatZoneConfig.Preset z)) ].

(** The updates of one iteration of the zone loop of the poller. *)
Definition zoneWrites (z : TStatZoneConfig) : list (string * Value) :=
  (λ fv, (zoneKey (TStatZoneConfig.ZoneNumber z) fv.1, fv.2)) <$> zoneFields z.

(** The value of the local [hum] after the zone loop. *)
Definition lastHumidity (c1 : TStatZonesConfig) : Z :=
  default 0 (TStatZoneConfig.CurrentHumidity <$> last (TStatZonesConfig.Zones c1)).

(** The updates of a pass of the poller that has read [c1], in order. *)
Definition pollWrites (c1 : TStatZonesConfig) : list (string * Value) :=
  ("tstat", VTStat c1) ::
  (TStatZonesConfig.Zones c1 ≫= zoneWrites) ++
  (if 0 <? lastHumidity c1 then [(humidityKey, VUint8 (lastHumidity c1))] else []) ++
  [ ("mqtt/infinitive/outdoorTemp", VUint8 (TStatZonesConfig.OutdoorTemp c1));
    ("mqtt/infinitive/mode", VString (TStatZonesConfig.Mode c1));
    ("mqtt/infinitive/rawMode", VUint8 (TStatZonesConfig.RawMode c1)) ].

(** The keys the snoop decoders write. *)
Definition snoopKeys : list string :=
  [ "heatpump"; "mqtt/infinitive/coilTemp"; "mqtt/infinitive/outsideTemp";
    "mqtt/infinitive/acStage";
    "blower"; "mqtt/infinitive/blowerRPM"; "mqtt/infinitive/heatStage";
    "mqtt/infinitive/action"; "mqtt/infinitive/airflowCFM";
    "mqtt/infinitive/staticPressure";
    "damperpos" ] ++ (damperKey <$> seq 0 8).

(** The keys a pass of the poller updates when it has read the tables, the
    zone slots [l] are active and [hum] tells whether the humidity of the
    last of them is positive: in the order of the updates. *)
Definition pollKeys (l : list nat) (hum : bool) : list string :=
  "tstat" ::
  (l ≫= λ zi, zoneKey (Z.of_nat zi + 1) <$> zoneSuffixes) ++
  (if hum then [humidityKey] else []) ++
  [ "mqtt/infinitive/outdoorTemp"; "mqtt/infinitive/mode";
    "mqtt/infinitive/rawMode" ].

(** A bus that answers the table reads like [sampleBus] and no raw read. *)
Definition deafProbeBus : Bus := {|
  readZoneParams := readZoneParams sampleBus;
  readCurrentParams := readCurrentParams sampleBus;
  readRaw := λ _ _, None;
|}.

(** The key [k] has the same value and the same changes in [c'] as in
    [c]. *)
Definition unchanged (c c' : Cache) (k : string) : Prop :=
  store c' !! k = store c !! k ∧
  eventsOf k (events c') = eventsOf k (events c).

(** ** The heat pump decoder of the earlier revision *)

Module Rev1Decoders.

Definition snoopHeatPump (frame : InfinityFrame) : M unit :=
  data ← lift (sliceFrom (InfinityFrame.data frame) 3);
  hp ← getHeatPump;
  match hp with
  | Some heatPump =>
      pfx ← lift (slice (InfinityFrame.data frame) 0 3);
      if bytes.Equal pfx [x00; x3e; x01] then
        s ← lift (slice data 2 4);
        coil ← lift (binary.BigEndian_Uint16 s);
        let heatPump := {| HeatPump.CoilTemp := div16 coil;
                           HeatPump.OutsideTemp := HeatPump.OutsideTemp heatPump;
                           HeatPump.Stage := HeatPump.Stage heatPump |} in
        s ← lift (slice data 0 2);
        outside ← lift (binary.BigEndian_Uint16 s);
        let heatPump := {| HeatPump.CoilTemp := HeatPump.CoilTemp heatPump;
                           HeatPump.OutsideTemp := div16 outside;
                           HeatPump.Stage := HeatPump.Stage heatPump |} in
        cache.update "heatpump" (VHeatPump heatPump)
      else
        pfx ← lift (slice (InfinityFrame.data frame) 0 3);
        if bytes.Equal pfx [x00; x3e; x02] then
          b ← lift (index data 0);
          let heatPump := {| HeatPump.CoilTemp := HeatPump.CoilTemp heatPump;
                             HeatPump.OutsideTemp := HeatPump.OutsideTemp heatPump;
                             HeatPump.Stage := Z.shiftr (u8 b) 1 |} in
          cache.update "heatpump" (VHeatPump heatPump)
        else mret tt
  | None => mret tt
  end.

End Rev1Decoders.

(** The flat mirror keys of the heat pump, which only the later revision
    writes. *)
Definition heatPumpMirrorKeys : list string :=
  [ "mqtt/infinitive/coilTemp"; "mqtt/infinitive/outsideTemp";
    "mqtt/infinitive/acStage" ].

(* ===================================================================== *)
(** * Theorems *)
(* ===================================================================== *)

(** ** Decimal printing *)

Lemma code_digitChar (d : Z) : 0 ≤ d ≤ 9 → code (fmt.digitChar d) = 48 + d.
Proof.
  intros Hd. unfold code, fmt.digitChar.
  rewrite nat_ascii_embedding by lia. lia.
Qed.

Lemma digits_S (fuel : nat) (u : Z) :
  fmt.digits (S fuel) u =
    if u <? 10 then String (fmt.digitChar u) ""
    else fmt.digits fuel (u / 10) +:+ String (fmt.digitChar (u - (u / 10) * 10)) "".
Proof. reflexivity. Qed.

Lemma decimalFrom_snoc (s : string) (c : ascii) (acc : Z) :
  decimalFrom (s +:+ String c "") acc =
    match decimalFrom s acc with
    | Some v =>
        if (48 <=? code c) && (code c <=? 57) then Some (v * 10 + (code c - 48))
        else None
    | None => None
    end.
Proof.
  revert acc. induction s as [|a s IH]; intros acc; simpl.
  - by destruct ((48 <=? code c) && (code c <=? 57)).
  - destruct ((48 <=? code a) && (code a <=? 57)); [apply IH | done].
Qed.

(** The digit loop prints a numeral of [u]: it starts with a digit that is
    zero only for [u = 0], and reads back as [u]. *)
Lemma digits_shape (fuel : nat) (u : Z) :
  0 ≤ u < 10 ^ Z.of_nat (S fuel) →
  ∃ c rest, fmt.digits (S fuel) u = String c rest ∧
    48 ≤ code c ≤ 57 ∧ (0 < u → code c ≠ 48) ∧
    decimalFrom (fmt.digits (S fuel) u) 0 = Some u.
Proof.
  revert u. induction fuel as [|fuel IH]; intros u Hu;
    rewrite digits_S; destruct (Z.ltb_spec u 10) as [Hlt|Hge].
  1, 3: exists (fmt.digitChar u), ""; simpl;
    rewrite code_digitChar by lia;
    repeat split; try lia;
    replace ((48 <=? 48 + u) && (48 + u <=? 57)) with true by lia;
    f_equal; lia.
  - change (10 ^ Z.of_nat 1) with 10 in Hu. lia.
  - assert (Hq : 0 ≤ u / 10 < 10 ^ Z.of_nat (S fuel)).
    { split; [apply Z.div_pos; lia|].
      apply Z.div_lt_upper_bound; [lia|].
      rewrite (Nat2Z.inj_succ (S fuel)), Z.pow_succ_r in Hu by lia. lia. }
    destruct (IH _ Hq) as (c & rest & Heq & Hc & Hnz & Hval).
    exists c, (rest +:+ String (fmt.digitChar (u - u / 10 * 10)) "").
    assert (Hr : 0 ≤ u - u / 10 * 10 ≤ 9).
    { pose proof (Z.mod_pos_bound u 10 ltac:(lia)).
      pose proof (Z.div_mod u 10 ltac:(lia)). lia. }
    split; [by rewrite Heq|]. split; [done|].
    split.
    { intros _. apply Hnz.
      pose proof (Z.div_le_mono 10 u 10 ltac:(lia) Hge) as Hd.
      rewrite Z.div_same in Hd by lia. lia. }
    rewrite decimalFrom_snoc, Hval, code_digitChar by done.
    replace ((48 <=? 48 + (u - u / 10 * 10)) && (48 + (u - u / 10 * 10) <=? 57))
      with true by lia.
    f_equal. lia.
Qed.

Lemma d_decimal (u : Z) :
  0 ≤ u < 2 ^ 64 →
  decimalValue (fmt.d u) = Some u ∧ noLeadingZero (fmt.d u) = true.
Proof.
  intros Hu. unfold fmt.d, fmt.fmtInteger.
  destruct (digits_shape 19 u) as (c & rest & Heq & Hc & Hnz & Hval).
  { change (10 ^ Z.of_nat 20) with 100000000000000000000. lia. }
  rewrite Heq in *. change (fmt.zeroPad _ ?s) with s. split; [done|].
  destruct rest as [|c' rest]; [done|]. simpl.
  destruct (Ascii.eqb_spec c "0") as [->|]; [|done].
  destruct (Z.eq_dec u 0) as [->|Hne]; [done|].
  exfalso. apply Hnz; [lia|done].
Qed.

Lemma d02_two_digits (v : Z) :
  0 ≤ v < 100 →
  fmt.d02 v = String (fmt.digitChar (v / 10)) (String (fmt.digitChar (v mod 10)) "").
Proof.
  intros Hv. unfold fmt.d02, fmt.fmtInteger. rewrite digits_S.
  destruct (Z.ltb_spec v 10) as [Hlt|Hge].
  - rewrite Z.div_small, Z.mod_small by lia. reflexivity.
  - rewrite digits_S.
    assert (Hq : v / 10 < 10) by (apply Z.div_lt_upper_bound; lia).
    destruct (Z.ltb_spec (v / 10) 10); [|lia]. simpl.
    do 2 f_equal. f_equal. rewrite Z.mod_eq by lia. lia.
Qed.

(** ** [holdTime] *)

Example holdTime_75 : holdTime 75 = "1:15".
Proof. reflexivity. Qed.

Example holdTime_600 : holdTime 600 = "10:00".
Proof. reflexivity. Qed.

(** C9. [holdTime 0] is the empty string, and for a [uint16] number of
    minutes [m > 0], [holdTime m] is the decimal numeral of [m / 60] without
    a leading zero, then a colon, then the two decimal digits of [m mod 60];
    [holdTime 75] is ["1:15"] and [holdTime 600] is ["10:00"]. *)
Theorem holdTime_format (m : Z) :
  0 ≤ m < 65536 →
  holdTime 0 = "" ∧ holdTime 75 = "1:15" ∧ holdTime 600 = "10:00" ∧
  (0 < m →
   ∃ h d1 d2,
     holdTime m = h +:+ ":" +:+ String (fmt.digitChar d1) (String (fmt.digitChar d2) "") ∧
     decimalValue h = Some (m / 60) ∧ noLeadingZero h = true ∧
     0 ≤ d1 ≤ 9 ∧ 0 ≤ d2 ≤ 9 ∧ 10 * d1 + d2 = m mod 60).
Proof.
  intros Hm. do 3 (split; [reflexivity|]). intros Hpos.
  pose proof (Z.mod_pos_bound m 60 ltac:(lia)) as Hr.
  assert (Hq : 0 ≤ m / 60 < 2 ^ 64).
  { split; [apply Z.div_pos; lia|].
    apply Z.div_lt_upper_bound; lia. }
  destruct (d_decimal _ Hq) as [Hval Hlead].
  exists (fmt.d (m / 60)), (m mod 60 / 10), (m mod 60 mod 10).
  unfold holdTime. destruct (Z.eqb_spec m 0); [lia|].
  rewrite d02_two_digits by lia.
  pose proof (Z.mod_pos_bound (m mod 60) 10 ltac:(lia)).
  pose proof (Z.div_mod (m mod 60) 10 ltac:(lia)).
  assert (0 ≤ m mod 60 / 10 ≤ 9).
  { split; [apply Z.div_pos; lia|].
    apply Z.lt_succ_r, Z.div_lt_upper_bound; lia. }
  repeat split; try done; lia.
Qed.

Lemma holdTime_format_witness :
  0 ≤ 1439 < 65536 ∧
  holdTime 0 = "" ∧ holdTime 75 = "1:15" ∧ holdTime 600 = "10:00" ∧
  (0 < 1439 →
   ∃ h d1 d2,
     holdTime 1439 = h +:+ ":" +:+ String (fmt.digitChar d1) (String (fmt.digitChar d2) "") ∧
     decimalValue h = Some (1439 / 60) ∧ noLeadingZero h = true ∧
     0 ≤ d1 ≤ 9 ∧ 0 ≤ d2 ≤ 9 ∧ 10 * d1 + d2 = 1439 mod 60).
Proof. split; [lia|]. apply (holdTime_format 1439). lia. Defined.

(** ** The zone list of [getZonesConfig] *)

Section ZoneList.
Context `{Tables}.
Import TStatZoneParams TStatCurrentParams.

Lemma zoneStep_active cfg params zoneArr zc zi :
  activeZone params zi →
  zoneStep cfg params (zoneArr, zc) zi = (<[zc := zoneEntry cfg params zi]> zoneArr, S zc).
Proof.
  unfold activeZone, zoneStep. intros [H1 H2].
  destruct (Z.ltb_spec 0 (nth zi (ZCurrentTemp params) 0)); [|lia].
  destruct (Z.ltb_spec (nth zi (ZCurrentTemp params) 0) 255); [done|lia].
Qed.

Lemma zoneStep_inactive cfg params zoneArr zc zi :
  ¬ activeZone params zi →
  zoneStep cfg params (zoneArr, zc) zi = (zoneArr, zc).
Proof.
  unfold activeZone, zoneStep. intros Hn.
  destruct (Z.ltb_spec 0 (nth zi (ZCurrentTemp params) 0)); [|done].
  destruct (Z.ltb_spec (nth zi (ZCurrentTemp params) 0) 255); [lia|done].
Qed.

(** Invariant of the loop of [getZonesConfig]: the first [zc] slots of
    [zoneArr] hold the entries of the active zones seen so far, in order. *)
Lemma zoneLoop_compacts cfg params (zis : list nat) zoneArr zc :
  (zc + length zis ≤ length zoneArr)%nat →
  ∃ zoneArr' zc',
    foldl (zoneStep cfg params) (zoneArr, zc) zis = (zoneArr', zc') ∧
    length zoneArr' = length zoneArr ∧
    take zc' zoneArr' =
      take zc zoneArr ++ (zoneEntry cfg params <$> filter (activeZone params) zis).
Proof.
  revert zoneArr zc. induction zis as [|zi zis IH]; intros zoneArr zc Hlen.
  - exists zoneArr, zc. simpl. by rewrite app_nil_r.
  - simpl in Hlen. cbn [foldl]. destruct (decide (activeZone params zi)) as [Ha|Hn].
    + rewrite zoneStep_active by done.
      destruct (IH (<[zc := zoneEntry cfg params zi]> zoneArr) (S zc))
        as (arr' & zc' & Hf & Hl & Ht).
      { rewrite length_insert. lia. }
      exists arr', zc'. rewrite Hf, Hl, length_insert, Ht.
      split; [done|]. split; [done|].
      rewrite filter_cons_True by done. rewrite fmap_cons.
      rewrite (take_S_r _ _ (zoneEntry cfg params zi)).
      2: { apply list_lookup_insert_eq. lia. }
      rewrite take_insert_ge by lia. by rewrite <- app_assoc.
    + rewrite zoneStep_inactive by done.
      destruct (IH zoneArr zc) as (arr' & zc' & Hf & Hl & Ht); [lia|].
      exists arr', zc'. rewrite filter_cons_False by done. done.
Qed.

Lemma StronglySorted_filter {A} (R : relation A) (P : A → Prop)
    `{∀ x, Decision (P x)} (l : list A) :
  StronglySorted R l → StronglySorted R (filter P l).
Proof.
  induction 1 as [|a l Hs IH Hall]; [constructor|].
  rewrite filter_cons. destruct (decide (P a)); [|done].
  constructor; [done|]. 
  apply Forall_forall. intros x Hx%list_elem_of_filter.
  rewrite Forall_forall in Hall. apply Hall. tauto.
Qed.

Lemma zoneNumbers_sorted cfg params (l : list nat) :
  StronglySorted lt l → Forall (λ zi, (zi < 8)%nat) l →
  StronglySorted Z.lt
    (TStatZoneConfig.ZoneNumber ∘ zoneEntry cfg params <$> l).
Proof.
  induction 1 as [|a l Hs IH Hall]; intros Hb; [constructor|].
  apply Forall_cons in Hb as [Ha Hb].
  rewrite fmap_cons. constructor; [by apply IH|].
  apply Forall_fmap, Forall_forall. intros x Hx. simpl.
  rewrite Forall_forall in Hall, Hb.
  specialize (Hall x Hx). specialize (Hb x Hx). simpl in Hb.
  rewrite !Z.mod_small by lia. lia.
Qed.

(** What [getZonesConfig] returns when both reads succeed. *)
Lemma getZonesConfig_Some (bus : Bus) cfg params :
  readZoneParams bus devTSTAT = Some cfg →
  readCurrentParams bus devTSTAT = Some params →
  getZonesConfig bus = Some
    {| TStatZonesConfig.Zones :=
         zoneEntry cfg params <$> filter (activeZone params) (seq 0 8);
       TStatZonesConfig.OutdoorTemp := OutdoorAirTemp params;
       TStatZonesConfig.Mode := rawModeToString (Z.land (Mode params) 0xf);
       TStatZonesConfig.Stage := Z.shiftr (Mode params) 5;
       TStatZonesConfig.Action := rawActionToString (Z.shiftr (Mode params) 5);
       TStatZonesConfig.RawMode := Mode params |}.
Proof.
  intros Hcfg Hpar. unfold getZonesConfig. rewrite Hcfg, Hpar.
  cbn [mbind option_bind].
  destruct (zoneLoop_compacts cfg params (seq 0 8)
              (replicate 8 TStatZoneConfig.zero) 0%nat)
    as (arr' & zc' & Hf & Hl & Ht); [simpl; lia|].
  rewrite Hf, Ht. reflexivity.
Qed.

Lemma getZonesConfig_None (bus : Bus) :
  readZoneParams bus devTSTAT = None ∨ readCurrentParams bus devTSTAT = None →
  getZonesConfig bus = None.
Proof.
  unfold getZonesConfig. intros [Hn|Hn]; rewrite Hn; [done|].
  by destruct (readZoneParams bus devTSTAT).
Qed.

Lemma zoneEntry_number cfg params zi :
  (zi < 8)%nat →
  TStatZoneConfig.ZoneNumber (zoneEntry cfg params zi) = Z.of_nat zi + 1.
Proof. intros Hzi. simpl. apply Z.mod_small. lia. Qed.

(** C3. When both tables are read, the zone list of [getZonesConfig] has an
    entry numbered [zi + 1] exactly when the current temperature of slot
    [zi] is strictly between 0 and 255; the entries are those of the active
    slots in increasing slot order, so the zone numbers increase strictly,
    and every entry carries the number [zi + 1] and the temperature of the
    slot it was built from. *)
Theorem getZonesConfig_zones (bus : Bus) cfg params :
  readZoneParams bus devTSTAT = Some cfg →
  readCurrentParams bus devTSTAT = Some params →
  ∃ tstat,
    getZonesConfig bus = Some tstat ∧
    TStatZonesConfig.Zones tstat =
      (zoneEntry cfg params <$> filter (activeZone params) (seq 0 8)) ∧
    (∀ zi, (zi < 8)%nat →
       (∃ z, z ∈ TStatZonesConfig.Zones tstat ∧
             TStatZoneConfig.ZoneNumber z = Z.of_nat zi + 1) ↔
       0 < nth zi (ZCurrentTemp params) 0 < 255) ∧
    StronglySorted Z.lt (TStatZoneConfig.ZoneNumber <$> TStatZonesConfig.Zones tstat) ∧
    (∀ z, z ∈ TStatZonesConfig.Zones tstat →
       ∃ zi, (zi < 8)%nat ∧ TStatZoneConfig.ZoneNumber z = Z.of_nat zi + 1 ∧
             TStatZoneConfig.CurrentTemp z = nth zi (ZCurrentTemp params) 0).
Proof.
  intros Hcfg Hpar. eexists. split; [by apply getZonesConfig_Some|].
  cbn [TStatZonesConfig.Zones].
  split; [done|]. split; [|split].
  - intros zi Hzi. split.
    + intros (z & Hz & Hn).
      apply list_elem_of_fmap in Hz as (zj & -> & Hj).
      apply list_elem_of_filter in Hj as [Hact Hj].
      apply elem_of_seq in Hj. rewrite zoneEntry_number in Hn by lia.
      assert (zj = zi) as -> by lia. done.
    + intros Hact. exists (zoneEntry cfg params zi).
      split; [|by apply zoneEntry_number].
      apply list_elem_of_fmap_2, list_elem_of_filter. split; [done|].
      apply elem_of_seq. lia.
  - rewrite <- list_fmap_compose.
    apply zoneNumbers_sorted.
    + apply StronglySorted_filter. repeat constructor; lia.
    + apply Forall_forall. intros x [_ Hx%elem_of_seq]%list_elem_of_filter. lia.
  - intros z Hz. apply list_elem_of_fmap in Hz as (zi & -> & Hj).
    apply list_elem_of_filter in Hj as [Hact Hj]. apply elem_of_seq in Hj.
    exists zi. split; [lia|]. split; [apply zoneEntry_number; lia|done].
Qed.

End ZoneList.

Lemma getZonesConfig_zones_witness :
  readZoneParams sampleBus devTSTAT = Some sampleZoneParams ∧
  readCurrentParams sampleBus devTSTAT = Some sampleCurrentParams ∧
  ∃ tstat,
    getZonesConfig sampleBus = Some tstat ∧
    TStatZonesConfig.Zones tstat =
      (zoneEntry sampleZoneParams sampleCurrentParams <$>
         filter (activeZone sampleCurrentParams) (seq 0 8)) ∧
    (∀ zi, (zi < 8)%nat →
       (∃ z, z ∈ TStatZonesConfig.Zones tstat ∧
             TStatZoneConfig.ZoneNumber z = Z.of_nat zi + 1) ↔
       0 < nth zi (TStatCurrentParams.ZCurrentTemp sampleCurrentParams) 0 < 255) ∧
    StronglySorted Z.lt (TStatZoneConfig.ZoneNumber <$> TStatZonesConfig.Zones tstat) ∧
    (∀ z, z ∈ TStatZonesConfig.Zones tstat →
       ∃ zi, (zi < 8)%nat ∧ TStatZoneConfig.ZoneNumber z = Z.of_nat zi + 1 ∧
             TStatZoneConfig.CurrentTemp z =
               nth zi (TStatCurrentParams.ZCurrentTemp sampleCurrentParams) 0).
Proof.
  split; [reflexivity|]. split; [reflexivity|].
  apply (getZonesConfig_zones sampleBus sampleZoneParams sampleCurrentParams);
    reflexivity.
Defined.

Example sample_zone_numbers :
  (λ t, TStatZoneConfig.ZoneNumber <$> TStatZonesConfig.Zones t) <$>
    getZonesConfig sampleBus = Some [1; 2; 4].
Proof. reflexivity. Qed.

(** ** Zone names *)

Lemma contains_cutset (c : byte) :
  bytes.contains [x20; x00] c = true ↔ inCutset c.
Proof.
  unfold bytes.contains, inCutset. simpl. rewrite !orb_true_iff.
  split.
  - intros [Hc|[Hc|Hc]]; [left|right|done]; by apply byte_dec_bl.
  - intros [->| ->]; [left|right; left]; reflexivity.
Qed.

Lemma trimLeftASCII_spec (s : list byte) :
  ∃ l, s = l ++ bytes.trimLeftASCII s [x20; x00] ∧ Forall inCutset l ∧
       (∀ c, head (bytes.trimLeftASCII s [x20; x00]) = Some c → ¬ inCutset c).
Proof.
  induction s as [|c s (l & Heq & Hl & Hh)]; cbn [bytes.trimLeftASCII].
  - exists []. by repeat split.
  - destruct (bytes.contains [x20; x00] c) eqn:Hc.
    + exists (c :: l). split; [simpl; by f_equal|].
      split; [|done]. constructor; [by apply contains_cutset|done].
    + exists []. split; [done|]. split; [constructor|].
      intros c' [= <-] Hin%contains_cutset. congruence.
Qed.

Lemma trimRightASCII_spec (s : list byte) :
  ∃ r, s = bytes.trimRightASCII s [x20; x00] ++ r ∧ Forall inCutset r ∧
       (∀ c, last (bytes.trimRightASCII s [x20; x00]) = Some c → ¬ inCutset c).
Proof.
  unfold bytes.trimRightASCII.
  destruct (trimLeftASCII_spec (reverse s)) as (l & Heq & Hl & Hh).
  exists (reverse l). split; [|split].
  - rewrite <- reverse_app, <- Heq. by rewrite reverse_involutive.
  - by apply Forall_reverse.
  - intros c. rewrite last_reverse. apply Hh.
Qed.

(** [bytes.Trim] with the cutset of the zone names removes the cutset bytes
    of both ends and nothing else. *)
Lemma Trim_both_ends (raw : list byte) :
  trimmedBothEnds raw (bytes.Trim raw [x20; x00]).
Proof.
  unfold bytes.Trim.
  destruct (trimRightASCII_spec raw) as (r & Hr & Hcr & Hlast).
  destruct (trimLeftASCII_spec (bytes.trimRightASCII raw [x20; x00]))
    as (l & Hl & Hcl & Hhead).
  exists l, r. split; [|split; [done|split; [done|split; [done|]]]].
  - rewrite Hr at 1. rewrite Hl at 1. by rewrite <- app_assoc.
  - intros c Hc. apply Hlast. rewrite Hl.
    destruct (bytes.trimLeftASCII _ _) as [|x t] eqn:Ht; [done|].
    rewrite last_app. by rewrite Hc.
Qed.

Section ZoneNames.
Context `{Tables}.
Import TStatZoneParams TStatCurrentParams.

(** C8, as amended. When both tables are read, the zone name of every entry
    of [getZonesConfig], and of the result of [getZNConfig] for every zone
    index 0..7, is the raw name field of that zone with the space and NUL
    bytes of both its ends removed, and nothing else removed. *)
Theorem zoneName_trimmed (bus : Bus) cfg params :
  readZoneParams bus devTSTAT = Some cfg →
  readCurrentParams bus devTSTAT = Some params →
  (∃ tstat, getZonesConfig bus = Some tstat ∧
     ∀ z, z ∈ TStatZonesConfig.Zones tstat →
       trimmedBothEnds
         (nth (Z.to_nat (TStatZoneConfig.ZoneNumber z - 1)) (ZName cfg) [])
         (list_byte_of_string (TStatZoneConfig.ZoneName z))) ∧
  (∀ zi, 0 ≤ zi ≤ 7 →
     ∃ z, getZNConfig bus zi = Some z ∧
       trimmedBothEnds (nth (Z.to_nat zi) (ZName cfg) [])
         (list_byte_of_string (TStatZoneConfig.ZoneName z))).
Proof.
  intros Hcfg Hpar. split.
  - eexists. split; [by apply getZonesConfig_Some|].
    cbn [TStatZonesConfig.Zones]. intros z Hz.
    apply list_elem_of_fmap in Hz as (zi & -> & Hj).
    apply list_elem_of_filter in Hj as [_ Hj]. apply elem_of_seq in Hj.
    rewrite zoneEntry_number by lia.
    replace (Z.to_nat (Z.of_nat zi + 1 - 1)) with zi by lia.
    cbn [zoneEntry TStatZoneConfig.ZoneName].
    rewrite list_byte_of_string_of_list_byte. apply Trim_both_ends.
  - intros zi Hzi. unfold getZNConfig.
    destruct (Z.ltb_spec zi 0); [lia|]. destruct (Z.ltb_spec 7 zi); [lia|].
    rewrite Hcfg, Hpar. cbn [orb mbind option_bind].
    eexists. split; [reflexivity|]. cbn [TStatZoneConfig.ZoneName].
    rewrite list_byte_of_string_of_list_byte. apply Trim_both_ends.
Qed.

End ZoneNames.

Lemma zoneName_trimmed_witness :
  readZoneParams sampleBus devTSTAT = Some sampleZoneParams ∧
  readCurrentParams sampleBus devTSTAT = Some sampleCurrentParams ∧
  (∃ tstat, getZonesConfig sampleBus = Some tstat ∧
     ∀ z, z ∈ TStatZonesConfig.Zones tstat →
       trimmedBothEnds
         (nth (Z.to_nat (TStatZoneConfig.ZoneNumber z - 1))
            (TStatZoneParams.ZName sampleZoneParams) [])
         (list_byte_of_string (TStatZoneConfig.ZoneName z))) ∧
  (∀ zi, 0 ≤ zi ≤ 7 →
     ∃ z, getZNConfig sampleBus zi = Some z ∧
       trimmedBothEnds (nth (Z.to_nat zi) (TStatZoneParams.ZName sampleZoneParams) [])
         (list_byte_of_string (TStatZoneConfig.ZoneName z))).
Proof.
  split; [reflexivity|]. split; [reflexivity|].
  apply (zoneName_trimmed sampleBus sampleZoneParams sampleCurrentParams);
    reflexivity.
Defined.

Example sample_zone_names :
  (λ t, TStatZoneConfig.ZoneName <$> TStatZonesConfig.Zones t) <$>
    getZonesConfig sampleBus = Some ["Upstairs"; "Den"; "Guest room"].
Proof. reflexivity. Qed.

(** The second zone of the sample thermostat has the raw name [" Den"]
    followed by spaces. Both projections give it the name ["Den"], which is
    not the raw field with only its trailing bytes removed: the leading
    space is gone too. *)
Lemma zoneName_leading_space_removed :
  let raw := nth 1 (TStatZoneParams.ZName sampleZoneParams) [] in
  raw = list_byte_of_string " Den        " ∧
  (∃ z, getZNConfig sampleBus 1 = Some z ∧
        TStatZoneConfig.ZoneName z = "Den" ∧
        ¬ trimmedTrailing raw (list_byte_of_string (TStatZoneConfig.ZoneName z))) ∧
  (∃ tstat z, getZonesConfig sampleBus = Some tstat ∧
        TStatZonesConfig.Zones tstat !! 1%nat = Some z ∧
        TStatZoneConfig.ZoneNumber z = 2 ∧
        TStatZoneConfig.ZoneName z = "Den" ∧
        ¬ trimmedTrailing raw (list_byte_of_string (TStatZoneConfig.ZoneName z))).
Proof.
  assert (Hne : ¬ trimmedTrailing (list_byte_of_string " Den        ")
                    (list_byte_of_string "Den")).
  { intros (r & Heq & _). vm_compute in Heq. discriminate Heq. }
  split; [reflexivity|]. split.
  - eexists. split; [reflexivity|]. split; [reflexivity|]. exact Hne.
  - do 2 eexists. split; [reflexivity|]. split; [reflexivity|].
    split; [reflexivity|]. split; [reflexivity|]. exact Hne.
Qed.

(** ** Parsing of integers *)

Lemma code_bound (c : ascii) : 0 ≤ code c < 256.
Proof.
  unfold code. pose proof (nat_ascii_bounded c). lia.
Qed.

Lemma atoiLoop_decimalFrom (s : string) (n : Z) :
  strconv.atoiLoop s n = decimalFrom s n.
Proof.
  revert n. induction s as [|c s IH]; intros n; [done|].
  cbn [strconv.atoiLoop decimalFrom]. pose proof (code_bound c).
  destruct (Z.leb_spec 48 (code c)); destruct (Z.leb_spec (code c) 57); cbn [andb].
  - rewrite Z.mod_small by lia.
    destruct (Z.ltb_spec 9 (code c - 48)); [lia|]. apply IH.
  - rewrite Z.mod_small by lia.
    destruct (Z.ltb_spec 9 (code c - 48)); [done|lia].
  - replace ((code c - 48) mod 256) with (code c + 208).
    2: { apply Z.mod_unique with (-1); lia. }
    destruct (Z.ltb_spec 9 (code c + 208)); [done|lia].
  - lia.
Qed.

Lemma decimalFrom_ge (s : string) (n v : Z) :
  0 ≤ n → decimalFrom s n = Some v → n ≤ v.
Proof.
  revert n. induction s as [|c s IH]; intros n Hn; cbn [decimalFrom].
  - intros [= <-]. lia.
  - destruct (Z.leb_spec 48 (code c)); [|done].
    destruct (Z.leb_spec (code c) 57); [|done]. cbn [andb].
    intros Hv%IH; lia.
Qed.

Lemma decimalFrom_lt (s : string) (n v : Z) :
  0 ≤ n → decimalFrom s n = Some v →
  v < (n + 1) * 10 ^ Z.of_nat (String.length s).
Proof.
  revert n. induction s as [|c s IH]; intros n Hn; cbn [decimalFrom].
  - intros [= <-]. simpl. lia.
  - destruct (Z.leb_spec 48 (code c)); [|done].
    destruct (Z.leb_spec (code c) 57); [|done]. cbn [andb].
    intros Hv%IH; [|lia]. cbn [String.length].
    rewrite Nat2Z.inj_succ, Z.pow_succ_r by lia.
    assert (0 < 10 ^ Z.of_nat (String.length s)) by (apply Z.pow_pos_nonneg; lia).
    nia.
Qed.

(** The digit loop of [ParseUint] accepts exactly the digit strings whose
    value does not exceed [maxVal]. *)
Lemma parseUintLoop_spec (maxVal : Z) (s : string) (n v : Z) :
  0 ≤ n → maxVal < 2 ^ 64 →
  strconv.parseUintLoop maxVal s n = Some v ↔
  decimalFrom s n = Some v ∧ v ≤ maxVal ∨ s = "" ∧ v = n.
Proof.
  intros Hn Hmax. revert n Hn.
  induction s as [|c s IH]; intros n Hn; cbn [strconv.parseUintLoop decimalFrom].
  - split; [intros [= <-]; by right|]. intros [[[= <-] _]|[_ ->]]; done.
  - destruct ((48 <=? code c) && (code c <=? 57)) eqn:Hd.
    2: { split; [done|]. intros [[? _]|[? _]]; done. }
    apply andb_true_iff in Hd as [Hd1%Z.leb_le Hd2%Z.leb_le].
    change (strconv.maxUint64 / 10 + 1) with 1844674407370955162.
    change (2 ^ 64) with 18446744073709551616 in *.
    destruct (Z.leb_spec 1844674407370955162 n) as [Hcut|Hcut].
    { split; [done|]. intros [[Hv%decimalFrom_ge ?]|[? _]]; [lia|lia|done]. }
    destruct (Z_lt_le_dec (n * 10 + (code c - 48)) 18446744073709551616) as [Hw|Hw].
    + rewrite Z.mod_small by lia.
      destruct (Z.ltb_spec (n * 10 + (code c - 48)) (n * 10)); [lia|].
      cbn [orb].
      destruct (Z.ltb_spec maxVal (n * 10 + (code c - 48))) as [Hgt|Hle].
      { split; [done|]. intros [[Hv%decimalFrom_ge ?]|[? _]]; [lia|lia|done]. }
      rewrite IH by lia. split.
      * intros [?|[-> ->]]; [by left|]. left. split; [done|lia].
      * intros [[Hv ?]|[? _]]; [|done].
        destruct s; [right; split; [done|]; by injection Hv|by left].
    + replace ((n * 10 + (code c - 48)) mod 18446744073709551616)
        with (n * 10 + (code c - 48) - 18446744073709551616).
      2: { apply Z.mod_unique with 1; lia. }
      destruct (Z.ltb_spec (n * 10 + (code c - 48) - 18446744073709551616) (n * 10));
        [|lia].
      cbn [orb]. split; [done|].
      intros [[Hv%decimalFrom_ge ?]|[? _]]; [lia|lia|done].
Qed.

Lemma ParseUint_spec (s : string) (bitSize v : Z) :
  0 ≤ bitSize ≤ 64 →
  strconv.ParseUint s bitSize = Some v ↔
  decimalValue s = Some v ∧ v < 2 ^ (if bitSize =? 0 then 64 else bitSize).
Proof.
  intros Hb. unfold strconv.ParseUint, decimalValue, strconv.intSize.
  destruct s as [|c s]; [cbn; split; [done|by intros [? _]]|].
  cbn [String.eqb].
  set (b := if bitSize =? 0 then 64 else bitSize).
  assert (0 < b ≤ 64) by (subst b; destruct (Z.eqb_spec bitSize 0); lia).
  assert (2 ^ b ≤ 2 ^ 64) by (apply Z.pow_le_mono_r; lia).
  rewrite parseUintLoop_spec by lia. split.
  - intros [[? ?]|[? _]]; [split; [done|lia]|done].
  - intros [? ?]. left. split; [done|lia].
Qed.

Lemma decimalValue_bounds (s : string) (v : Z) :
  decimalValue s = Some v → 0 ≤ v < 10 ^ Z.of_nat (String.length s).
Proof.
  unfold decimalValue. destruct s as [|c s]; [done|]. intros Hv. split.
  - by apply decimalFrom_ge in Hv.
  - apply decimalFrom_lt in Hv; lia.
Qed.

Lemma atoiLoop_decimalValue (s : string) :
  s ≠ "" → strconv.atoiLoop s 0 = decimalValue s.
Proof.
  intros Hs. rewrite atoiLoop_decimalFrom. by destruct s.
Qed.

(** The two paths of [Atoi] on the digits [t] that follow the sign. *)
Lemma Atoi_fast_digits (neg : bool) (t : string) (zn : Z) :
  t ≠ "" → (String.length t ≤ 18)%nat →
  match strconv.atoiLoop t 0 with
  | Some n => Some (if neg then - n else n)
  | None => None
  end = Some zn ↔
  (if neg then Z.opp <$> decimalValue t else decimalValue t) = Some zn ∧
  - 2 ^ 63 ≤ zn < 2 ^ 63.
Proof.
  intros Ht Hlen. rewrite atoiLoop_decimalValue by done.
  change (2 ^ 63) with 9223372036854775808.
  destruct (decimalValue t) as [n|] eqn:Hn.
  - apply decimalValue_bounds in Hn.
    assert (10 ^ Z.of_nat (String.length t) ≤ 10 ^ 18)
      by (apply Z.pow_le_mono_r; lia).
    change (10 ^ 18) with 1000000000000000000 in *.
    destruct neg; cbn [fmap option_fmap option_map];
      (split; [intros [= <-]; split; [done|lia] | by intros [[= <-] _]]).
  - destruct neg; (split; [done | by intros [? _]]).
Qed.

Lemma Atoi_slow_digits (neg : bool) (t : string) (zn : Z) :
  match strconv.ParseUint t 0 with
  | Some un =>
      if negb neg && (2 ^ (strconv.intSize - 1) <=? un) then None
      else if neg && (2 ^ (strconv.intSize - 1) <? un) then None
      else Some (if neg then - un else un)
  | None => None
  end = Some zn ↔
  (if neg then Z.opp <$> decimalValue t else decimalValue t) = Some zn ∧
  - 2 ^ 63 ≤ zn < 2 ^ 63.
Proof.
  change (2 ^ (strconv.intSize - 1)) with 9223372036854775808.
  change (2 ^ 63) with 9223372036854775808.
  destruct (strconv.ParseUint t 0) as [un|] eqn:Hun.
  - apply ParseUint_spec in Hun as [Hun _]; [|lia]. rewrite Hun.
    apply decimalValue_bounds in Hun as [Hun _].
    destruct neg; cbn [negb andb fmap option_fmap option_map].
    + destruct (Z.ltb_spec 9223372036854775808 un).
      * split; [done|]. intros [[= <-] ?]. lia.
      * split; [intros [= <-]; split; [done|lia] | by intros [[= <-] _]].
    + destruct (Z.leb_spec 9223372036854775808 un).
      * split; [done|]. intros [[= <-] ?]. lia.
      * split; [intros [= <-]; split; [done|lia] | by intros [[= <-] _]].
  - split; [done|]. intros [Hv Hr]. exfalso.
    destruct (decimalValue t) as [v|] eqn:Hv'; [|by destruct neg].
    assert (strconv.ParseUint t 0 = Some v) as Hc; [|congruence].
    apply ParseUint_spec; [lia|]. split; [done|].
    change (2 ^ (if 0 =? 0 then 64 else 0)) with 18446744073709551616.
    destruct neg; cbn [fmap option_fmap option_map] in Hv;
      injection Hv as <-; lia.
Qed.

(** [Atoi] accepts exactly the strings that denote an integer of the range
    of [int], and returns that integer. *)
Lemma Atoi_spec (s : string) (zn : Z) :
  strconv.Atoi s = Some zn ↔
  integerValue s = Some zn ∧ - 2 ^ 63 ≤ zn < 2 ^ 63.
Proof.
  unfold strconv.Atoi, strconv.ParseInt, integerValue.
  destruct s as [|c s]; [cbn; split; [done | by intros [? _]]|].
  destruct ((0 <? String.length (String c s))%nat &&
            (String.length (String c s) <? 19)%nat) eqn:Hlen.
  - apply andb_true_iff in Hlen as [_ Hlen%Nat.ltb_lt].
    cbn [String.length] in Hlen.
    destruct (Ascii.eqb c "-") eqn:Em; destruct (Ascii.eqb c "+") eqn:Ep;
      cbn [orb andb].
    + apply Ascii.eqb_eq in Em, Ep. congruence.
    + destruct s as [|c' s]; [cbn; split; [done | by intros [? _]]|].
      change (String.length (String c' s) <? 1)%nat with false. cbn match.
      apply (Atoi_fast_digits true); [done|lia].
    + destruct s as [|c' s]; [cbn; split; [done | by intros [? _]]|].
      change (String.length (String c' s) <? 1)%nat with false. cbn match.
      apply (Atoi_fast_digits false); [done|lia].
    + apply (Atoi_fast_digits false); [done|cbn [String.length]; lia].
  - destruct (Ascii.eqb c "-") eqn:Em; destruct (Ascii.eqb c "+") eqn:Ep;
      cbn [orb andb].
    + apply Ascii.eqb_eq in Em, Ep. congruence.
    + apply (Atoi_slow_digits true).
    + apply (Atoi_slow_digits false).
    + apply (Atoi_slow_digits false).
Qed.

(** ** The mutation path *)

Section Mutation.
Context `{Tables}.

Lemma Atoi_zone (zone : string) (zn : Z) :
  integerValue zone = Some zn → 0 ≤ zn ≤ 8 → strconv.Atoi zone = Some zn.
Proof.
  intros Hz Hr. apply Atoi_spec. split; [done|].
  change (2 ^ 63) with 9223372036854775808. lia.
Qed.

Lemma ParseUint8_decimal (value : string) (v : Z) :
  decimalValue value = Some v → v ≤ 255 →
  strconv.ParseUint value 8 = Some v ∧ v mod 256 = v.
Proof.
  intros Hv Hle. pose proof (decimalValue_bounds _ _ Hv) as [Hge _].
  split; [|apply Z.mod_small; lia].
  apply ParseUint_spec; [lia|]. split; [done|].
  change (2 ^ (if 8 =? 0 then 64 else 8)) with 256. lia.
Qed.

Lemma zone_index_facts (zn : Z) :
  1 ≤ zn ≤ 8 →
  (1 <=? zn) && (zn <=? 8) = true ∧ (zn - 1) mod 256 = zn - 1 ∧
  Z.shiftl 1 (zn - 1) mod 256 = 2 ^ (zn - 1).
Proof.
  intros Hzn.
  assert (zn = 1 ∨ zn = 2 ∨ zn = 3 ∨ zn = 4 ∨ zn = 5 ∨ zn = 6 ∨ zn = 7 ∨ zn = 8)
    as Hc by lia.
  destruct Hc as [->|[->|[->|[->|[->|[->|[->| ->]]]]]]]; done.
Qed.

Example putConfig_heatSetpoint_68 :
  putConfig "2" "heatSetpoint" "68" =
    (true,
     [WriteTableZ devTSTAT
        (TStatZoneParams.setZHeatSetpoint 1 68 TStatZoneParams.zero) 1 0x04]).
Proof. reflexivity. Qed.

(** C1. For a zone string that denotes an integer [zn] of 1..8 (so for
    ["1"] to ["8"]) and a recognized parameter and value, [putConfig]
    succeeds and issues exactly one [WriteTableZ] to the thermostat, with
    the zone index [zn - 1], the mask of the parameter ([fanMode] 0x01,
    [hold] and [preset] 0x02, [heatSetpoint] 0x04, [coolSetpoint] 0x08) and
    a table that holds the parsed value in the slot of the zone; for [hold]
    and [preset] the hold bitmap sent is [2 ^ (zn - 1)] when hold is
    asserted and 0 when it is cleared. *)
Theorem putConfig_zone_write (zone param value : string) (zn mask : Z)
    (tbl : TStatZoneParams) :
  integerValue zone = Some zn → 1 ≤ zn ≤ 8 →
  zoneWrite (zn - 1) param value mask tbl →
  putConfig zone param value =
    (true, [WriteTableZ devTSTAT tbl (zn - 1) mask]).
Proof.
  intros Hzone Hzn Hw. unfold putConfig.
  rewrite (Atoi_zone zone zn) by (done || lia).
  destruct (zone_index_facts zn Hzn) as (-> & -> & Hshift).
  destruct Hw as [value mode Hm|value v Hv Hle|value v Hv Hle| | | | ].
  - cbn [String.eqb Ascii.eqb Bool.eqb]. rewrite Hm. reflexivity.
  - destruct (ParseUint8_decimal _ _ Hv Hle) as [-> ->]. reflexivity.
  - destruct (ParseUint8_decimal _ _ Hv Hle) as [-> ->]. reflexivity.
  - cbn. rewrite Hshift. reflexivity.
  - reflexivity.
  - cbn. rewrite Hshift. reflexivity.
  - reflexivity.
Qed.

Lemma eqb_not_elem (s x : string) (l : list string) :
  s ∉ x :: l → String.eqb s x = false ∧ s ∉ l.
Proof.
  intros Hn. split.
  - apply String.eqb_neq. intros ->. apply Hn. left.
  - intros Hin. apply Hn. by right.
Qed.

Example putConfig_zone_9 : putConfig "9" "fanMode" "low" = (false, []).
Proof. reflexivity. Qed.

(** No write request is issued on a path that returns [false]. *)
Lemma putConfig_false_no_write (zone param value : string) :
  (putConfig zone param value).1 = false →
  (putConfig zone param value).2 = [].
Proof.
  unfold putConfig.
  repeat (match goal with
          | |- context [match ?x with _ => _ end] => destruct x
          end; try done).
Qed.

(** C2. A call whose zone does not denote an integer of 0..8, or whose
    parameter is not one of the zone kind, or whose value is not an encoding
    of the parameter, returns [false] and issues no write request, neither
    [WriteTableZ] nor [WriteTable]. *)
Theorem putConfig_rejected (zone param value : string) :
  Rejected zone param value →
  putConfig zone param value = (false, []).
Proof.
  intros Hrej. unfold putConfig.
  destruct Hrej as [zone param value Hz|zone param value Hz Hp|zone value Hz Hm
    |zone param value zn Hz Hzn Hp|zone value zn Hz Hzn Hf
    |zone param value zn Hz Hzn Hp Hv|zone value zn Hz Hzn Hv
    |zone value zn Hz Hzn Hv].
  - destruct (strconv.Atoi zone) as [zn|] eqn:Ha; [|done].
    apply Atoi_spec in Ha as [Ha%Hz _].
    destruct (Z.leb_spec 1 zn); destruct (Z.leb_spec zn 8);
      destruct (Z.eqb_spec zn 0); cbn [andb]; (done || lia).
  - rewrite (Atoi_zone zone 0) by (done || lia). cbn [Z.leb Z.eqb andb Z.compare].
    apply String.eqb_neq in Hp. by rewrite Hp.
  - rewrite (Atoi_zone zone 0) by (done || lia). cbn. by rewrite Hm.
  - rewrite (Atoi_zone zone zn) by (done || lia).
    destruct (zone_index_facts zn Hzn) as (-> & _ & _).
    apply eqb_not_elem in Hp as [-> Hp]. apply eqb_not_elem in Hp as [-> Hp].
    apply eqb_not_elem in Hp as [-> Hp]. apply eqb_not_elem in Hp as [-> Hp].
    apply eqb_not_elem in Hp as [-> Hp]. done.
  - rewrite (Atoi_zone zone zn) by (done || lia).
    destruct (zone_index_facts zn Hzn) as (-> & _ & _).
    cbn [String.eqb Ascii.eqb Bool.eqb]. by rewrite Hf.
  - rewrite (Atoi_zone zone zn) by (done || lia).
    destruct (zone_index_facts zn Hzn) as (-> & _ & _).
    assert (strconv.ParseUint value 8 = None) as Hnone.
    { destruct (strconv.ParseUint value 8) as [v|] eqn:Hp8; [|done].
      apply ParseUint_spec in Hp8 as [Hd Hlt]; [|lia].
      change (2 ^ (if 8 =? 0 then 64 else 8)) with 256 in Hlt.
      apply Hv in Hd. lia. }
    apply list_elem_of_In in Hp. destruct Hp as [<-|[<-|[]]];
      cbn [String.eqb Ascii.eqb Bool.eqb]; by rewrite Hnone.
  - rewrite (Atoi_zone zone zn) by (done || lia).
    destruct (zone_index_facts zn Hzn) as (-> & _ & _).
    apply eqb_not_elem in Hv as [Hv1 Hv]. apply eqb_not_elem in Hv as [Hv2 _].
    cbn [String.eqb Ascii.eqb Bool.eqb]. by rewrite Hv1, Hv2.
  - rewrite (Atoi_zone zone zn) by (done || lia).
    destruct (zone_index_facts zn Hzn) as (-> & _ & _).
    apply eqb_not_elem in Hv as [Hv1 Hv]. apply eqb_not_elem in Hv as [Hv2 _].
    cbn [String.eqb Ascii.eqb Bool.eqb]. by rewrite Hv1, Hv2.
Qed.

Lemma not_elem_of_eqb (s : string) (l : list string) :
  forallb (λ x, negb (String.eqb s x)) l = true → s ∉ l.
Proof.
  induction l as [|x l IH]; cbn [forallb]; [intros _; apply not_elem_of_nil|].
  intros [Hx%negb_true_iff%String.eqb_neq Hl%IH]%andb_true_iff.
  apply not_elem_of_cons. done.
Qed.

(** Every failure of [putConfig] is one of the refusals. *)
Lemma putConfig_false_Rejected (zone param value : string) :
  (putConfig zone param value).1 = false → Rejected zone param value.
Proof.
  unfold putConfig.
  destruct (strconv.Atoi zone) as [zn|] eqn:Ha.
  2: { intros _. apply rej_zone. intros zn Hz.
       destruct (Z_lt_le_dec zn 0); [by left|].
       destruct (Z_lt_le_dec 8 zn); [by right|].
       rewrite (Atoi_zone zone zn) in Ha by (done || lia). done. }
  apply Atoi_spec in Ha as [Hz _].
  destruct (Z.leb_spec 1 zn) as [H1|H1]; destruct (Z.leb_spec zn 8) as [H8|H8];
    cbn [andb].
  2-4: destruct (Z.eqb_spec zn 0) as [->|Hne].
  2-7: try (intros _; apply rej_zone; intros zn' Hz';
            rewrite Hz in Hz'; injection Hz' as <-; lia).
  - destruct (String.eqb param "fanMode") eqn:E1.
    { apply String.eqb_eq in E1 as ->.
      destruct (stringFanModeToRaw value) eqn:Hf; [done|].
      intros _. by eapply rej_fanMode. }
    destruct (String.eqb param "coolSetpoint") eqn:E2.
    { apply String.eqb_eq in E2 as ->.
      destruct (strconv.ParseUint value 8) eqn:Hp; [done|].
      intros _. eapply rej_setpoint; [done|done|by left|].
      intros v Hv. destruct (Z_lt_le_dec 255 v); [done|].
      destruct (ParseUint8_decimal value v) as [Hc _]; [done|lia|congruence]. }
    destruct (String.eqb param "heatSetpoint") eqn:E3.
    { apply String.eqb_eq in E3 as ->.
      destruct (strconv.ParseUint value 8) eqn:Hp; [done|].
      intros _. eapply rej_setpoint; [done|done|right; by left|].
      intros v Hv. destruct (Z_lt_le_dec 255 v); [done|].
      destruct (ParseUint8_decimal value v) as [Hc _]; [done|lia|congruence]. }
    destruct (String.eqb param "hold") eqn:E4.
    { apply String.eqb_eq in E4 as ->.
      destruct (String.eqb value "true") eqn:V1; [done|].
      destruct (String.eqb value "false") eqn:V2; [done|].
      intros _. eapply rej_hold; [done|done|].
      apply not_elem_of_eqb. cbn [forallb]. by rewrite V1, V2. }
    destruct (String.eqb param "preset") eqn:E5.
    { apply String.eqb_eq in E5 as ->.
      destruct (String.eqb value "hold") eqn:V1; [done|].
      destruct (String.eqb value "none") eqn:V2; [done|].
      intros _. eapply rej_preset; [done|done|].
      apply not_elem_of_eqb. cbn [forallb]. by rewrite V1, V2. }
    intros _. eapply rej_zone_param; [done|done|].
    apply not_elem_of_eqb. cbn [forallb]. by rewrite E1, E2, E3, E4, E5.
  - destruct (String.eqb param "mode") eqn:E1.
    + apply String.eqb_eq in E1 as ->.
      destruct (stringModeToRaw value) eqn:Hm; [done|].
      intros _. by apply rej_mode.
    + intros _. apply rej_global_param; [done|]. by apply String.eqb_neq.
Qed.

End Mutation.

Lemma putConfig_zone_write_witness :
  integerValue "2" = Some 2 ∧ 1 ≤ 2 ≤ 8 ∧
  zoneWrite (2 - 1) "heatSetpoint" "68" 0x04
    (TStatZoneParams.setZHeatSetpoint 1 68 TStatZoneParams.zero) ∧
  putConfig "2" "heatSetpoint" "68" =
    (true,
     [WriteTableZ devTSTAT
        (TStatZoneParams.setZHeatSetpoint 1 68 TStatZoneParams.zero) (2 - 1) 0x04]).
Proof.
  assert (Hw : zoneWrite (2 - 1) "heatSetpoint" "68" 0x04
                 (TStatZoneParams.setZHeatSetpoint 1 68 TStatZoneParams.zero)).
  { apply (write_heatSetpoint (2 - 1) "68" 68); [reflexivity|lia]. }
  split; [reflexivity|]. split; [lia|]. split; [exact Hw|].
  apply (putConfig_zone_write "2" "heatSetpoint" "68" 2 0x04); [reflexivity|lia|exact Hw].
Defined.

Example putConfig_hold_zone_3 :
  putConfig "3" "hold" "true" =
    (true,
     [WriteTableZ devTSTAT (TStatZoneParams.setZoneHold 0x04 TStatZoneParams.zero) 2 0x02]) ∧
  putConfig "3" "preset" "none" =
    (true, [WriteTableZ devTSTAT TStatZoneParams.zero 2 0x02]).
Proof. split; reflexivity. Qed.

Lemma putConfig_rejected_witness :
  Rejected "9" "fanMode" "low" ∧ putConfig "9" "fanMode" "low" = (false, []).
Proof.
  assert (Hr : Rejected "9" "fanMode" "low").
  { apply rej_zone. intros zn Hzn. vm_compute in Hzn.
    injection Hzn as <-. lia. }
  split; [exact Hr|]. apply (putConfig_rejected "9" "fanMode" "low"). exact Hr.
Defined.

(** ** The snoop decoders *)

Lemma u8_bound (b : byte) : 0 ≤ u8 b < 256.
Proof. unfold u8. pose proof (Byte.to_N_bounded b). lia. Qed.

Lemma Uint16_be16 (b0 b1 : byte) (rest : list byte) :
  binary.BigEndian_Uint16 (b0 :: b1 :: rest) = Ok (be16 b0 b1).
Proof.
  unfold binary.BigEndian_Uint16, be16. f_equal.
  pose proof (u8_bound b0). pose proof (u8_bound b1).
  rewrite Z.shiftl_mul_pow2 by lia. change (2 ^ 8) with 256.
  change (2 ^ 16) with 65536. rewrite Z.mod_small by lia.
  rewrite <- Z.lxor_lor, <- Z.add_nocarry_lxor; [lia| |].
  all: apply Z.bits_inj'; intros n Hn; rewrite Z.land_spec, Z.bits_0.
  all: destruct (Z_lt_le_dec n 8).
  all: try (replace (u8 b0 * 256) with (u8 b0 * 2 ^ 8) by lia;
            rewrite (Z.mul_pow2_bits_low (u8 b0)) by lia; apply andb_false_r).
  all: rewrite (Z.bits_above_log2 (u8 b1)); [done|lia|].
  all: destruct (Z.eq_dec (u8 b1) 0) as [->|]; [simpl; lia|].
  all: apply Z.log2_lt_pow2; [lia|].
  all: eapply Z.lt_le_trans with (2 ^ 8); [change (2 ^ 8) with 256; lia|].
  all: apply Z.pow_le_mono_r; lia.
Qed.

(** *** Running a computation step by step *)

Lemma bind_lift {A B : Type} (r : Res A) (k : A → M B) (a : A) (c : Cache) :
  r = Ok a → (lift r ≫= k) c = k a c.
Proof. by intros ->. Qed.

Lemma bind_update {B : Type} (key : string) (v : Value) (k : unit → M B) (c : Cache) :
  (cache.update key v ≫= k) c = k tt (cache.put key v c).
Proof. reflexivity. Qed.

Lemma bind_ret {A B : Type} (a : A) (k : A → M B) (c : Cache) :
  (mret a ≫= k) c = k a c.
Proof. reflexivity. Qed.

Lemma bind_Ok {A B : Type} (m : M A) (k : A → M B) (a : A) (c c' : Cache) :
  m c = Ok (a, c') → (m ≫= k) c = k a c'.
Proof. unfold mbind, M_bind. by intros ->. Qed.

Lemma getHeatPump_Some (c : Cache) (hp : HeatPump) :
  store c !! "heatpump" = Some (VHeatPump hp) →
  getHeatPump c = Ok (Some hp, c).
Proof.
  intros Hc. unfold getHeatPump, cache.get, mbind, M_bind, mret, M_ret.
  by rewrite Hc.
Qed.

Ltac run_lift := erewrite bind_lift by reflexivity; cbv beta iota.

Section Snoops.
Context `{Tables}.

(** A frame from the heat pump range only reaches the heat pump decoder. *)
Lemma dispatch_heatPump (frame : InfinityFrame) (c : Cache) :
  0x5000 ≤ InfinityFrame.src frame ≤ 0x51ff →
  exec (dispatch attachSnoops frame) c = exec (snoopHeatPump frame) c.
Proof.
  intros Hsrc. unfold dispatch, attachSnoops, exec. cbn [forEach srcMin srcMax cb].
  unfold mbind, M_bind, mret, M_ret.
  destruct (Z.leb_spec 0x5000 (InfinityFrame.src frame)); [|lia].
  destruct (Z.leb_spec (InfinityFrame.src frame) 0x51ff); [|lia].
  destruct (Z.leb_spec 0x4000 (InfinityFrame.src frame)); [|lia].
  destruct (Z.leb_spec (InfinityFrame.src frame) 0x42ff); [lia|].
  destruct (Z.leb_spec 0x6000 (InfinityFrame.src frame)); [lia|].
  cbn [andb]. by destruct (snoopHeatPump frame c) as [[[] ?]|].
Qed.

(** The heat pump decoder on a temperature frame. *)
Lemma snoopHeatPump_temps (frame : InfinityFrame) (c : Cache) (hp : HeatPump)
    (b0 b1 b2 b3 : byte) (rest : list byte) :
  store c !! "heatpump" = Some (VHeatPump hp) →
  InfinityFrame.data frame = [x00; x3e; x01; b0; b1; b2; b3] ++ rest →
  let hp' := {| HeatPump.CoilTemp := Qmake (be16 b2 b3) 16;
                HeatPump.OutsideTemp := Qmake (be16 b0 b1) 16;
                HeatPump.Stage := HeatPump.Stage hp |} in
  exec (snoopHeatPump frame) c = Ok
    (cache.put "mqtt/infinitive/outsideTemp" (VFloat32 (HeatPump.OutsideTemp hp'))
       (cache.put "mqtt/infinitive/coilTemp" (VFloat32 (HeatPump.CoilTemp hp'))
          (cache.put "heatpump" (VHeatPump hp') c))).
Proof.
  intros Hc Hdata hp'. unfold exec, snoopHeatPump. rewrite Hdata.
  run_lift. erewrite bind_Ok by (by apply getHeatPump_Some); cbv beta iota.
  run_lift. cbn [app drop take Nat.sub].
  change (bytes.Equal [x00; x3e; x01] [x00; x3e; x01]) with true. cbv iota.
  run_lift. cbn [app drop take Nat.sub].
  erewrite bind_lift by apply Uint16_be16; cbv beta iota.
  run_lift. cbn [app drop take Nat.sub].
  erewrite bind_lift by apply Uint16_be16; cbv beta iota.
  rewrite !bind_update. reflexivity.
Qed.

Lemma snoopHeatPump_stage (frame : InfinityFrame) (c : Cache) (hp : HeatPump)
    (b0 : byte) (rest : list byte) :
  store c !! "heatpump" = Some (VHeatPump hp) →
  InfinityFrame.data frame = [x00; x3e; x02; b0] ++ rest →
  let hp' := {| HeatPump.CoilTemp := HeatPump.CoilTemp hp;
                HeatPump.OutsideTemp := HeatPump.OutsideTemp hp;
                HeatPump.Stage := Z.shiftr (u8 b0) 1 |} in
  exec (snoopHeatPump frame) c = Ok
    (cache.put "mqtt/infinitive/acStage" (VUint8 (HeatPump.Stage hp'))
       (cache.put "heatpump" (VHeatPump hp') c)).
Proof.
  intros Hc Hdata hp'. unfold exec, snoopHeatPump. rewrite Hdata.
  run_lift. erewrite bind_Ok by (by apply getHeatPump_Some); cbv beta iota.
  run_lift. cbn [app drop take Nat.sub].
  change (bytes.Equal [x00; x3e; x02] [x00; x3e; x01]) with false. cbv iota.
  run_lift. cbn [app drop take Nat.sub].
  change (bytes.Equal [x00; x3e; x02] [x00; x3e; x02]) with true. cbv iota.
  run_lift. rewrite !bind_update. reflexivity.
Qed.

(** C4. For a frame whose source is in the heat pump range, with a heat
    pump view in the cache: if the payload starts with 00 3E 01 and carries
    four more bytes, the cached view gets the outside temperature
    [be16 b0 b1 / 16] and the coil temperature [be16 b2 b3 / 16]; if it
    starts with 00 3E 02 and carries one more byte, the cached view gets the
    stage [b0 >> 1]. The other fields of the view are kept. *)
Theorem snoop_heatPump (frame : InfinityFrame) (c : Cache) (hp : HeatPump)
    (b0 b1 b2 b3 : byte) (rest : list byte) :
  0x5000 ≤ InfinityFrame.src frame ≤ 0x51ff →
  store c !! "heatpump" = Some (VHeatPump hp) →
  (InfinityFrame.data frame = [x00; x3e; x01; b0; b1; b2; b3] ++ rest →
   ∃ c', exec (dispatch attachSnoops frame) c = Ok c' ∧
     store c' !! "heatpump" = Some (VHeatPump
       {| HeatPump.CoilTemp := Qmake (be16 b2 b3) 16;
          HeatPump.OutsideTemp := Qmake (be16 b0 b1) 16;
          HeatPump.Stage := HeatPump.Stage hp |})) ∧
  (InfinityFrame.data frame = [x00; x3e; x02; b0] ++ rest →
   ∃ c', exec (dispatch attachSnoops frame) c = Ok c' ∧
     store c' !! "heatpump" = Some (VHeatPump
       {| HeatPump.CoilTemp := HeatPump.CoilTemp hp;
          HeatPump.OutsideTemp := HeatPump.OutsideTemp hp;
          HeatPump.Stage := Z.shiftr (u8 b0) 1 |})).
Proof.
  intros Hsrc Hc. split; intros Hdata; rewrite dispatch_heatPump by done.
  - eexists. split; [by eapply snoopHeatPump_temps|].
    cbn [store cache.put]. rewrite !lookup_insert_ne by done.
    apply lookup_insert_eq.
  - eexists. split; [by eapply snoopHeatPump_stage|].
    cbn [store cache.put]. rewrite !lookup_insert_ne by done.
    apply lookup_insert_eq.
Qed.

End Snoops.

Lemma snoop_heatPump_witness :
  0x5000 ≤ InfinityFrame.src sampleHeatPumpFrame ≤ 0x51ff ∧
  store mainCache !! "heatpump" = Some (VHeatPump HeatPump.zero) ∧
  InfinityFrame.data sampleHeatPumpFrame = [x00; x3e; x01; x01; x20; x00; xf0] ++ [] ∧
  ∃ c', exec (dispatch attachSnoops sampleHeatPumpFrame) mainCache = Ok c' ∧
    store c' !! "heatpump" = Some (VHeatPump
      {| HeatPump.CoilTemp := Qmake (be16 x00 xf0) 16;
         HeatPump.OutsideTemp := Qmake (be16 x01 x20) 16;
         HeatPump.Stage := HeatPump.Stage HeatPump.zero |}).
Proof.
  assert (Hsrc : 0x5000 ≤ InfinityFrame.src sampleHeatPumpFrame ≤ 0x51ff)
    by (simpl; lia).
  assert (Hc : store mainCache !! "heatpump" = Some (VHeatPump HeatPump.zero))
    by reflexivity.
  split; [exact Hsrc|]. split; [exact Hc|]. split; [reflexivity|].
  apply (proj1 (snoop_heatPump sampleHeatPumpFrame mainCache HeatPump.zero
                  x01 x20 x00 xf0 [] Hsrc Hc)).
  reflexivity.
Defined.

(** The temperatures of the sample frame: 0x0120 / 16 = 18 and
    0x00F0 / 16 = 15. *)
Example sample_heatPump_temps :
  (Qmake (be16 x01 x20) 16 == 18)%Q ∧ (Qmake (be16 x00 xf0) 16 == 15)%Q.
Proof. split; reflexivity. Qed.

(** ** The blower RPM in the two revisions *)

Lemma getAirHandlerRev1_Some (c : Cache) (ah : Rev1.AirHandler.t) :
  store c !! "blower" = Some (VAirHandlerRev1 ah) →
  Rev1Snoop.getAirHandler c = Ok (Some ah, c).
Proof.
  intros Hc. unfold Rev1Snoop.getAirHandler, cache.get, mbind, M_bind, mret, M_ret.
  by rewrite Hc.
Qed.

Lemma getAirHandler_Some (c : Cache) (ah : AirHandler) :
  store c !! "blower" = Some (VAirHandler ah) →
  getAirHandler c = Ok (Some ah, c).
Proof.
  intros Hc. unfold getAirHandler, cache.get, mbind, M_bind, mret, M_ret.
  by rewrite Hc.
Qed.

(** The earlier decoder on a blower frame: the slice [data[1:5]]. *)
Lemma snoopAirHandlerRev1_blower (frame : InfinityFrame) (c : Cache)
    (ah : Rev1.AirHandler.t) (b0 b1 b2 b3 b4 : byte) (rest : list byte) :
  store c !! "blower" = Some (VAirHandlerRev1 ah) →
  InfinityFrame.data frame = [x00; x03; x06; b0; b1; b2; b3; b4] ++ rest →
  exec (Rev1Snoop.snoopAirHandler frame) c = Ok
    (cache.put "blower"
       (VAirHandlerRev1
          {| Rev1.AirHandler.BlowerRPM := be16 b1 b2;
             Rev1.AirHandler.AirFlowCFM := Rev1.AirHandler.AirFlowCFM ah;
             Rev1.AirHandler.ElecHeat := Rev1.AirHandler.ElecHeat ah |}) c).
Proof.
  intros Hc Hdata. unfold exec, Rev1Snoop.snoopAirHandler. rewrite Hdata.
  run_lift. erewrite bind_Ok by (by apply getAirHandlerRev1_Some); cbv beta iota.
  run_lift. cbn [app drop take Nat.sub].
  change (bytes.Equal [x00; x03; x06] [x00; x03; x06]) with true. cbv iota.
  run_lift. cbn [app drop take Nat.sub].
  erewrite bind_lift by apply Uint16_be16; cbv beta iota.
  reflexivity.
Qed.

Section Blower.
Context `{Tables}.

(** The later decoder on a blower frame: the slice [data[1:3]]. *)
Lemma snoopAirHandler_blower (frame : InfinityFrame) (c : Cache)
    (ah : AirHandler) (b0 b1 b2 : byte) (rest : list byte) :
  store c !! "blower" = Some (VAirHandler ah) →
  InfinityFrame.data frame = [x00; x03; x06; b0; b1; b2] ++ rest →
  let ah' := {| AirHandler.BlowerRPM := be16 b1 b2;
                AirHandler.AirFlowCFM := AirHandler.AirFlowCFM ah;
                AirHandler.StaticPressure := AirHandler.StaticPressure ah;
                AirHandler.HeatStage := AirHandler.HeatStage ah;
                AirHandler.ElecHeat := AirHandler.ElecHeat ah;
                AirHandler.Action := AirHandler.Action ah |} in
  exec (snoopAirHandler frame) c = Ok
    (cache.put "mqtt/infinitive/blowerRPM" (VUint16 (be16 b1 b2))
       (cache.put "blower" (VAirHandler ah') c)).
Proof.
  intros Hc Hdata ah'. unfold exec, snoopAirHandler. rewrite Hdata.
  run_lift. erewrite bind_Ok by (by apply getAirHandler_Some); cbv beta iota.
  run_lift. cbn [app drop take Nat.sub].
  change (bytes.Equal [x00; x03; x06] [x00; x03; x06]) with true. cbv iota.
  run_lift. cbn [app drop take Nat.sub].
  erewrite bind_lift by apply Uint16_be16; cbv beta iota.
  rewrite !bind_update. reflexivity.
Qed.

(** C6. On a frame whose payload starts with 00 03 06 and carries at least
    five more bytes, the decoder of the earlier revision (slice
    [data[1:5]]) and the decoder of the later revision (slice [data[1:3]])
    both succeed and leave the same blower RPM in the cached air handler
    view: the big-endian value of the bytes 1 and 2 after the prefix. *)
Theorem blowerRPM_revisions_agree (frame : InfinityFrame) (c1 c2 : Cache)
    (ah1 : Rev1.AirHandler.t) (ah2 : AirHandler)
    (b0 b1 b2 b3 b4 : byte) (rest : list byte) :
  InfinityFrame.data frame = [x00; x03; x06; b0; b1; b2; b3; b4] ++ rest →
  store c1 !! "blower" = Some (VAirHandlerRev1 ah1) →
  store c2 !! "blower" = Some (VAirHandler ah2) →
  ∃ c1' c2' ah1' ah2',
    exec (Rev1Snoop.snoopAirHandler frame) c1 = Ok c1' ∧
    exec (snoopAirHandler frame) c2 = Ok c2' ∧
    store c1' !! "blower" = Some (VAirHandlerRev1 ah1') ∧
    store c2' !! "blower" = Some (VAirHandler ah2') ∧
    Rev1.AirHandler.BlowerRPM ah1' = be16 b1 b2 ∧
    AirHandler.BlowerRPM ah2' = be16 b1 b2.
Proof.
  intros Hdata Hc1 Hc2. do 4 eexists.
  split; [by eapply snoopAirHandlerRev1_blower|].
  split; [eapply (snoopAirHandler_blower _ _ _ b0 b1 b2 (b3 :: b4 :: rest)); done|].
  cbn [store cache.put]. split; [apply lookup_insert_eq|].
  split; [rewrite lookup_insert_ne by done; apply lookup_insert_eq|].
  split; reflexivity.
Qed.

End Blower.

Lemma blowerRPM_revisions_agree_witness :
  InfinityFrame.data sampleBlowerFrame =
    [x00; x03; x06; x00; x04; x4c; x00; x00] ++ [x00] ∧
  store mainCacheRev1 !! "blower" = Some (VAirHandlerRev1 Rev1.AirHandler.zero) ∧
  store mainCache !! "blower" = Some (VAirHandler AirHandler.zero) ∧
  ∃ c1' c2' ah1' ah2',
    exec (Rev1Snoop.snoopAirHandler sampleBlowerFrame) mainCacheRev1 = Ok c1' ∧
    exec (snoopAirHandler sampleBlowerFrame) mainCache = Ok c2' ∧
    store c1' !! "blower" = Some (VAirHandlerRev1 ah1') ∧
    store c2' !! "blower" = Some (VAirHandler ah2') ∧
    Rev1.AirHandler.BlowerRPM ah1' = be16 x04 x4c ∧
    AirHandler.BlowerRPM ah2' = be16 x04 x4c.
Proof.
  split; [reflexivity|]. split; [reflexivity|]. split; [reflexivity|].
  apply (blowerRPM_revisions_agree sampleBlowerFrame mainCacheRev1 mainCache
           Rev1.AirHandler.zero AirHandler.zero x00 x04 x4c x00 x00 [x00]);
    reflexivity.
Defined.

Example sample_blowerRPM : be16 x04 x4c = 1100.
Proof. reflexivity. Qed.

(** ** The damper decoder *)

Lemma eventsOf_put (key k : string) (v : Value) (c : Cache) :
  eventsOf key (events (cache.put k v c)) =
    eventsOf key (events c) ++ (if decide (k = key) then [v] else []).
Proof.
  unfold eventsOf. cbn [events cache.put]. rewrite filter_app, fmap_app.
  f_equal. rewrite filter_cons, filter_nil. cbn [fst]. by destruct (decide (k = key)).
Qed.

Lemma eventsOf_put_ne (key k : string) (v : Value) (c : Cache) :
  k ≠ key → eventsOf key (events (cache.put k v c)) = eventsOf key (events c).
Proof.
  intros Hne. rewrite eventsOf_put. destruct (decide (k = key)); [done|].
  apply app_nil_r.
Qed.

Lemma damperKey_inj (zi zj : nat) :
  (zi < 8)%nat → (zj < 8)%nat → damperKey zi = damperKey zj → zi = zj.
Proof.
  intros Hi Hj.
  do 8 (destruct zi as [|zi]; [do 8 (destruct zj as [|zj]; [done|]); lia|]).
  lia.
Qed.

Lemma damperKey_not_damperpos (zi : nat) : "damperpos" ≠ damperKey zi.
Proof. done. Qed.

(** One iteration of the damper loop. *)
Lemma damperStep_run (data : list byte) (zi : nat) (dp : DamperPosition)
    (c : Cache) (b : byte) :
  data !! zi = Some b →
  (zi < length (DamperPosition.DamperPos dp))%nat →
  damperStep data zi dp c =
    if decide (u8 b = 0xff) then Ok (dp, c)
    else Ok ({| DamperPosition.DamperPos := <[zi := u8 b]> (DamperPosition.DamperPos dp) |},
             cache.put (damperKey zi) (VUint (damperPercent (u8 b))) c).
Proof.
  intros Hb Hlen. unfold damperStep, index. rewrite Hb.
  erewrite bind_lift by reflexivity. cbv beta.
  destruct (decide (u8 b = 0xff)) as [->|Hne]; [reflexivity|].
  destruct (Z.eqb_spec (u8 b) 0xff); [done|]. cbn [negb].
  rewrite bind_update. cbn [DamperPosition.DamperPos].
  rewrite nth_lookup, list_lookup_insert_eq by done. cbn [default from_option id].
  pose proof (u8_bound b).
  rewrite Z.mod_small by (change (2 ^ 64) with 18446744073709551616; lia).
  reflexivity.
Qed.

(** Invariant of the damper loop over the slots [zis]. *)
Lemma damperLoop_run (data : list byte) (zis : list nat) (dp : DamperPosition)
    (c : Cache) :
  Forall (λ zi, (zi < 8)%nat ∧ (zi < length data)%nat ∧
                (zi < length (DamperPosition.DamperPos dp))%nat) zis →
  NoDup zis →
  ∃ dp' c',
    forEach zis (damperStep data) dp c = Ok (dp', c') ∧
    length (DamperPosition.DamperPos dp') = length (DamperPosition.DamperPos dp) ∧
    (∀ zi, zi ∉ zis →
       DamperPosition.DamperPos dp' !! zi = DamperPosition.DamperPos dp !! zi) ∧
    (∀ key, (∀ zi, zi ∈ zis → key ≠ damperKey zi) →
       store c' !! key = store c !! key ∧
       eventsOf key (events c') = eventsOf key (events c)) ∧
    (∀ zi b, zi ∈ zis → data !! zi = Some b →
       (u8 b = 0xff →
          DamperPosition.DamperPos dp' !! zi = DamperPosition.DamperPos dp !! zi ∧
          store c' !! damperKey zi = store c !! damperKey zi ∧
          eventsOf (damperKey zi) (events c') = eventsOf (damperKey zi) (events c)) ∧
       (u8 b ≠ 0xff →
          DamperPosition.DamperPos dp' !! zi = Some (u8 b) ∧
          store c' !! damperKey zi = Some (VUint (damperPercent (u8 b))) ∧
          eventsOf (damperKey zi) (events c') =
            eventsOf (damperKey zi) (events c) ++ [VUint (damperPercent (u8 b))])).
Proof.
  revert dp c. induction zis as [|z zs IH]; intros dp c Hall Hnd.
  - exists dp, c. split; [reflexivity|]. split; [done|]. split; [done|].
    split; [done|]. intros zi b Hin. by apply elem_of_nil in Hin.
  - apply Forall_cons in Hall as [(Hz8 & Hzd & Hzl) Hall].
    apply NoDup_cons in Hnd as [Hznot Hnd].
    destruct (lookup_lt_is_Some_2 data z Hzd) as [bz Hbz].
    cbn [forEach].
    set (dp1 := if decide (u8 bz = 0xff) then dp
                else {| DamperPosition.DamperPos :=
                          <[z := u8 bz]> (DamperPosition.DamperPos dp) |}).
    set (c1 := if decide (u8 bz = 0xff) then c
               else cache.put (damperKey z) (VUint (damperPercent (u8 bz))) c).
    assert (Hstep : damperStep data z dp c = Ok (dp1, c1)).
    { rewrite (damperStep_run data z dp c bz) by done. subst dp1 c1.
      by destruct (decide (u8 bz = 0xff)). }
    erewrite bind_Ok by exact Hstep.
    assert (Hlen1 : length (DamperPosition.DamperPos dp1) =
                    length (DamperPosition.DamperPos dp)).
    { subst dp1. destruct (decide (u8 bz = 0xff)); [done|].
      cbn [DamperPosition.DamperPos]. apply length_insert. }
    destruct (IH dp1 c1) as (dp' & c' & Hrun & Hlen & Hout & Hkeys & Hin); [|done|].
    { eapply Forall_impl; [exact Hall|]. intros zi (? & ? & ?). rewrite Hlen1. done. }
    exists dp', c'. split; [exact Hrun|].
    split; [by rewrite Hlen|].
    assert (Hz_keys : ∀ zi, zi ∈ zs → damperKey z ≠ damperKey zi).
    { intros zi Hzi Heq. apply damperKey_inj in Heq; [by subst|done|].
      rewrite Forall_forall in Hall. by apply Hall. }
    split; [|split].
    + intros zi Hzi. apply not_elem_of_cons in Hzi as [Hne Hzi].
      rewrite Hout by done. subst dp1. destruct (decide (u8 bz = 0xff)); [done|].
      cbn [DamperPosition.DamperPos]. by apply list_lookup_insert_ne.
    + intros key Hkey.
      destruct (Hkeys key) as [Hs He].
      { intros zi Hzi. apply Hkey. by right. }
      rewrite Hs, He. subst c1. destruct (decide (u8 bz = 0xff)); [done|].
      assert (damperKey z ≠ key) by (intros <-; apply (Hkey z); [left|done]).
      split; [by apply lookup_insert_ne|by apply eventsOf_put_ne].
    + intros zi b Hzi Hb. apply elem_of_cons in Hzi as [->|Hzi].
      * assert (b = bz) as -> by congruence.
        destruct (Hkeys (damperKey z) Hz_keys) as [Hs He].
        rewrite (Hout z Hznot), Hs, He. subst dp1 c1. split; intros Hff.
        -- by destruct (decide (u8 bz = 0xff)).
        -- destruct (decide (u8 bz = 0xff)); [done|].
           cbn [DamperPosition.DamperPos store cache.put].
           split; [by apply list_lookup_insert_eq|].
           split; [apply lookup_insert_eq|].
           rewrite eventsOf_put. by destruct (decide (damperKey z = damperKey z)).
      * assert (Hne : zi ≠ z) by (intros ->; done).
        assert (Hkne : damperKey z ≠ damperKey zi) by (by apply Hz_keys).
        destruct (Hin zi b Hzi Hb) as [Hff Hnf].
        assert (Hdp1 : DamperPosition.DamperPos dp1 !! zi =
                       DamperPosition.DamperPos dp !! zi).
        { subst dp1. destruct (decide (u8 bz = 0xff)); [done|].
          cbn [DamperPosition.DamperPos]. by apply list_lookup_insert_ne. }
        assert (Hc1 : store c1 !! damperKey zi = store c !! damperKey zi ∧
                      eventsOf (damperKey zi) (events c1) =
                        eventsOf (damperKey zi) (events c)).
        { subst c1. destruct (decide (u8 bz = 0xff)); [done|].
          split; [by apply lookup_insert_ne|by apply eventsOf_put_ne]. }
        destruct Hc1 as [Hs1 He1]. rewrite <- Hdp1, <- Hs1, <- He1. done.
Qed.

Lemma getDamperPosition_Some (c : Cache) (dp : DamperPosition) :
  store c !! "damperpos" = Some (VDamperPosition dp) →
  getDamperPosition c = Ok (Some dp, c).
Proof.
  intros Hc. unfold getDamperPosition, cache.get, mbind, M_bind, mret, M_ret.
  by rewrite Hc.
Qed.

Example damperPercent_ends : damperPercent 0x0f = 100 ∧ damperPercent 0x00 = 0.
Proof. split; reflexivity. Qed.

Section Damper.
Context `{Tables}.

(** A frame from the zone controller range only reaches the damper
    decoder. *)
Lemma dispatch_damper (frame : InfinityFrame) (c : Cache) :
  0x6000 ≤ InfinityFrame.src frame ≤ 0x61ff →
  exec (dispatch attachSnoops frame) c = exec (snoopDamper frame) c.
Proof.
  intros Hsrc. unfold dispatch, attachSnoops, exec. cbn [forEach srcMin srcMax cb].
  unfold mbind, M_bind, mret, M_ret.
  destruct (Z.leb_spec 0x5000 (InfinityFrame.src frame)); [|lia].
  destruct (Z.leb_spec (InfinityFrame.src frame) 0x51ff); [lia|].
  destruct (Z.leb_spec 0x4000 (InfinityFrame.src frame)); [|lia].
  destruct (Z.leb_spec (InfinityFrame.src frame) 0x42ff); [lia|].
  destruct (Z.leb_spec 0x6000 (InfinityFrame.src frame)); [|lia].
  destruct (Z.leb_spec (InfinityFrame.src frame) 0x61ff); [|lia].
  cbn [andb]. by destruct (snoopDamper frame c) as [[[] ?]|].
Qed.

(** C5. For a frame whose source is in the zone controller range, whose
    payload starts with 00 03 19 and carries eight more bytes, with a damper
    view in the cache: for every zone slot [zi] of 0..7, if the byte of the
    slot is 0xFF the cached position of the slot is unchanged and the mirror
    key of the slot is not written; otherwise the cached position is the
    byte and the mirror key [mqtt/infinitive/zone/<zi+1>/damperPos] is
    written once, with the byte times 100 divided by 15, so that 0x0F
    gives 100 and 0x00 gives 0. *)
Theorem snoop_damper (frame : InfinityFrame) (c : Cache) (dp : DamperPosition)
    (bs rest : list byte) :
  0x6000 ≤ InfinityFrame.src frame ≤ 0x61ff →
  store c !! "damperpos" = Some (VDamperPosition dp) →
  length (DamperPosition.DamperPos dp) = 8%nat →
  InfinityFrame.data frame = [x00; x03; x19] ++ bs ++ rest →
  length bs = 8%nat →
  ∃ c' dp',
    exec (dispatch attachSnoops frame) c = Ok c' ∧
    store c' !! "damperpos" = Some (VDamperPosition dp') ∧
    (∀ zi b, (zi < 8)%nat → bs !! zi = Some b →
       (u8 b = 0xff →
          DamperPosition.DamperPos dp' !! zi = DamperPosition.DamperPos dp !! zi ∧
          store c' !! damperKey zi = store c !! damperKey zi ∧
          eventsOf (damperKey zi) (events c') = eventsOf (damperKey zi) (events c)) ∧
       (u8 b ≠ 0xff →
          DamperPosition.DamperPos dp' !! zi = Some (u8 b) ∧
          store c' !! damperKey zi = Some (VUint (u8 b * 100 / 15)) ∧
          eventsOf (damperKey zi) (events c') =
            eventsOf (damperKey zi) (events c) ++ [VUint (u8 b * 100 / 15)])) ∧
    damperPercent 0x0f = 100 ∧ damperPercent 0x00 = 0.
Proof.
  intros Hsrc Hc Hlen Hdata Hbs. rewrite dispatch_damper by done.
  destruct (damperLoop_run (bs ++ rest) (seq 0 8) dp c)
    as (dp' & c1 & Hrun & _ & _ & _ & Hin).
  { apply Forall_forall. intros zi Hzi%elem_of_seq.
    rewrite length_app, Hbs, Hlen. lia. }
  { apply NoDup_seq. }
  exists (cache.put "damperpos" (VDamperPosition dp') c1), dp'.
  split; [|split; [apply lookup_insert_eq|split; [|done]]].
  - unfold exec, snoopDamper. rewrite Hdata.
    run_lift. erewrite bind_Ok by (by apply getDamperPosition_Some); cbv beta iota.
    run_lift.
    change (drop 3 ([x00; x03; x19] ++ bs ++ rest)) with (bs ++ rest).
    change (take (3 - 0) (drop 0 ([x00; x03; x19] ++ bs ++ rest)))
      with [x00; x03; x19].
    change (bytes.Equal [x00; x03; x19] [x00; x03; x19]) with true. cbv iota.
    erewrite bind_Ok by exact Hrun. reflexivity.
  - intros zi b Hzi Hb.
    assert (Hdat : (bs ++ rest) !! zi = Some b) by (by apply lookup_app_l_Some).
    assert (Hzin : zi ∈ seq 0 8) by (apply elem_of_seq; lia).
    destruct (Hin zi b Hzin Hdat) as [Hff Hnf].
    cbn [store cache.put].
    rewrite lookup_insert_ne by apply damperKey_not_damperpos.
    rewrite eventsOf_put_ne by apply damperKey_not_damperpos.
    done.
Qed.

End Damper.

Lemma snoop_damper_witness :
  0x6000 ≤ InfinityFrame.src sampleDamperFrame ≤ 0x61ff ∧
  store mainCache !! "damperpos" = Some (VDamperPosition DamperPosition.zero) ∧
  length (DamperPosition.DamperPos DamperPosition.zero) = 8%nat ∧
  InfinityFrame.data sampleDamperFrame =
    [x00; x03; x19] ++ [x0f; x00; x07; xff; xff; xff; xff; xff] ++ [x00] ∧
  ∃ c' dp',
    exec (dispatch attachSnoops sampleDamperFrame) mainCache = Ok c' ∧
    store c' !! "damperpos" = Some (VDamperPosition dp') ∧
    (∀ zi b, (zi < 8)%nat →
       [x0f; x00; x07; xff; xff; xff; xff; xff] !! zi = Some b →
       (u8 b = 0xff →
          DamperPosition.DamperPos dp' !! zi =
            DamperPosition.DamperPos DamperPosition.zero !! zi ∧
          store c' !! damperKey zi = store mainCache !! damperKey zi ∧
          eventsOf (damperKey zi) (events c') =
            eventsOf (damperKey zi) (events mainCache)) ∧
       (u8 b ≠ 0xff →
          DamperPosition.DamperPos dp' !! zi = Some (u8 b) ∧
          store c' !! damperKey zi = Some (VUint (u8 b * 100 / 15)) ∧
          eventsOf (damperKey zi) (events c') =
            eventsOf (damperKey zi) (events mainCache) ++ [VUint (u8 b * 100 / 15)])) ∧
    damperPercent 0x0f = 100 ∧ damperPercent 0x00 = 0.
Proof.
  assert (Hsrc : 0x6000 ≤ InfinityFrame.src sampleDamperFrame ≤ 0x61ff)
    by (simpl; lia).
  split; [exact Hsrc|]. split; [reflexivity|]. split; [reflexivity|].
  split; [reflexivity|].
  apply (snoop_damper sampleDamperFrame mainCache DamperPosition.zero
           [x0f; x00; x07; xff; xff; xff; xff; xff] [x00] Hsrc);
    reflexivity.
Defined.

Example sample_damper_positions :
  (λ c, (store c !! "damperpos", eventsOf (damperKey 0) (events c),
         eventsOf (damperKey 2) (events c), eventsOf (damperKey 3) (events c))) <$>
    (match exec (dispatch attachSnoops sampleDamperFrame) mainCache with
     | Ok c => Some c
     | Panic => None
     end) =
  Some (Some (VDamperPosition
                {| DamperPosition.DamperPos := [15; 0; 7; 0; 0; 0; 0; 0] |}),
        [VUint 100], [VUint 46], []).
Proof. vm_compute. reflexivity. Qed.

(** ** The state poller *)

Lemma put_other (key k : string) (v : Value) (c : Cache) :
  k ≠ key →
  store (cache.put k v c) !! key = store c !! key ∧
  eventsOf key (events (cache.put k v c)) = eventsOf key (events c).
Proof.
  intros Hne. split; [by apply lookup_insert_ne|by apply eventsOf_put_ne].
Qed.

(** One zone of the poller loop: the mirror keys of the zone are written,
    the humidity key is not, and [hum] becomes the humidity of the zone. *)
Lemma pollZone_run (z : TStatZoneConfig) (hum : Z) (c : Cache) :
  is_Some (TStatZoneConfig.Hold z) →
  ∃ c', pollZone "mqtt/infinitive" z hum c =
          Ok (TStatZoneConfig.CurrentHumidity z, c') ∧
        store c' !! humidityKey = store c !! humidityKey ∧
        eventsOf humidityKey (events c') = eventsOf humidityKey (events c).
Proof.
  intros [hold Hhold]. unfold pollZone. rewrite Hhold.
  rewrite !bind_update. erewrite bind_lift by reflexivity. cbv beta.
  rewrite !bind_update. eexists. split; [reflexivity|].
  repeat match goal with
         | |- context [cache.put ?k ?v ?c] =>
             destruct (put_other humidityKey k v c) as [-> ->]; [done|]
         end.
  done.
Qed.

Lemma pollZones_run (zones : list TStatZoneConfig) (hum : Z) (c : Cache) :
  Forall (λ z, is_Some (TStatZoneConfig.Hold z)) zones →
  ∃ c', forEach zones (pollZone "mqtt/infinitive") hum c =
          Ok (default hum (TStatZoneConfig.CurrentHumidity <$> last zones), c') ∧
        store c' !! humidityKey = store c !! humidityKey ∧
        eventsOf humidityKey (events c') = eventsOf humidityKey (events c).
Proof.
  revert hum c. induction zones as [|z zones IH]; intros hum c Hall.
  - exists c. done.
  - apply Forall_cons in Hall as [Hz Hall].
    destruct (pollZone_run z hum c Hz) as (c1 & Hrun1 & Hs1 & He1).
    destruct (IH (TStatZoneConfig.CurrentHumidity z) c1 Hall) as (c' & Hrun & Hs & He).
    exists c'. cbn [forEach]. erewrite bind_Ok by exact Hrun1. rewrite Hrun.
    split; [|by rewrite Hs, He].
    do 2 f_equal. rewrite last_cons. by destruct (last zones).
Qed.

Lemma getRawData_Ok (bus : Bus) (dev : Z) (a b c : byte) :
  getRawData bus dev [a; b; c] = Ok tt.
Proof.
  unfold getRawData. cbn. by destruct (readRaw bus dev [a; b; c]).
Qed.

Section Poller.
Context `{Tables}.
Import TStatZoneParams TStatCurrentParams.

(** The refresh of the cache after a successful read: it does not panic,
    and the humidity key is written exactly when the humidity of the last
    zone of the list is positive, with that humidity. *)
Lemma pollUpdate_run (c1 : TStatZonesConfig) (c : Cache) :
  Forall (λ z, is_Some (TStatZoneConfig.Hold z)) (TStatZonesConfig.Zones c1) →
  ∃ c', pollUpdate c1 c = Ok (tt, c') ∧
    let hum := default 0 (TStatZoneConfig.CurrentHumidity <$>
                            last (TStatZonesConfig.Zones c1)) in
    store c' !! humidityKey =
      (if decide (0 < hum) then Some (VUint8 hum) else store c !! humidityKey) ∧
    eventsOf humidityKey (events c') =
      eventsOf humidityKey (events c) ++
      (if decide (0 < hum) then [VUint8 hum] else []).
Proof.
  intros Hall. unfold pollUpdate. rewrite bind_update.
  destruct (pollZones_run (TStatZonesConfig.Zones c1) 0
              (cache.put "tstat" (VTStat c1) c) Hall) as (c2 & Hrun & Hs & He).
  erewrite bind_Ok by exact Hrun. cbv beta.
  set (hum := default 0 (TStatZoneConfig.CurrentHumidity <$>
                           last (TStatZonesConfig.Zones c1))).
  destruct (put_other humidityKey "tstat" (VTStat c1) c) as [Hs0 He0]; [done|].
  rewrite Hs0 in Hs. rewrite He0 in He.
  destruct (Z.ltb_spec 0 hum) as [Hpos|Hle].
  - rewrite !bind_update. eexists. split; [reflexivity|]. cbv zeta.
    destruct (decide (0 < hum)); [|lia].
    repeat match goal with
           | |- context [cache.put ?k ?v (cache.put ?k' ?v' ?c)] =>
               destruct (put_other humidityKey k v (cache.put k' v' c)) as [-> ->];
               [done|]
           end.
    cbn [store cache.put]. rewrite eventsOf_put, He.
    split; [apply lookup_insert_eq|].
    by destruct (decide (humidityKey = humidityKey)).
  - rewrite bind_ret, !bind_update. eexists. split; [reflexivity|]. cbv zeta.
    destruct (decide (0 < hum)); [lia|].
    repeat match goal with
           | |- context [cache.put ?k ?v ?c] =>
               destruct (put_other humidityKey k v c) as [-> ->]; [done|]
           end.
    rewrite app_nil_r. done.
Qed.

(** The zones [getZonesConfig] returns all carry a hold flag. *)
Lemma getZonesConfig_Hold (bus : Bus) (tstat : TStatZonesConfig) :
  getZonesConfig bus = Some tstat →
  Forall (λ z, is_Some (TStatZoneConfig.Hold z)) (TStatZonesConfig.Zones tstat).
Proof.
  intros Hget.
  destruct (readZoneParams bus devTSTAT) as [cfg|] eqn:Hcfg.
  2: { rewrite getZonesConfig_None in Hget by (by left). done. }
  destruct (readCurrentParams bus devTSTAT) as [params|] eqn:Hpar.
  2: { rewrite getZonesConfig_None in Hget by (by right). done. }
  rewrite (getZonesConfig_Some bus cfg params) in Hget by done.
  injection Hget as <-. cbn [TStatZonesConfig.Zones].
  apply Forall_fmap, Forall_forall. intros zi _. by eexists.
Qed.

(** The probe at the end of a pass: it does not panic and keeps the cursor
    usable. *)
Lemma probe_run (monArray : list Z) (bus : Bus) (mon_i : nat) (c : Cache) :
  monValid monArray mon_i →
  ∃ mon_i',
    (if (0 <? length monArray)%nat
     then
       m ← lift (match monArray !! mon_i with Some m => Ok m | None => Panic end);
       lift (getRawData bus 0x2001
               [x00; toByte (Z.land (Z.shiftr m 8) 0xff); toByte (Z.land m 0xff)]);;
       mret ((mon_i + 1) mod length monArray)%nat
     else mret mon_i) c = Ok (mon_i', c) ∧
    monValid monArray mon_i'.
Proof.
  intros [->|Hlt].
  - exists mon_i. split; [reflexivity|by left].
  - destruct (Nat.ltb_spec 0 (length monArray)); [|lia].
    destruct (lookup_lt_is_Some_2 monArray mon_i Hlt) as [m Hm]. rewrite Hm.
    exists ((mon_i + 1) mod length monArray)%nat. split.
    + erewrite bind_lift by reflexivity. cbv beta.
      erewrite bind_lift by apply getRawData_Ok. reflexivity.
    + right. apply Nat.mod_upper_bound. lia.
Qed.

(** A pass of the poller does not panic and keeps the cursor usable. *)
Lemma pollTick_run (monArray : list Z) (bus : Bus) (mon_i : nat) (c : Cache) :
  monValid monArray mon_i →
  ∃ mon_i' c', pollTick monArray bus mon_i c = Ok (mon_i', c') ∧
    monValid monArray mon_i' ∧
    match getZonesConfig bus with
    | Some c1 => pollUpdate c1 c = Ok (tt, c')
    | None => c' = c
    end.
Proof.
  intros Hv. unfold pollTick.
  destruct (getZonesConfig bus) as [c1|] eqn:Hget.
  - destruct (pollUpdate_run c1 c) as (c' & Hrun & _);
      [by eapply getZonesConfig_Hold|].
    destruct (probe_run monArray bus mon_i c' Hv) as (mon_i' & Hp & Hv').
    exists mon_i', c'. erewrite bind_Ok by exact Hrun. cbv beta. done.
  - destruct (probe_run monArray bus mon_i c Hv) as (mon_i' & Hp & Hv').
    exists mon_i', c. rewrite bind_ret. done.
Qed.

(** The poller loop never panics. *)
Lemma pollLoop_total (monArray : list Z) (ticks : list Bus) (mon_i : nat)
    (c : Cache) :
  monValid monArray mon_i →
  ∃ r, pollLoop monArray ticks mon_i c = Ok r.
Proof.
  revert mon_i c. induction ticks as [|bus ticks IH]; intros mon_i c Hv.
  - by eexists.
  - destruct (pollTick_run monArray bus mon_i c Hv) as (mon_i' & c' & Hrun & Hv' & _).
    cbn [pollLoop]. erewrite bind_Ok by exact Hrun. by apply IH.
Qed.

(** C7. On a pass of the poller in which the read of either table fails,
    the pass ends without a panic and leaves the cache as it was: no key is
    stored and no change is published, neither for ["tstat"] nor for a
    mirror key. The loop goes on with the next pass, and never panics. *)
Theorem poll_failure_skips (monArray : list Z) (bus : Bus) (ticks : list Bus)
    (mon_i : nat) (c : Cache) :
  readZoneParams bus devTSTAT = None ∨ readCurrentParams bus devTSTAT = None →
  monValid monArray mon_i →
  ∃ mon_i' c',
    pollTick monArray bus mon_i c = Ok (mon_i', c') ∧
    store c' = store c ∧ events c' = events c ∧
    pollLoop monArray (bus :: ticks) mon_i c = pollLoop monArray ticks mon_i' c' ∧
    ∃ r, pollLoop monArray (bus :: ticks) mon_i c = Ok r.
Proof.
  intros Hfail Hv.
  destruct (pollTick_run monArray bus mon_i c Hv) as (mon_i' & c' & Hrun & Hv' & Hc).
  rewrite getZonesConfig_None in Hc by done. subst c'.
  exists mon_i', c. split; [done|]. split; [done|]. split; [done|].
  split.
  - cbn [pollLoop]. by erewrite bind_Ok by exact Hrun.
  - by apply pollLoop_total.
Qed.

(** C10. On a pass of the poller in which both tables are read, the
    humidity key is written exactly when the last zone of the zone list has
    a positive humidity, once and with that humidity; when the list is empty
    or the humidity of its last zone is 0 the key keeps its value and no
    change of it is published. *)
Theorem poll_humidity_last_zone (monArray : list Z) (bus : Bus) (mon_i : nat)
    (c : Cache) (tstat : TStatZonesConfig) :
  getZonesConfig bus = Some tstat →
  monValid monArray mon_i →
  ∃ mon_i' c',
    pollTick monArray bus mon_i c = Ok (mon_i', c') ∧
    (∀ z, last (TStatZonesConfig.Zones tstat) = Some z →
          0 < TStatZoneConfig.CurrentHumidity z →
       store c' !! humidityKey = Some (VUint8 (TStatZoneConfig.CurrentHumidity z)) ∧
       eventsOf humidityKey (events c') =
         eventsOf humidityKey (events c) ++
         [VUint8 (TStatZoneConfig.CurrentHumidity z)]) ∧
    (last (TStatZonesConfig.Zones tstat) = None ∨
     (∃ z, last (TStatZonesConfig.Zones tstat) = Some z ∧
           TStatZoneConfig.CurrentHumidity z = 0) →
       store c' !! humidityKey = store c !! humidityKey ∧
       eventsOf humidityKey (events c') = eventsOf humidityKey (events c)).
Proof.
  intros Hget Hv.
  destruct (pollTick_run monArray bus mon_i c Hv) as (mon_i' & c' & Hrun & _ & Hc).
  rewrite Hget in Hc.
  destruct (pollUpdate_run tstat c) as (c'' & Hrun' & Hs & He);
    [by eapply getZonesConfig_Hold|].
  assert (c'' = c') as -> by congruence. cbv zeta in Hs, He.
  exists mon_i', c'. split; [done|]. split.
  - intros z Hz Hpos. rewrite Hz in Hs, He.
    cbn [fmap option_fmap option_map default from_option id] in Hs, He.
    destruct (decide (0 < TStatZoneConfig.CurrentHumidity z)); [done|lia].
  - intros [Hnone|(z & Hz & Hzero)].
    + rewrite Hnone in Hs, He. cbn in Hs, He. by rewrite app_nil_r in He.
    + rewrite Hz in Hs, He. cbn [fmap option_fmap option_map default from_option id] in Hs, He.
      destruct (decide (0 < TStatZoneConfig.CurrentHumidity z)); [lia|].
      by rewrite app_nil_r in He.
Qed.

End Poller.

Lemma poll_failure_skips_witness :
  (readZoneParams timeoutBus devTSTAT = None ∨
   readCurrentParams timeoutBus devTSTAT = None) ∧
  monValid rawMonTable 0 ∧
  ∃ mon_i' c',
    pollTick rawMonTable timeoutBus 0 mainCache = Ok (mon_i', c') ∧
    store c' = store mainCache ∧ events c' = events mainCache ∧
    pollLoop rawMonTable (timeoutBus :: [sampleBus]) 0 mainCache =
      pollLoop rawMonTable [sampleBus] mon_i' c' ∧
    ∃ r, pollLoop rawMonTable (timeoutBus :: [sampleBus]) 0 mainCache = Ok r.
Proof.
  assert (Hfail : readZoneParams timeoutBus devTSTAT = None ∨
                  readCurrentParams timeoutBus devTSTAT = None)
    by (right; reflexivity).
  assert (Hv : monValid rawMonTable 0) by (right; simpl; lia).
  split; [exact Hfail|]. split; [exact Hv|].
  exact (poll_failure_skips rawMonTable timeoutBus [sampleBus] 0%nat mainCache Hfail Hv).
Defined.

Lemma poll_humidity_last_zone_witness :
  (∃ tstat, getZonesConfig sampleBus = Some tstat ∧
     (TStatZoneConfig.CurrentHumidity <$> last (TStatZonesConfig.Zones tstat)) = Some 48 ∧
     ∃ mon_i' c',
       pollTick rawMonTable sampleBus 0 mainCache = Ok (mon_i', c') ∧
       (∀ z, last (TStatZonesConfig.Zones tstat) = Some z →
             0 < TStatZoneConfig.CurrentHumidity z →
          store c' !! humidityKey = Some (VUint8 (TStatZoneConfig.CurrentHumidity z)) ∧
          eventsOf humidityKey (events c') =
            eventsOf humidityKey (events mainCache) ++
            [VUint8 (TStatZoneConfig.CurrentHumidity z)]) ∧
       (last (TStatZonesConfig.Zones tstat) = None ∨
        (∃ z, last (TStatZonesConfig.Zones tstat) = Some z ∧
              TStatZoneConfig.CurrentHumidity z = 0) →
          store c' !! humidityKey = store mainCache !! humidityKey ∧
          eventsOf humidityKey (events c') = eventsOf humidityKey (events mainCache))) ∧
  monValid rawMonTable 0.
Proof.
  assert (Hv : monValid rawMonTable 0) by (right; simpl; lia).
  split; [|exact Hv].
  eexists. split; [reflexivity|]. split; [reflexivity|].
  apply (poll_humidity_last_zone rawMonTable sampleBus 0%nat mainCache _ eq_refl Hv).
Defined.

(** On the sample thermostat the zones 1, 2 and 4 are active with the
    humidities 45, 47 and 48: the key gets 48, the humidity of the last one.
    When the last active zone reports 0 the key is not written, although the
    first zone reports 45. *)
Example sample_poll_humidity :
  (λ r, (store r.2 !! humidityKey, eventsOf humidityKey (events r.2))) <$>
    (match pollTick rawMonTable sampleBus 0 mainCache with
     | Ok r => Some r
     | Panic => None
     end) = Some (Some (VUint8 48), [VUint8 48]) ∧
  (λ r, (store r.2 !! humidityKey, eventsOf humidityKey (events r.2))) <$>
    (match pollTick rawMonTable dryLastZoneBus 0 mainCache with
     | Ok r => Some r
     | Panic => None
     end) = Some (None, []).
Proof. split; vm_compute; reflexivity. Qed.

(** ** The typed keys are an invariant *)

Lemma typedKeys_put_other (k : string) (v : Value) (c : Cache) :
  k ≠ "blower" → k ≠ "heatpump" → k ≠ "damperpos" →
  typedKeys c → typedKeys (cache.put k v c).
Proof.
  intros H1 H2 H3 (Ha & Hh & Hd). unfold typedKeys. cbn [store cache.put].
  by rewrite !lookup_insert_ne by done.
Qed.

Lemma typedKeys_put_blower (ah : AirHandler) (c : Cache) :
  typedKeys c → typedKeys (cache.put "blower" (VAirHandler ah) c).
Proof.
  intros (Ha & Hh & Hd). unfold typedKeys. cbn [store cache.put].
  rewrite lookup_insert_eq, !lookup_insert_ne by done. eauto.
Qed.

Lemma typedKeys_put_heatpump (hp : HeatPump) (c : Cache) :
  typedKeys c → typedKeys (cache.put "heatpump" (VHeatPump hp) c).
Proof.
  intros (Ha & Hh & Hd). unfold typedKeys. cbn [store cache.put].
  rewrite lookup_insert_eq, !lookup_insert_ne by done. eauto.
Qed.

Lemma typedKeys_put_damperpos (dp : DamperPosition) (c : Cache) :
  length (DamperPosition.DamperPos dp) = 8%nat →
  typedKeys c → typedKeys (cache.put "damperpos" (VDamperPosition dp) c).
Proof.
  intros Hlen (Ha & Hh & Hd). unfold typedKeys. cbn [store cache.put].
  rewrite lookup_insert_eq, !lookup_insert_ne by done. eauto.
Qed.

Lemma typedKeys_mainCache : typedKeys mainCache.
Proof. repeat split; eexists; try split; reflexivity. Qed.

Ltac typed_puts :=
  repeat first
    [ assumption
    | apply typedKeys_put_blower
    | apply typedKeys_put_heatpump
    | apply typedKeys_put_other; [done|done|done|] ].

Ltac run_all :=
  unfold exec, cache.update, cache.get, lift, mbind, M_bind, mret, M_ret in *;
  repeat (case_match; simplify_eq); typed_puts.

Lemma snoopHeatPump_typedKeys `{Tables} (frame : InfinityFrame) (c c' : Cache) :
  typedKeys c → exec (snoopHeatPump frame) c = Ok c' → typedKeys c'.
Proof.
  intros Ht Hrun. unfold snoopHeatPump, getHeatPump in Hrun. run_all.
Qed.

Lemma snoopAirHandler_typedKeys `{Tables} (frame : InfinityFrame) (c c' : Cache) :
  typedKeys c → exec (snoopAirHandler frame) c = Ok c' → typedKeys c'.
Proof.
  intros Ht Hrun. unfold snoopAirHandler, getAirHandler in Hrun. run_all.
Qed.

Lemma damperLoop_typedKeys (data : list byte) (zis : list nat)
    (dp dp' : DamperPosition) (c c' : Cache) :
  typedKeys c →
  forEach zis (damperStep data) dp c = Ok (dp', c') →
  typedKeys c' ∧
  length (DamperPosition.DamperPos dp') = length (DamperPosition.DamperPos dp).
Proof.
  revert dp c. induction zis as [|zi zis IH]; intros dp c Ht Hrun.
  - unfold forEach, mret, M_ret in Hrun. by simplify_eq.
  - cbn [forEach] in Hrun. unfold mbind at 1, M_bind at 1 in Hrun.
    destruct (damperStep data zi dp c) as [[dp1 c1]|] eqn:Hstep; [|done].
    apply IH in Hrun as [Ht' Hlen].
    + split; [done|]. rewrite Hlen. clear -Hstep.
      unfold damperStep, cache.update, lift, mbind, M_bind, mret, M_ret in Hstep.
      repeat (case_match; simplify_eq); [|done].
      cbn [DamperPosition.DamperPos]. apply length_insert.
    + clear -Hstep Ht.
      unfold damperStep, cache.update, lift, mbind, M_bind, mret, M_ret in Hstep.
      repeat (case_match; simplify_eq); typed_puts.
Qed.

Lemma snoopDamper_typedKeys (frame : InfinityFrame) (c c' : Cache) :
  typedKeys c → exec (snoopDamper frame) c = Ok c' → typedKeys c'.
Proof.
  intros Ht Hrun. pose proof Ht as (_ & _ & dp0 & Hdp0 & Hlen0).
  unfold exec, snoopDamper, getDamperPosition, cache.get, lift in Hrun.
  unfold mbind, M_bind, mret, M_ret in Hrun.
  repeat (case_match; simplify_eq); try done.
  all: match goal with
       | Hl : forEach _ _ _ _ = Ok _ |- _ =>
           apply damperLoop_typedKeys in Hl as [Ht' Hlen']; [|done]
       end.
  all: unfold cache.update in *; simplify_eq.
  all: apply typedKeys_put_damperpos; [congruence|done].
Qed.

Section Invariant.
Context `{Tables}.

Lemma dispatch_typedKeys (frame : InfinityFrame) (c c' : Cache) :
  typedKeys c → exec (dispatch attachSnoops frame) c = Ok c' → typedKeys c'.
Proof.
  intros Ht Hrun. unfold exec, dispatch, attachSnoops in Hrun.
  cbn [forEach srcMin srcMax cb] in Hrun.
  unfold mbind, M_bind, mret, M_ret in Hrun.
  assert (Hcb : ∀ (f : InfinityFrame → M unit) c1 c2 u,
            (∀ a b, typedKeys a → exec (f frame) a = Ok b → typedKeys b) →
            typedKeys c1 → f frame c1 = Ok (u, c2) → typedKeys c2).
  { intros f c1 c2 u Hf Hc1 Hr. apply (Hf c1 c2 Hc1). unfold exec. by rewrite Hr. }
  repeat (case_match; simplify_eq);
    repeat match goal with
           | Hr : snoopHeatPump _ _ = Ok _ |- _ =>
               apply (Hcb snoopHeatPump) in Hr;
               [|apply snoopHeatPump_typedKeys|done]
           | Hr : snoopAirHandler _ _ = Ok _ |- _ =>
               apply (Hcb snoopAirHandler) in Hr;
               [|apply snoopAirHandler_typedKeys|done]
           | Hr : snoopDamper _ _ = Ok _ |- _ =>
               apply (Hcb snoopDamper) in Hr;
               [|apply snoopDamper_typedKeys|done]
           end; done.
Qed.

Lemma pollZones_typedKeys (zones : list TStatZoneConfig) (hum hum' : Z)
    (c c' : Cache) :
  typedKeys c →
  forEach zones (pollZone "mqtt/infinitive") hum c = Ok (hum', c') →
  typedKeys c'.
Proof.
  revert hum c. induction zones as [|z zones IH]; intros hum c Ht Hrun.
  - unfold forEach, mret, M_ret in Hrun. by simplify_eq.
  - cbn [forEach] in Hrun. unfold mbind at 1, M_bind at 1 in Hrun.
    destruct (pollZone "mqtt/infinitive" z hum c) as [[hum1 c1]|] eqn:Hstep; [|done].
    apply IH in Hrun; [done|]. clear -Hstep Ht.
    unfold pollZone, cache.update, lift, mbind, M_bind, mret, M_ret in Hstep.
    repeat (case_match; simplify_eq); typed_puts.
Qed.

Lemma pollUpdate_typedKeys (c1 : TStatZonesConfig) (c c' : Cache) :
  typedKeys c → pollUpdate c1 c = Ok (tt, c') → typedKeys c'.
Proof.
  intros Ht Hrun. unfold pollUpdate in Hrun. rewrite bind_update in Hrun.
  unfold mbind at 1, M_bind at 1 in Hrun.
  destruct (forEach _ _ _ _) as [[hum c2]|] eqn:Hloop; [|done].
  apply pollZones_typedKeys in Hloop; [|by apply typedKeys_put_other].
  unfold cache.update, mbind, M_bind, mret, M_ret in Hrun.
  repeat (case_match; simplify_eq); typed_puts.
Qed.

(** Every reachable state has the typed keys in place and a usable probe
    cursor. *)
Lemma reachable_invariant (monArray : list Z) (c : Cache) (mon_i : nat) :
  reachable monArray (c, mon_i) → typedKeys c ∧ monValid monArray mon_i.
Proof.
  unfold reachable. intros Hr.
  apply (rtc_ind_r (λ st, typedKeys st.1 ∧ monValid monArray st.2)
           (mainCache, 0%nat)) in Hr; [done| |].
  - split; [apply typedKeys_mainCache|].
    destruct monArray; [by left|right; simpl; lia].
  - intros [c2 i2] st3 _ Hstep [Ht Hv]. cbn [fst snd] in Ht, Hv.
    inversion Hstep as [frame ? ? ? Hrun|bus ? ? ? ? Hrun]; subst; cbn [fst snd].
    + split; [by eapply dispatch_typedKeys|done].
    + destruct (pollTick_run monArray bus i2 c2 Hv) as (i' & c'' & Hrun' & Hv' & Hc).
      rewrite Hrun in Hrun'. injection Hrun' as <- <-. split; [|done].
      destruct (getZonesConfig bus); [by eapply pollUpdate_typedKeys|by subst].
Qed.

End Invariant.

(* ===================================================================== *)
(** * Further properties of the mutation path *)
(* ===================================================================== *)

Section MutationMore.
Context `{Tables}.

(** X1. For a zone string that denotes 0 and a mode name the translator
    knows, [putConfig] with the parameter ["mode"] succeeds and issues
    exactly one [WriteTable] to the thermostat, with the mask 0x10 and a
    [TStatCurrentParams] that carries the raw mode and is zero elsewhere. *)
Theorem putConfig_mode_write (zone value : string) (mode : Z) :
  integerValue zone = Some 0 →
  stringModeToRaw value = Some mode →
  putConfig zone "mode" value =
    (true, [WriteTable devTSTAT (TStatCurrentParams.withMode mode) 0x10]).
Proof.
  intros Hz Hm. unfold putConfig. rewrite (Atoi_zone zone 0) by (done || lia).
  cbn. by rewrite Hm.
Qed.

(** X2. On every call [putConfig] issues one write request when it returns
    [true] and none when it returns [false]. A zoned write goes to the
    thermostat with a zone index of 0..7, a mask of exactly one of the four
    fields, tables of 8 slots, and a hold bitmap that is zero or, under the
    mask 0x02, the single bit of the zone; an unzoned write goes to the
    thermostat with the mask 0x10. *)
Theorem putConfig_write_shape (zone param value : string) :
  length (putConfig zone param value).2 =
    (if (putConfig zone param value).1 then 1%nat else 0%nat) ∧
  Forall wellFormedWrite (putConfig zone param value).2.
Proof.
  unfold putConfig.
  destruct (strconv.Atoi zone) as [zn|]; [|by split].
  destruct (Z.leb_spec 1 zn) as [H1|H1]; destruct (Z.leb_spec zn 8) as [H8|H8];
    cbn [andb].
  2-4: destruct (Z.eqb_spec zn 0); [|by split].
  2-4: destruct (String.eqb param "mode"); [|by split].
  2-4: destruct (stringModeToRaw value); [|by split].
  2-4: split; [done|]; apply Forall_cons; split; [|by apply Forall_nil]; done.
  destruct (zone_index_facts zn (conj H1 H8)) as (_ & Hmod & Hshift).
  rewrite Hmod, Hshift.
  assert (Hz : 0 ≤ zn - 1 ≤ 7) by lia.
  assert (Hshape : ∀ tbl flags,
            flags ∈ [0x01; 0x02; 0x04; 0x08] →
            (TStatZoneParams.ZoneHold tbl = 0 ∨
             flags = 0x02 ∧ TStatZoneParams.ZoneHold tbl = 2 ^ (zn - 1)) →
            length (TStatZoneParams.ZFanMode tbl) = 8%nat →
            length (TStatZoneParams.ZHeatSetpoint tbl) = 8%nat →
            length (TStatZoneParams.ZCoolSetpoint tbl) = 8%nat →
            Forall wellFormedWrite [WriteTableZ devTSTAT tbl (zn - 1) flags]).
  { intros tbl flags ? ? ? ? ?. apply Forall_cons; split; [|by apply Forall_nil].
    cbn [wellFormedWrite]. done. }
  destruct (String.eqb param "fanMode").
  { destruct (stringFanModeToRaw value); [|by split]. split; [done|].
    apply Hshape; cbn; rewrite ?length_insert; try done; [repeat constructor|by left]. }
  destruct (String.eqb param "coolSetpoint").
  { destruct (strconv.ParseUint value 8); [|by split]. split; [done|].
    apply Hshape; cbn; rewrite ?length_insert; try done; [repeat constructor|by left]. }
  destruct (String.eqb param "heatSetpoint").
  { destruct (strconv.ParseUint value 8); [|by split]. split; [done|].
    apply Hshape; cbn; rewrite ?length_insert; try done; [repeat constructor|by left]. }
  destruct (String.eqb param "hold").
  { destruct (String.eqb value "true"); [|destruct (String.eqb value "false")];
      [| |by split]; (split; [done|]); apply Hshape; cbn; try done;
      try (by repeat constructor); by (left + right). }
  destruct (String.eqb param "preset"); [|by split].
  destruct (String.eqb value "hold"); [|destruct (String.eqb value "none")];
    [| |by split]; (split; [done|]); apply Hshape; cbn; try done;
    try (by repeat constructor); by (left + right).
Qed.

End MutationMore.

Lemma putConfig_mode_write_witness :
  integerValue "0" = Some 0 ∧ stringModeToRaw "cool" = Some 2 ∧
  putConfig "0" "mode" "cool" =
    (true, [WriteTable devTSTAT (TStatCurrentParams.withMode 2) 0x10]).
Proof.
  split; [reflexivity|]. split; [reflexivity|].
  apply (putConfig_mode_write "0" "cool" 2); reflexivity.
Defined.
Section MutationMore2.
Context `{Tables}.

Lemma Atoi_integerValue_eq (zone zone' : string) :
  integerValue zone = integerValue zone' →
  strconv.Atoi zone = strconv.Atoi zone'.
Proof.
  intros Heq.
  destruct (strconv.Atoi zone) as [zn|] eqn:Ha.
  - apply Atoi_spec in Ha as [Hv Hr]. symmetry. apply Atoi_spec.
    split; [congruence|done].
  - destruct (strconv.Atoi zone') as [zn'|] eqn:Ha'; [|done].
    apply Atoi_spec in Ha' as [Hv Hr].
    assert (strconv.Atoi zone = Some zn') as Hc; [|congruence].
    apply Atoi_spec. split; [congruence|done].
Qed.

(** X3. [putConfig] reads its zone argument only through the integer it
    denotes: two zone strings that denote the same integer, such as ["3"],
    ["+3"] and ["003"], give the same result and the same write. *)
Theorem putConfig_zone_by_value (zone zone' param value : string) :
  integerValue zone = integerValue zone' →
  putConfig zone param value = putConfig zone' param value.
Proof.
  intros Heq. unfold putConfig. by rewrite (Atoi_integerValue_eq zone zone').
Qed.

End MutationMore2.

Lemma putConfig_zone_by_value_witness :
  integerValue "+3" = integerValue "003" ∧
  putConfig "+3" "hold" "true" = putConfig "003" "hold" "true".
Proof.
  split; [reflexivity|].
  apply (putConfig_zone_by_value "+3" "003" "hold" "true"). reflexivity.
Defined.

(** ** The hold bitmap *)

Lemma land_pow2 (a n : Z) :
  0 ≤ n → Z.land a (2 ^ n) = if Z.testbit a n then 2 ^ n else 0.
Proof.
  intros Hn. apply Z.bits_inj'. intros m Hm.
  rewrite Z.land_spec, Z.pow2_bits_eqb by done.
  destruct (Z.eqb_spec n m) as [->|Hne].
  - rewrite andb_true_r. destruct (Z.testbit a m) eqn:Hb.
    + by rewrite Z.pow2_bits_true.
    + by rewrite Z.bits_0.
  - rewrite andb_false_r. destruct (Z.testbit a n).
    + rewrite Z.pow2_bits_false by done. done.
    + by rewrite Z.bits_0.
Qed.

(** The test [(hold & (0x01 << zi)) != 0] reads bit [zi] of the bitmap. *)
Lemma holdBit_testbit (hold zi : Z) :
  0 ≤ zi ≤ 7 → holdBit hold zi = Z.testbit hold zi.
Proof.
  intros Hzi. unfold holdBit.
  assert (Z.shiftl 1 zi mod 256 = 2 ^ zi) as ->.
  { destruct (zone_index_facts (zi + 1)) as (_ & _ & Hs); [lia|].
    by replace (zi + 1 - 1) with zi in Hs by lia. }
  rewrite land_pow2 by lia.
  assert (0 < 2 ^ zi) by (apply Z.pow_pos_nonneg; lia).
  destruct (Z.testbit hold zi).
  - destruct (Z.eqb_spec (2 ^ zi) 0); [lia|done].
  - done.
Qed.
Section HoldBitmap.
Context `{Tables}.
Import TStatZoneParams TStatCurrentParams.

(** X4. The hold bitmap [putConfig] sends for zone [zn], read back the way
    the projections read it, shows hold for the zone index [zn - 1] and for
    no other zone when hold is asserted (["hold"] with ["true"], ["preset"]
    with ["hold"]), and for no zone at all when it is cleared. *)
Theorem putConfig_hold_bitmap (zone param value : string) (zn : Z) (asserted : bool) :
  integerValue zone = Some zn → 1 ≤ zn ≤ 8 →
  (param, value, asserted) ∈
    [("hold", "true", true); ("preset", "hold", true);
     ("hold", "false", false); ("preset", "none", false)] →
  ∃ tbl,
    putConfig zone param value = (true, [WriteTableZ devTSTAT tbl (zn - 1) 0x02]) ∧
    ∀ zi, 0 ≤ zi ≤ 7 →
      holdBit (ZoneHold tbl) zi = asserted && bool_decide (zi = zn - 1).
Proof.
  intros Hzone Hzn Hpv. unfold putConfig.
  rewrite (Atoi_zone zone zn) by (done || lia).
  destruct (zone_index_facts zn Hzn) as (-> & -> & Hshift).
  assert (Hbit : ∀ zi, 0 ≤ zi ≤ 7 →
            holdBit (2 ^ (zn - 1)) zi = bool_decide (zi = zn - 1)).
  { intros zi Hzi. rewrite holdBit_testbit, Z.pow2_bits_eqb by lia.
    destruct (Z.eqb_spec (zn - 1) zi); case_bool_decide; done || lia. }
  assert (Hzero : ∀ zi, 0 ≤ zi ≤ 7 → holdBit 0 zi = false).
  { intros zi Hzi. rewrite holdBit_testbit by done. apply Z.bits_0. }
  apply list_elem_of_In in Hpv.
  destruct Hpv as [Hpv|[Hpv|[Hpv|[Hpv|[]]]]]; injection Hpv as <- <- <-.
  - eexists. split; [cbn; rewrite Hshift; reflexivity|]. exact Hbit.
  - eexists. split; [cbn; rewrite Hshift; reflexivity|]. exact Hbit.
  - eexists. split; [reflexivity|]. exact Hzero.
  - eexists. split; [reflexivity|]. exact Hzero.
Qed.

(** The hold flag and the preset label of the entry built for slot [zi]. *)
Lemma zoneEntry_hold cfg params (zi : nat) :
  (zi < 8)%nat →
  TStatZoneConfig.Hold (zoneEntry cfg params zi) =
    Some (Z.testbit (ZoneHold cfg) (Z.of_nat zi)) ∧
  TStatZoneConfig.Preset (zoneEntry cfg params zi) =
    (if Z.testbit (ZoneHold cfg) (Z.of_nat zi) then "hold" else "none").
Proof.
  intros Hzi. cbn [zoneEntry TStatZoneConfig.Hold TStatZoneConfig.Preset].
  by rewrite holdBit_testbit by lia.
Qed.

(** X5. When both tables are read, every entry of [getZonesConfig] and the
    result of [getZNConfig] for every zone index 0..7 carry as hold flag the
    bit of their zone in the hold bitmap, and the preset ["hold"] exactly
    when that bit is set, ["none"] otherwise. *)
Theorem hold_is_bitmap_bit (bus : Bus) cfg params :
  readZoneParams bus devTSTAT = Some cfg →
  readCurrentParams bus devTSTAT = Some params →
  (∃ tstat, getZonesConfig bus = Some tstat ∧
     ∀ z, z ∈ TStatZonesConfig.Zones tstat →
       let bit := Z.testbit (ZoneHold cfg) (TStatZoneConfig.ZoneNumber z - 1) in
       TStatZoneConfig.Hold z = Some bit ∧
       (TStatZoneConfig.Preset z = "hold" ↔ bit = true) ∧
       (TStatZoneConfig.Preset z = "none" ↔ bit = false)) ∧
  (∀ zi, 0 ≤ zi ≤ 7 →
     ∃ z, getZNConfig bus zi = Some z ∧
       let bit := Z.testbit (ZoneHold cfg) zi in
       TStatZoneConfig.Hold z = Some bit ∧
       (TStatZoneConfig.Preset z = "hold" ↔ bit = true) ∧
       (TStatZoneConfig.Preset z = "none" ↔ bit = false)).
Proof.
  intros Hcfg Hpar. split.
  - eexists. split; [by apply getZonesConfig_Some|].
    cbn [TStatZonesConfig.Zones]. intros z Hz.
    apply list_elem_of_fmap in Hz as (zi & -> & Hj).
    apply list_elem_of_filter in Hj as [_ Hj]. apply elem_of_seq in Hj.
    rewrite zoneEntry_number by lia.
    replace (Z.of_nat zi + 1 - 1) with (Z.of_nat zi) by lia.
    destruct (zoneEntry_hold cfg params zi) as [-> ->]; [lia|]. cbv zeta.
    by destruct (Z.testbit (ZoneHold cfg) (Z.of_nat zi)).
  - intros zi Hzi. unfold getZNConfig.
    destruct (Z.ltb_spec zi 0); [lia|]. destruct (Z.ltb_spec 7 zi); [lia|].
    rewrite Hcfg, Hpar. cbn [orb mbind option_bind].
    eexists. split; [reflexivity|].
    cbn [TStatZoneConfig.Hold TStatZoneConfig.Preset].
    rewrite holdBit_testbit by done.
    by destruct (Z.testbit (ZoneHold cfg) zi).
Qed.

End HoldBitmap.

Lemma putConfig_hold_bitmap_witness :
  integerValue "3" = Some 3 ∧ 1 ≤ 3 ≤ 8 ∧
  ∃ tbl,
    putConfig "3" "preset" "hold" = (true, [WriteTableZ devTSTAT tbl (3 - 1) 0x02]) ∧
    ∀ zi, 0 ≤ zi ≤ 7 →
      holdBit (TStatZoneParams.ZoneHold tbl) zi = true && bool_decide (zi = 3 - 1).
Proof.
  split; [reflexivity|]. split; [lia|].
  apply (putConfig_hold_bitmap "3" "preset" "hold" 3 true); [reflexivity|lia|].
  apply list_elem_of_In. right. left. reflexivity.
Defined.

Lemma hold_is_bitmap_bit_witness :
  readZoneParams sampleBus devTSTAT = Some sampleZoneParams ∧
  readCurrentParams sampleBus devTSTAT = Some sampleCurrentParams ∧
  (∃ tstat, getZonesConfig sampleBus = Some tstat ∧
     ∀ z, z ∈ TStatZonesConfig.Zones tstat →
       let bit := Z.testbit (TStatZoneParams.ZoneHold sampleZoneParams)
                    (TStatZoneConfig.ZoneNumber z - 1) in
       TStatZoneConfig.Hold z = Some bit ∧
       (TStatZoneConfig.Preset z = "hold" ↔ bit = true) ∧
       (TStatZoneConfig.Preset z = "none" ↔ bit = false)) ∧
  (∀ zi, 0 ≤ zi ≤ 7 →
     ∃ z, getZNConfig sampleBus zi = Some z ∧
       let bit := Z.testbit (TStatZoneParams.ZoneHold sampleZoneParams) zi in
       TStatZoneConfig.Hold z = Some bit ∧
       (TStatZoneConfig.Preset z = "hold" ↔ bit = true) ∧
       (TStatZoneConfig.Preset z = "none" ↔ bit = false)).
Proof.
  split; [reflexivity|]. split; [reflexivity|].
  apply (hold_is_bitmap_bit sampleBus sampleZoneParams sampleCurrentParams);
    reflexivity.
Defined.
(* ===================================================================== *)
(** * Further properties of the projections *)
(* ===================================================================== *)

Section ProjectionsMore.
Context `{Tables}.
Import TStatZoneParams TStatCurrentParams.

(** X6. [getZNConfig] fails exactly when the zone index is outside 0..7 or
    one of the two table reads fails; in particular it answers for a zone
    whose current temperature is 0 or 255, which [getZonesConfig] leaves
    out of its list. *)
Theorem getZNConfig_None_iff (bus : Bus) (zi : Z) :
  getZNConfig bus zi = None ↔
  zi < 0 ∨ 7 < zi ∨
  readZoneParams bus devTSTAT = None ∨ readCurrentParams bus devTSTAT = None.
Proof.
  unfold getZNConfig.
  destruct (Z.ltb_spec zi 0); [split; [by left|done]|].
  destruct (Z.ltb_spec 7 zi); [split; [by right; left|done]|].
  cbn [orb].
  destruct (readZoneParams bus devTSTAT) as [cfg|];
    [|split; [by right; right; left|done]].
  destruct (readCurrentParams bus devTSTAT) as [params|];
    [|split; [by right; right; right|done]].
  cbn [mbind option_bind]. split; [done|].
  intros [?|[?|[?|?]]]; done || lia.
Qed.

(** X7. When both tables are read, the per-zone view of [getZNConfig] and
    the list of [getZonesConfig] agree: for an active zone slot [zi] the
    list holds an entry numbered [zi + 1] with the same temperature,
    humidity, setpoints, fan mode, hold flag, preset, override duration and
    name as [getZNConfig zi], and the global fields of the per-zone view
    (outdoor temperature, mode, stage, action, raw mode) are those of the
    list view. The list entry leaves the target humidity at 0, and the
    per-zone view leaves the zone number at 0. *)
Theorem getZNConfig_agrees_with_list (bus : Bus) cfg params (zi : nat) :
  readZoneParams bus devTSTAT = Some cfg →
  readCurrentParams bus devTSTAT = Some params →
  (zi < 8)%nat →
  activeZone params zi →
  ∃ tstat e z,
    getZonesConfig bus = Some tstat ∧
    e ∈ TStatZonesConfig.Zones tstat ∧
    getZNConfig bus (Z.of_nat zi) = Some z ∧
    TStatZoneConfig.ZoneNumber e = Z.of_nat zi + 1 ∧
    TStatZoneConfig.ZoneNumber z = 0 ∧
    TStatZoneConfig.TargetHumidity e = 0 ∧
    TStatZoneConfig.TargetHumidity z = nth zi (ZTargetHumidity cfg) 0 ∧
    TStatZoneConfig.CurrentTemp e = TStatZoneConfig.CurrentTemp z ∧
    TStatZoneConfig.CurrentHumidity e = TStatZoneConfig.CurrentHumidity z ∧
    TStatZoneConfig.HeatSetpoint e = TStatZoneConfig.HeatSetpoint z ∧
    TStatZoneConfig.CoolSetpoint e = TStatZoneConfig.CoolSetpoint z ∧
    TStatZoneConfig.FanMode e = TStatZoneConfig.FanMode z ∧
    TStatZoneConfig.Hold e = TStatZoneConfig.Hold z ∧
    TStatZoneConfig.Preset e = TStatZoneConfig.Preset z ∧
    TStatZoneConfig.OvrdDuration e = TStatZoneConfig.OvrdDuration z ∧
    TStatZoneConfig.OvrdDurationMins e = TStatZoneConfig.OvrdDurationMins z ∧
    TStatZoneConfig.ZoneName e = TStatZoneConfig.ZoneName z ∧
    TStatZonesConfig.OutdoorTemp tstat = TStatZoneConfig.OutdoorTemp z ∧
    TStatZonesConfig.Mode tstat = TStatZoneConfig.Mode z ∧
    TStatZonesConfig.Stage tstat = TStatZoneConfig.Stage z ∧
    TStatZonesConfig.Action tstat = TStatZoneConfig.Action z ∧
    TStatZonesConfig.RawMode tstat = TStatZoneConfig.RawMode z.
Proof.
  intros Hcfg Hpar Hzi Hact.
  eexists _, (zoneEntry cfg params zi), _.
  split; [by apply getZonesConfig_Some|]. split.
  { cbn [TStatZonesConfig.Zones].
    apply list_elem_of_fmap_2, list_elem_of_filter. split; [done|].
    apply elem_of_seq. lia. }
  split.
  { unfold getZNConfig.
    destruct (Z.ltb_spec (Z.of_nat zi) 0); [lia|].
    destruct (Z.ltb_spec 7 (Z.of_nat zi)); [lia|].
    rewrite Hcfg, Hpar. cbn [orb mbind option_bind]. reflexivity. }
  rewrite Nat2Z.id. split; [by apply zoneEntry_number|].
  repeat split.
Qed.

End ProjectionsMore.

Lemma getZNConfig_agrees_with_list_witness :
  readZoneParams sampleBus devTSTAT = Some sampleZoneParams ∧
  readCurrentParams sampleBus devTSTAT = Some sampleCurrentParams ∧
  (3 < 8)%nat ∧ activeZone sampleCurrentParams 3 ∧
  ∃ tstat e z,
    getZonesConfig sampleBus = Some tstat ∧
    e ∈ TStatZonesConfig.Zones tstat ∧
    getZNConfig sampleBus (Z.of_nat 3) = Some z ∧
    TStatZoneConfig.ZoneNumber e = Z.of_nat 3 + 1 ∧
    TStatZoneConfig.ZoneName e = TStatZoneConfig.ZoneName z.
Proof.
  assert (Hact : activeZone sampleCurrentParams 3) by (unfold activeZone; simpl; lia).
  split; [reflexivity|]. split; [reflexivity|]. split; [lia|]. split; [exact Hact|].
  destruct (getZNConfig_agrees_with_list sampleBus sampleZoneParams
              sampleCurrentParams 3 eq_refl eq_refl ltac:(lia) Hact)
    as (tstat & e & z & Hg & He & Hz & Hn & Hrest).
  exists tstat, e, z. repeat split; try assumption. apply Hrest.
Defined.
(** ** Edge cases of the zone names *)

Lemma Trim_all_blank (raw : list byte) :
  Forall inCutset raw → bytes.Trim raw [x20; x00] = [].
Proof.
  intros Hall. destruct (Trim_both_ends raw) as (l & r & Heq & _ & _ & Hhead & _).
  destruct (bytes.Trim raw [x20; x00]) as [|c nm]; [done|].
  exfalso. apply (Hhead c eq_refl).
  rewrite Forall_forall in Hall. apply Hall. rewrite Heq.
  apply elem_of_app. right. apply elem_of_app. left. left.
Qed.

Lemma Trim_no_blank_ends (raw : list byte) :
  (∀ c, head raw = Some c → ¬ inCutset c) →
  (∀ c, last raw = Some c → ¬ inCutset c) →
  bytes.Trim raw [x20; x00] = raw.
Proof.
  intros Hhead Hlast.
  destruct (Trim_both_ends raw) as (l & r & Heq & Hl & Hr & _ & _).
  assert (l = []) as ->.
  { destruct l as [|c l]; [done|]. exfalso. apply (Hhead c).
    - by rewrite Heq.
    - by apply Forall_cons in Hl as [? _]. }
  assert (r = []) as ->.
  { destruct r as [|c r _] using rev_ind; [done|]. exfalso. apply (Hlast c).
    - rewrite Heq, !app_assoc. apply last_snoc.
    - apply Forall_app in Hr as [_ Hc]. by apply Forall_cons in Hc as [? _]. }
  by rewrite Heq at 2; rewrite app_nil_l, app_nil_r.
Qed.

Section ZoneNamesMore.
Context `{Tables}.
Import TStatZoneParams TStatCurrentParams.

(** X8. When both tables are read and [zi] is a zone index of 0..7: a name
    field that holds only spaces and NULs, as that of a zone without a
    name, projects to the empty name; a name field whose first and last
    bytes are neither gives the whole field, spaces and NULs inside
    included. *)
Theorem zoneName_edges (bus : Bus) cfg params (zi : Z) :
  readZoneParams bus devTSTAT = Some cfg →
  readCurrentParams bus devTSTAT = Some params →
  0 ≤ zi ≤ 7 →
  ∃ z, getZNConfig bus zi = Some z ∧
    let raw := nth (Z.to_nat zi) (ZName cfg) [] in
    (Forall inCutset raw → TStatZoneConfig.ZoneName z = "") ∧
    ((∀ c, head raw = Some c → ¬ inCutset c) →
     (∀ c, last raw = Some c → ¬ inCutset c) →
     TStatZoneConfig.ZoneName z = string_of_list_byte raw).
Proof.
  intros Hcfg Hpar Hzi. unfold getZNConfig.
  destruct (Z.ltb_spec zi 0); [lia|]. destruct (Z.ltb_spec 7 zi); [lia|].
  rewrite Hcfg, Hpar. cbn [orb mbind option_bind].
  eexists. split; [reflexivity|]. cbn [TStatZoneConfig.ZoneName]. split.
  - intros Hall. by rewrite Trim_all_blank.
  - intros Hh Hl. by rewrite Trim_no_blank_ends.
Qed.

End ZoneNamesMore.

Lemma zoneName_edges_witness :
  readZoneParams sampleBus devTSTAT = Some sampleZoneParams ∧
  readCurrentParams sampleBus devTSTAT = Some sampleCurrentParams ∧
  0 ≤ 5 ≤ 7 ∧
  ∃ z, getZNConfig sampleBus 5 = Some z ∧
    let raw := nth (Z.to_nat 5) (TStatZoneParams.ZName sampleZoneParams) [] in
    (Forall inCutset raw → TStatZoneConfig.ZoneName z = "") ∧
    ((∀ c, head raw = Some c → ¬ inCutset c) →
     (∀ c, last raw = Some c → ¬ inCutset c) →
     TStatZoneConfig.ZoneName z = string_of_list_byte raw).
Proof.
  split; [reflexivity|]. split; [reflexivity|]. split; [lia|].
  apply (zoneName_edges sampleBus sampleZoneParams sampleCurrentParams 5);
    [reflexivity|reflexivity|lia].
Defined.

(** ** [holdTime] is injective *)

Lemma length_append (s t : string) :
  String.length (s +:+ t) = (String.length s + String.length t)%nat.
Proof. induction s as [|c s IH]; simpl; [done|by rewrite IH]. Qed.

Lemma append_inj_suffix (s1 s2 t1 t2 : string) :
  String.length t1 = String.length t2 →
  s1 +:+ t1 = s2 +:+ t2 → s1 = s2 ∧ t1 = t2.
Proof.
  intros Hlen. revert s2. induction s1 as [|c s1 IH]; intros s2 Heq.
  - destruct s2 as [|c2 s2]; [done|]. exfalso.
    apply (f_equal String.length) in Heq. simpl in Heq.
    rewrite !length_append in Heq. simpl in Heq. lia.
  - destruct s2 as [|c2 s2].
    + exfalso. apply (f_equal String.length) in Heq. simpl in Heq.
      rewrite !length_append in Heq. simpl in Heq. lia.
    + simpl in Heq. injection Heq as -> Heq.
      destruct (IH s2 Heq) as [-> ->]. done.
Qed.

Lemma digitChar_inj (d1 d2 : Z) :
  0 ≤ d1 ≤ 9 → 0 ≤ d2 ≤ 9 → fmt.digitChar d1 = fmt.digitChar d2 → d1 = d2.
Proof.
  intros H1 H2 Heq. apply (f_equal code) in Heq.
  rewrite !code_digitChar in Heq by done. lia.
Qed.

Lemma holdTime_nonempty (m : Z) :
  0 < m < 65536 → holdTime m ≠ "".
Proof.
  intros Hm Heq. apply (f_equal String.length) in Heq.
  unfold holdTime in Heq. destruct (Z.eqb_spec m 0); [lia|].
  rewrite !length_append in Heq. simpl in Heq. lia.
Qed.

(** X9. [holdTime] is injective on the [uint16] durations: two different
    numbers of minutes never format to the same string, so the formatted
    override duration determines the minutes. *)
Theorem holdTime_inj (m m' : Z) :
  0 ≤ m < 65536 → 0 ≤ m' < 65536 → holdTime m = holdTime m' → m = m'.
Proof.
  intros Hm Hm' Heq.
  destruct (Z.eq_dec m 0) as [->|Hne]; destruct (Z.eq_dec m' 0) as [->|Hne'];
    [done| | |].
  - exfalso. symmetry in Heq. revert Heq. apply holdTime_nonempty. lia.
  - exfalso. revert Heq. apply holdTime_nonempty. lia.
  - unfold holdTime in Heq.
    destruct (Z.eqb_spec m 0); [lia|]. destruct (Z.eqb_spec m' 0); [lia|].
    pose proof (Z.mod_pos_bound m 60 ltac:(lia)).
    pose proof (Z.mod_pos_bound m' 60 ltac:(lia)).
    rewrite !d02_two_digits in Heq by lia.
    apply append_inj_suffix in Heq as [Hh Hd]; [|done].
    injection Hd as Hd1 Hd2.
    assert (Hq : ∀ k, 0 ≤ k < 65536 → 0 ≤ k / 60 < 2 ^ 64).
    { intros k Hk. split; [apply Z.div_pos; lia|].
      apply Z.div_lt_upper_bound; lia. }
    destruct (d_decimal (m / 60) (Hq m Hm)) as [Hv _].
    destruct (d_decimal (m' / 60) (Hq m' Hm')) as [Hv' _].
    rewrite Hh in Hv. assert (m / 60 = m' / 60) as Hdiv by congruence.
    assert (Hdig : ∀ v, 0 ≤ v < 60 → 0 ≤ v / 10 ≤ 9 ∧ 0 ≤ v mod 10 ≤ 9).
    { intros v Hv0. pose proof (Z.mod_pos_bound v 10 ltac:(lia)).
      split; [|lia]. split; [apply Z.div_pos; lia|].
      apply Z.lt_succ_r, Z.div_lt_upper_bound; lia. }
    destruct (Hdig (m mod 60)) as [? ?]; [done|].
    destruct (Hdig (m' mod 60)) as [? ?]; [done|].
    apply digitChar_inj in Hd1; [|done|done].
    apply digitChar_inj in Hd2; [|done|done].
    pose proof (Z.div_mod (m mod 60) 10 ltac:(lia)).
    pose proof (Z.div_mod (m' mod 60) 10 ltac:(lia)).
    pose proof (Z.div_mod m 60 ltac:(lia)).
    pose proof (Z.div_mod m' 60 ltac:(lia)).
    lia.
Qed.

Lemma holdTime_inj_witness :
  0 ≤ 75 < 65536 ∧ 0 ≤ 75 < 65536 ∧ holdTime 75 = holdTime 75 ∧ 75 = 75.
Proof.
  split; [lia|]. split; [lia|]. split; [reflexivity|].
  apply (holdTime_inj 75 75); [lia|lia|reflexivity].
Defined.

(* ===================================================================== *)
(** * Further properties of the snoop decoders *)
(* ===================================================================== *)

Lemma Equal_eq (a b : list byte) : bytes.Equal a b = true ↔ a = b.
Proof.
  revert b. induction a as [|x a IH]; intros [|y b]; cbn [bytes.Equal]; try done.
  rewrite andb_true_iff, IH. split.
  - intros [Hxy ->]. f_equal. by apply byte_dec_bl.
  - intros [= -> ->]. split; [by apply byte_dec_lb|done].
Qed.

(** The action the air handler decoder derives from the bytes 0 and 2. *)
Lemma airHandler_action_run (data : list byte) (b0 b1 b2 : byte)
    (rest : list byte) (c : Cache) :
  data = b0 :: b1 :: b2 :: rest →
  (if negb (Z.land (u8 b2) 0x03 =? 0) then mret "cooling"
   else
     b ← lift (index data 0);
     if negb (Z.land (u8 b) 0x03 =? 0) then mret "heating" else mret "idle") c =
  Ok (if negb (Z.land (u8 b2) 0x03 =? 0) then "cooling"
      else if negb (Z.land (u8 b0) 0x03 =? 0) then "heating" else "idle", c).
Proof.
  intros ->. destruct (negb (Z.land (u8 b2) 3 =? 0)); [reflexivity|].
  erewrite bind_lift by reflexivity. cbv beta.
  by destruct (negb (Z.land (u8 b0) 3 =? 0)).
Qed.

Section AirHandlerMore.
Context `{Tables}.

(** A frame from the air handler range only reaches the air handler
    decoder. *)
Lemma dispatch_airHandler (frame : InfinityFrame) (c : Cache) :
  0x4000 ≤ InfinityFrame.src frame ≤ 0x42ff →
  exec (dispatch attachSnoops frame) c = exec (snoopAirHandler frame) c.
Proof.
  intros Hsrc. unfold dispatch, attachSnoops, exec. cbn [forEach srcMin srcMax cb].
  unfold mbind, M_bind, mret, M_ret.
  destruct (Z.leb_spec 0x5000 (InfinityFrame.src frame)); [lia|].
  destruct (Z.leb_spec 0x4000 (InfinityFrame.src frame)); [|lia].
  destruct (Z.leb_spec (InfinityFrame.src frame) 0x42ff); [|lia].
  destruct (Z.leb_spec 0x6000 (InfinityFrame.src frame)); [lia|].
  cbn [andb]. by destruct (snoopAirHandler frame c) as [[[] ?]|].
Qed.

(** The air handler decoder on a status frame. *)
Lemma snoopAirHandler_status (frame : InfinityFrame) (c : Cache) (ah : AirHandler)
    (b0 b1 b2 b3 b4 b5 b6 b7 b8 : byte) (rest : list byte) :
  store c !! "blower" = Some (VAirHandler ah) →
  InfinityFrame.data frame =
    [x00; x03; x16; b0; b1; b2; b3; b4; b5; b6; b7; b8] ++ rest →
  let ah' :=
    {| AirHandler.BlowerRPM := AirHandler.BlowerRPM ah;
       AirHandler.AirFlowCFM := be16 b4 b5;
       AirHandler.StaticPressure := staticPressure (be16 b7 b8);
       AirHandler.HeatStage := u8 b0;
       AirHandler.ElecHeat := negb (Z.land (u8 b0) 0x03 =? 0);
       AirHandler.Action :=
         if negb (Z.land (u8 b2) 0x03 =? 0) then "cooling"
         else if negb (Z.land (u8 b0) 0x03 =? 0) then "heating" else "idle" |} in
  exec (snoopAirHandler frame) c = Ok
    (cache.put "mqtt/infinitive/staticPressure"
       (VFloat32 (AirHandler.StaticPressure ah'))
       (cache.put "mqtt/infinitive/airflowCFM" (VUint16 (AirHandler.AirFlowCFM ah'))
          (cache.put "mqtt/infinitive/action" (VString (AirHandler.Action ah'))
             (cache.put "mqtt/infinitive/heatStage" (VUint8 (AirHandler.HeatStage ah'))
                (cache.put "blower" (VAirHandler ah') c))))).
Proof.
  intros Hc Hdata ah'. unfold exec, snoopAirHandler. rewrite Hdata.
  run_lift. erewrite bind_Ok by (by apply getAirHandler_Some); cbv beta iota.
  run_lift. cbn [app drop take Nat.sub].
  change (bytes.Equal [x00; x03; x16] [x00; x03; x06]) with false. cbv iota.
  run_lift. cbn [app drop take Nat.sub].
  change (bytes.Equal [x00; x03; x16] [x00; x03; x16]) with true. cbv iota.
  run_lift.
  run_lift. cbn [app drop take Nat.sub].
  erewrite bind_lift by apply Uint16_be16; cbv beta iota.
  run_lift. cbn [app drop take Nat.sub].
  erewrite bind_lift by apply Uint16_be16; cbv beta iota.
  run_lift. run_lift.
  erewrite bind_Ok by (by eapply airHandler_action_run); cbv beta iota.
  rewrite !bind_update. reflexivity.
Qed.

(** X10. For a frame whose source is in the air handler range, whose
    payload starts with 00 03 16 and carries nine more bytes, with an air
    handler view in the cache: the cached view gets the heat stage [b0], the
    airflow [be16 b4 b5], the electric heat flag [(b0 & 3) != 0] and the
    action ["cooling"] if [(b2 & 3) != 0], else ["heating"] if
    [(b0 & 3) != 0], else ["idle"], and keeps its blower RPM. So the action
    is ["heating"] only with the electric heat flag set and ["idle"] only
    with it clear, and the flat keys of the heat stage, the action and the
    airflow mirror the view. *)
Theorem snoop_airHandler_status (frame : InfinityFrame) (c : Cache) (ah : AirHandler)
    (b0 b1 b2 b3 b4 b5 b6 b7 b8 : byte) (rest : list byte) :
  0x4000 ≤ InfinityFrame.src frame ≤ 0x42ff →
  store c !! "blower" = Some (VAirHandler ah) →
  InfinityFrame.data frame =
    [x00; x03; x16; b0; b1; b2; b3; b4; b5; b6; b7; b8] ++ rest →
  ∃ c' ah',
    exec (dispatch attachSnoops frame) c = Ok c' ∧
    store c' !! "blower" = Some (VAirHandler ah') ∧
    AirHandler.BlowerRPM ah' = AirHandler.BlowerRPM ah ∧
    AirHandler.HeatStage ah' = u8 b0 ∧
    AirHandler.AirFlowCFM ah' = be16 b4 b5 ∧
    (AirHandler.ElecHeat ah' = true ↔ Z.land (u8 b0) 0x03 ≠ 0) ∧
    (AirHandler.Action ah' = "cooling" ↔ Z.land (u8 b2) 0x03 ≠ 0) ∧
    (AirHandler.Action ah' = "heating" ↔
       Z.land (u8 b2) 0x03 = 0 ∧ Z.land (u8 b0) 0x03 ≠ 0) ∧
    (AirHandler.Action ah' = "idle" ↔
       Z.land (u8 b2) 0x03 = 0 ∧ Z.land (u8 b0) 0x03 = 0) ∧
    (AirHandler.Action ah' = "heating" → AirHandler.ElecHeat ah' = true) ∧
    (AirHandler.Action ah' = "idle" → AirHandler.ElecHeat ah' = false) ∧
    store c' !! "mqtt/infinitive/heatStage" = Some (VUint8 (u8 b0)) ∧
    store c' !! "mqtt/infinitive/action" = Some (VString (AirHandler.Action ah')) ∧
    store c' !! "mqtt/infinitive/airflowCFM" = Some (VUint16 (be16 b4 b5)).
Proof.
  intros Hsrc Hc Hdata. rewrite dispatch_airHandler by done.
  do 2 eexists. split; [by eapply snoopAirHandler_status|].
  cbn [store cache.put AirHandler.BlowerRPM AirHandler.HeatStage
       AirHandler.AirFlowCFM AirHandler.ElecHeat AirHandler.Action].
  split; [rewrite !lookup_insert_ne by done; apply lookup_insert_eq|].
  do 3 (split; [reflexivity|]).
  destruct (Z.eqb_spec (Z.land (u8 b0) 3) 0) as [E0|E0];
    destruct (Z.eqb_spec (Z.land (u8 b2) 3) 0) as [E2|E2]; cbn [negb].
  all: repeat split; try done; try tauto; try (intros [? ?]; done).
  all: try (rewrite !lookup_insert_ne by done; apply lookup_insert_eq).
  all: try apply lookup_insert_eq.
Qed.

End AirHandlerMore.
Lemma snoop_airHandler_status_witness :
  0x4000 ≤ InfinityFrame.src sampleStatusFrame ≤ 0x42ff ∧
  store mainCache !! "blower" = Some (VAirHandler AirHandler.zero) ∧
  ∃ c' ah',
    exec (dispatch attachSnoops sampleStatusFrame) mainCache = Ok c' ∧
    store c' !! "blower" = Some (VAirHandler ah') ∧
    AirHandler.AirFlowCFM ah' = 800 ∧
    AirHandler.Action ah' = "heating" ∧
    AirHandler.ElecHeat ah' = true.
Proof.
  assert (Hsrc : 0x4000 ≤ InfinityFrame.src sampleStatusFrame ≤ 0x42ff)
    by (simpl; lia).
  assert (Hc : store mainCache !! "blower" = Some (VAirHandler AirHandler.zero))
    by reflexivity.
  split; [exact Hsrc|]. split; [exact Hc|].
  destruct (snoop_airHandler_status sampleStatusFrame mainCache AirHandler.zero
              x01 x00 x00 x00 x03 x20 x00 x01 x00 [] Hsrc Hc eq_refl)
    as (c' & ah' & Hrun & Hst & _ & _ & Hcfm & _ & _ & Hheat & _ & Himp & _).
  exists c', ah'. split; [exact Hrun|]. split; [exact Hst|].
  split; [exact Hcfm|].
  assert (Ha : AirHandler.Action ah' = "heating")
    by (apply Hheat; split; [reflexivity|discriminate]).
  split; [exact Ha|exact (Himp Ha)].
Defined.

Section StatusRevisions.
Context `{Tables}.

(** The earlier decoder on a status frame: the slice [data[4:8]]. *)
Lemma snoopAirHandlerRev1_status (frame : InfinityFrame) (c : Cache)
    (ah : Rev1.AirHandler.t) (b0 b1 b2 b3 b4 b5 b6 b7 : byte) (rest : list byte) :
  store c !! "blower" = Some (VAirHandlerRev1 ah) →
  InfinityFrame.data frame =
    [x00; x03; x16; b0; b1; b2; b3; b4; b5; b6; b7] ++ rest →
  exec (Rev1Snoop.snoopAirHandler frame) c = Ok
    (cache.put "blower" (VAirHandlerRev1
       {| Rev1.AirHandler.BlowerRPM := Rev1.AirHandler.BlowerRPM ah;
          Rev1.AirHandler.AirFlowCFM := be16 b4 b5;
          Rev1.AirHandler.ElecHeat := negb (Z.land (u8 b0) 0x03 =? 0) |}) c).
Proof.
  intros Hc Hdata. unfold exec, Rev1Snoop.snoopAirHandler. rewrite Hdata.
  run_lift. erewrite bind_Ok by (by apply getAirHandlerRev1_Some); cbv beta iota.
  run_lift. cbn [app drop take Nat.sub].
  change (bytes.Equal [x00; x03; x16] [x00; x03; x06]) with false. cbv iota.
  run_lift. cbn [app drop take Nat.sub].
  change (bytes.Equal [x00; x03; x16] [x00; x03; x16]) with true. cbv iota.
  run_lift. cbn [app drop take Nat.sub].
  erewrite bind_lift by apply Uint16_be16; cbv beta iota.
  run_lift. reflexivity.
Qed.

(** X11. On a frame whose payload starts with 00 03 16 and carries at least
    nine more bytes, the decoder of the earlier revision (slice
    [data[4:8]]) and the decoder of the later revision (slice [data[4:6]])
    both succeed and leave the same airflow and the same electric heat flag
    in the cached air handler view: the big-endian value of the bytes 4 and
    5 after the prefix, and [(b0 & 3) != 0]. Both keep the blower RPM of
    the view. *)
Theorem status_revisions_agree (frame : InfinityFrame) (c1 c2 : Cache)
    (ah1 : Rev1.AirHandler.t) (ah2 : AirHandler)
    (b0 b1 b2 b3 b4 b5 b6 b7 b8 : byte) (rest : list byte) :
  InfinityFrame.data frame =
    [x00; x03; x16; b0; b1; b2; b3; b4; b5; b6; b7; b8] ++ rest →
  store c1 !! "blower" = Some (VAirHandlerRev1 ah1) →
  store c2 !! "blower" = Some (VAirHandler ah2) →
  ∃ c1' c2' ah1' ah2',
    exec (Rev1Snoop.snoopAirHandler frame) c1 = Ok c1' ∧
    exec (snoopAirHandler frame) c2 = Ok c2' ∧
    store c1' !! "blower" = Some (VAirHandlerRev1 ah1') ∧
    store c2' !! "blower" = Some (VAirHandler ah2') ∧
    Rev1.AirHandler.AirFlowCFM ah1' = be16 b4 b5 ∧
    AirHandler.AirFlowCFM ah2' = be16 b4 b5 ∧
    Rev1.AirHandler.ElecHeat ah1' = AirHandler.ElecHeat ah2' ∧
    Rev1.AirHandler.BlowerRPM ah1' = Rev1.AirHandler.BlowerRPM ah1 ∧
    AirHandler.BlowerRPM ah2' = AirHandler.BlowerRPM ah2.
Proof.
  intros Hdata Hc1 Hc2. do 4 eexists.
  split; [eapply (snoopAirHandlerRev1_status _ _ _ b0 b1 b2 b3 b4 b5 b6 b7
                    (b8 :: rest)); done|].
  split; [by eapply snoopAirHandler_status|].
  cbn [store cache.put]. split; [apply lookup_insert_eq|].
  split; [rewrite !lookup_insert_ne by done; apply lookup_insert_eq|].
  repeat split.
Qed.

End StatusRevisions.

Lemma status_revisions_agree_witness :
  InfinityFrame.data sampleStatusFrame =
    [x00; x03; x16; x01; x00; x00; x00; x03; x20; x00; x01; x00] ++ [] ∧
  store mainCacheRev1 !! "blower" = Some (VAirHandlerRev1 Rev1.AirHandler.zero) ∧
  store mainCache !! "blower" = Some (VAirHandler AirHandler.zero) ∧
  ∃ c1' c2' ah1' ah2',
    exec (Rev1Snoop.snoopAirHandler sampleStatusFrame) mainCacheRev1 = Ok c1' ∧
    exec (snoopAirHandler sampleStatusFrame) mainCache = Ok c2' ∧
    store c1' !! "blower" = Some (VAirHandlerRev1 ah1') ∧
    store c2' !! "blower" = Some (VAirHandler ah2') ∧
    Rev1.AirHandler.AirFlowCFM ah1' = be16 x03 x20 ∧
    AirHandler.AirFlowCFM ah2' = be16 x03 x20 ∧
    Rev1.AirHandler.ElecHeat ah1' = AirHandler.ElecHeat ah2' ∧
    Rev1.AirHandler.BlowerRPM ah1' = Rev1.AirHandler.BlowerRPM Rev1.AirHandler.zero ∧
    AirHandler.BlowerRPM ah2' = AirHandler.BlowerRPM AirHandler.zero.
Proof.
  split; [reflexivity|]. split; [reflexivity|]. split; [reflexivity|].
  apply (status_revisions_agree sampleStatusFrame mainCacheRev1 mainCache
           Rev1.AirHandler.zero AirHandler.zero
           x01 x00 x00 x00 x03 x20 x00 x01 x00 []); reflexivity.
Defined.

(** ** Frames the decoders do not decode *)

Section Undecoded.
Context `{Tables}.

(** X12. Every decoder evaluates [frame.data[3:]] before any test, so on a
    frame whose payload has fewer than three bytes each of them panics,
    whatever the cache holds; so does the dispatch of such a frame from a
    snooped source range. *)
Theorem snoop_short_payload_panics (frame : InfinityFrame) (c : Cache) :
  (length (InfinityFrame.data frame) < 3)%nat →
  snoopHeatPump frame c = Panic ∧
  snoopAirHandler frame c = Panic ∧
  snoopDamper frame c = Panic ∧
  Rev1Snoop.snoopAirHandler frame c = Panic ∧
  (snooped (InfinityFrame.src frame) →
   exec (dispatch attachSnoops frame) c = Panic).
Proof.
  intros Hlen.
  assert (Hs : sliceFrom (InfinityFrame.data frame) 3 = Panic).
  { unfold sliceFrom. destruct (Nat.leb_spec 3 (length (InfinityFrame.data frame)));
      [lia|done]. }
  assert (H1 : snoopHeatPump frame c = Panic)
    by (unfold snoopHeatPump, mbind, M_bind, lift; by rewrite Hs).
  assert (H2 : snoopAirHandler frame c = Panic)
    by (unfold snoopAirHandler, mbind, M_bind, lift; by rewrite Hs).
  assert (H3 : snoopDamper frame c = Panic)
    by (unfold snoopDamper, mbind, M_bind, lift; by rewrite Hs).
  repeat split; try done.
  - unfold Rev1Snoop.snoopAirHandler, mbind, M_bind, lift. by rewrite Hs.
  - intros [Hsrc|[Hsrc|Hsrc]].
    + rewrite dispatch_heatPump by done. unfold exec. by rewrite H1.
    + rewrite dispatch_airHandler by done. unfold exec. by rewrite H2.
    + rewrite dispatch_damper by done. unfold exec. by rewrite H3.
Qed.

End Undecoded.
Lemma snoop_short_payload_panics_witness :
  (length (InfinityFrame.data shortFrame) < 3)%nat ∧
  snooped (InfinityFrame.src shortFrame) ∧
  snoopHeatPump shortFrame mainCache = Panic ∧
  exec (dispatch attachSnoops shortFrame) mainCache = Panic.
Proof.
  assert (Hlen : (length (InfinityFrame.data shortFrame) < 3)%nat) by (simpl; lia).
  assert (Hsrc : snooped (InfinityFrame.src shortFrame)) by (left; simpl; lia).
  split; [exact Hlen|]. split; [exact Hsrc|].
  destruct (snoop_short_payload_panics shortFrame mainCache Hlen)
    as (H1 & _ & _ & _ & Hd).
  split; [exact H1|exact (Hd Hsrc)].
Defined.

Section Ignored.
Context `{Tables}.

Lemma sliceFrom_Ok (s : list byte) (lo : nat) :
  (lo ≤ length s)%nat → sliceFrom s lo = Ok (drop lo s).
Proof.
  intros Hlo. unfold sliceFrom. by destruct (Nat.leb_spec lo (length s)); [|lia].
Qed.

Lemma slice_prefix_Ok (s : list byte) (n : nat) :
  (n ≤ length s)%nat → slice s 0 n = Ok (take n s).
Proof.
  intros Hn. unfold slice. cbn [Nat.leb andb].
  destruct (Nat.leb_spec n (length s)); [|lia].
  by rewrite Nat.sub_0_r, drop_0.
Qed.

Lemma Equal_false (a b : list byte) : a ≠ b → bytes.Equal a b = false.
Proof.
  intros Hne. destruct (bytes.Equal a b) eqn:E; [|done].
  by apply Equal_eq in E.
Qed.

(** X13. A frame with a payload of at least three bytes is ignored by a
    decoder, which then returns without a panic and leaves the cache as it
    was (no key stored, no change published), when the cache does not hold
    a view of the decoder's type under the decoder's key, or when the first
    three bytes of the payload are none of the prefixes the decoder
    recognises. *)
Theorem snoop_ignored (frame : InfinityFrame) (c : Cache) :
  (3 ≤ length (InfinityFrame.data frame))%nat →
  ((∀ hp, store c !! "heatpump" ≠ Some (VHeatPump hp)) ∨
   take 3 (InfinityFrame.data frame) ∉ heatPumpPrefixes →
   snoopHeatPump frame c = Ok (tt, c)) ∧
  ((∀ ah, store c !! "blower" ≠ Some (VAirHandler ah)) ∨
   take 3 (InfinityFrame.data frame) ∉ airHandlerPrefixes →
   snoopAirHandler frame c = Ok (tt, c)) ∧
  ((∀ dp, store c !! "damperpos" ≠ Some (VDamperPosition dp)) ∨
   take 3 (InfinityFrame.data frame) ∉ damperPrefixes →
   snoopDamper frame c = Ok (tt, c)).
Proof.
  intros Hlen.
  pose proof (sliceFrom_Ok _ 3 Hlen) as Hs.
  pose proof (slice_prefix_Ok _ 3 Hlen) as Hp.
  split; [|split]; intros Hign.
  - unfold snoopHeatPump. erewrite bind_lift by exact Hs. cbv beta.
    erewrite (bind_Ok getHeatPump) by reflexivity. cbv beta.
    destruct (store c !! "heatpump") as [[]|] eqn:Hv; try reflexivity.
    destruct Hign as [Hno|Hpfx]; [exfalso; by eapply Hno|].
    erewrite bind_lift by exact Hp. cbv beta.
    rewrite Equal_false.
    2: { intros E. apply Hpfx. rewrite E. unfold heatPumpPrefixes. set_solver. }
    erewrite bind_lift by exact Hp. cbv beta.
    rewrite Equal_false; [reflexivity|].
    intros E. apply Hpfx. rewrite E. unfold heatPumpPrefixes. set_solver.
  - unfold snoopAirHandler. erewrite bind_lift by exact Hs. cbv beta.
    erewrite (bind_Ok getAirHandler) by reflexivity. cbv beta.
    destruct (store c !! "blower") as [[]|] eqn:Hv; try reflexivity.
    destruct Hign as [Hno|Hpfx]; [exfalso; by eapply Hno|].
    erewrite bind_lift by exact Hp. cbv beta.
    rewrite Equal_false.
    2: { intros E. apply Hpfx. rewrite E. unfold airHandlerPrefixes. set_solver. }
    erewrite bind_lift by exact Hp. cbv beta.
    rewrite Equal_false; [reflexivity|].
    intros E. apply Hpfx. rewrite E. unfold airHandlerPrefixes. set_solver.
  - unfold snoopDamper. erewrite bind_lift by exact Hs. cbv beta.
    erewrite (bind_Ok getDamperPosition) by reflexivity. cbv beta.
    destruct (store c !! "damperpos") as [[]|] eqn:Hv; try reflexivity.
    destruct Hign as [Hno|Hpfx]; [exfalso; by eapply Hno|].
    erewrite bind_lift by exact Hp. cbv beta.
    rewrite Equal_false; [reflexivity|].
    intros E. apply Hpfx. rewrite E. unfold damperPrefixes. set_solver.
Qed.

End Ignored.

Lemma snoop_ignored_witness :
  (3 ≤ length (InfinityFrame.data otherTableFrame))%nat ∧
  (take 3 (InfinityFrame.data otherTableFrame) ∉ airHandlerPrefixes) ∧
  (∀ hp, store mainCacheRev1 !! "heatpump" ≠ Some (VHeatPump hp)) ∧
  snoopAirHandler otherTableFrame mainCache = Ok (tt, mainCache) ∧
  snoopHeatPump otherTableFrame mainCacheRev1 = Ok (tt, mainCacheRev1).
Proof.
  assert (Hlen : (3 ≤ length (InfinityFrame.data otherTableFrame))%nat)
    by (simpl; lia).
  assert (Hpfx : take 3 (InfinityFrame.data otherTableFrame) ∉ airHandlerPrefixes).
  { intros Hin. unfold airHandlerPrefixes in Hin.
    repeat (apply elem_of_cons in Hin as [E|Hin]; [discriminate E|]).
    by apply elem_of_nil in Hin. }
  assert (Hno : ∀ hp, store mainCacheRev1 !! "heatpump" ≠ Some (VHeatPump hp))
    by (intros hp; discriminate).
  split; [exact Hlen|]. split; [exact Hpfx|]. split; [exact Hno|].
  split.
  - exact (proj1 (proj2 (snoop_ignored otherTableFrame mainCache Hlen))
             (or_intror Hpfx)).
  - exact (proj1 (snoop_ignored otherTableFrame mainCacheRev1 Hlen) (or_introl Hno)).
Defined.
Section Truncated.
Context `{Tables}.

Lemma damperStep_Ok_or_Panic (data : list byte) (zi : nat) (dp : DamperPosition)
    (c : Cache) :
  (zi < length data)%nat → ∃ r, damperStep data zi dp c = Ok r.
Proof.
  intros Hlt. destruct (lookup_lt_is_Some_2 data zi Hlt) as [b Hb].
  unfold damperStep, index. rewrite Hb. erewrite bind_lift by reflexivity. cbv beta.
  destruct (negb (u8 b =? 255)); [|by eexists].
  rewrite bind_update. by eexists.
Qed.

Lemma bind_Panic {A B : Type} (m : M A) (k : A → M B) (c : Cache) :
  m c = Panic → (m ≫= k) c = Panic.
Proof. unfold mbind, M_bind. by intros ->. Qed.

(** The damper loop panics when it runs past the end of the payload. *)
Lemma damperLoop_Panic (data : list byte) (n a : nat) (dp : DamperPosition)
    (c : Cache) :
  (0 < n)%nat → (length data < a + n)%nat →
  forEach (seq a n) (damperStep data) dp c = Panic.
Proof.
  revert a dp c. induction n as [|n IH]; intros a dp c Hn Hlen; [lia|].
  cbn [seq forEach]. unfold mbind at 1, M_bind at 1.
  destruct (decide (a < length data)%nat) as [Hlt|Hge].
  - destruct (damperStep_Ok_or_Panic data a dp c Hlt) as [[dp1 c1] ->].
    apply IH; lia.
  - unfold damperStep, index. rewrite lookup_ge_None_2 by lia. reflexivity.
Qed.

(** X14. After a recognised prefix the decoders index the payload without
    a test of its length: the damper decoder panics on a frame with fewer
    than eight slot bytes after 00 03 19, the heat pump decoder on a frame
    that ends after 00 3E 02 and the air handler decoder on a frame that
    ends after 00 03 16, whenever the cache holds the view of the
    decoder. *)
Theorem snoop_truncated_panics (frame : InfinityFrame) (c : Cache) :
  (∀ dp bs, store c !! "damperpos" = Some (VDamperPosition dp) →
     InfinityFrame.data frame = [x00; x03; x19] ++ bs → (length bs < 8)%nat →
     snoopDamper frame c = Panic) ∧
  (∀ hp, store c !! "heatpump" = Some (VHeatPump hp) →
     InfinityFrame.data frame = [x00; x3e; x02] →
     snoopHeatPump frame c = Panic) ∧
  (∀ ah, store c !! "blower" = Some (VAirHandler ah) →
     InfinityFrame.data frame = [x00; x03; x16] →
     snoopAirHandler frame c = Panic).
Proof.
  split; [|split].
  - intros dp bs Hc Hdata Hlen. unfold snoopDamper. rewrite Hdata.
    run_lift. erewrite bind_Ok by (by apply getDamperPosition_Some); cbv beta iota.
    run_lift. cbn [app drop take Nat.sub].
    change (bytes.Equal [x00; x03; x19] [x00; x03; x19]) with true. cbv iota.
    apply bind_Panic, damperLoop_Panic; [lia|rewrite drop_0; lia].
  - intros hp Hc Hdata. unfold snoopHeatPump. rewrite Hdata.
    run_lift. erewrite bind_Ok by (by apply getHeatPump_Some); cbv beta iota.
    run_lift. cbn [app drop take Nat.sub].
    change (bytes.Equal [x00; x3e; x02] [x00; x3e; x01]) with false. cbv iota.
    run_lift. cbn [app drop take Nat.sub].
    change (bytes.Equal [x00; x3e; x02] [x00; x3e; x02]) with true. cbv iota.
    reflexivity.
  - intros ah Hc Hdata. unfold snoopAirHandler. rewrite Hdata.
    run_lift. erewrite bind_Ok by (by apply getAirHandler_Some); cbv beta iota.
    run_lift. cbn [app drop take Nat.sub].
    change (bytes.Equal [x00; x03; x16] [x00; x03; x06]) with false. cbv iota.
    run_lift. cbn [app drop take Nat.sub].
    change (bytes.Equal [x00; x03; x16] [x00; x03; x16]) with true. cbv iota.
    reflexivity.
Qed.

(** X15. The three source ranges of [attachSnoops] are pairwise disjoint,
    so a frame reaches at most one decoder; a frame from a source outside
    them reaches none: its dispatch returns without a panic, whatever its
    payload, and leaves the cache as it was. *)
Theorem dispatch_ranges (frame : InfinityFrame) (c : Cache) :
  (length (filter (λ s, (srcMin s ≤ InfinityFrame.src frame ≤ srcMax s)%Z)
             attachSnoops) ≤ 1)%nat ∧
  (¬ snooped (InfinityFrame.src frame) →
   dispatch attachSnoops frame c = Ok (tt, c)).
Proof.
  split.
  - unfold attachSnoops. rewrite !filter_cons, filter_nil. cbn [srcMin srcMax].
    repeat case_decide; cbn [length]; lia.
  - intros Hout. unfold snooped in Hout.
    unfold dispatch, attachSnoops. cbn [forEach srcMin srcMax cb].
    destruct (Z.leb_spec 0x5000 (InfinityFrame.src frame));
      destruct (Z.leb_spec (InfinityFrame.src frame) 0x51ff);
      destruct (Z.leb_spec 0x4000 (InfinityFrame.src frame));
      destruct (Z.leb_spec (InfinityFrame.src frame) 0x42ff);
      destruct (Z.leb_spec 0x6000 (InfinityFrame.src frame));
      destruct (Z.leb_spec (InfinityFrame.src frame) 0x61ff);
      try lia; reflexivity.
Qed.

End Truncated.

Lemma snoop_truncated_panics_witness :
  store mainCache !! "damperpos" = Some (VDamperPosition DamperPosition.zero) ∧
  InfinityFrame.data fourSlotDamperFrame = [x00; x03; x19] ++ [x0f; x00; x07; xff] ∧
  snoopDamper fourSlotDamperFrame mainCache = Panic.
Proof.
  split; [reflexivity|]. split; [reflexivity|].
  apply (proj1 (snoop_truncated_panics fourSlotDamperFrame mainCache)
           DamperPosition.zero [x0f; x00; x07; xff]); [reflexivity|reflexivity|].
  simpl. lia.
Defined.

Lemma dispatch_ranges_witness :
  ¬ snooped (InfinityFrame.src tstatFrame) ∧
  dispatch attachSnoops tstatFrame mainCache = Ok (tt, mainCache).
Proof.
  assert (Hout : ¬ snooped (InfinityFrame.src tstatFrame)).
  { unfold snooped. simpl. lia. }
  split; [exact Hout|].
  exact (proj2 (dispatch_ranges tstatFrame mainCache) Hout).
Defined.

(* ===================================================================== *)
(** * Further properties of the poller *)
(* ===================================================================== *)

Lemma putAll_app (ws1 ws2 : list (string * Value)) (c : Cache) :
  putAll (ws1 ++ ws2) c = putAll ws2 (putAll ws1 c).
Proof. apply foldl_app. Qed.

Lemma putAll_events (ws : list (string * Value)) (c : Cache) :
  events (putAll ws c) = events c ++ ws.
Proof.
  revert c. induction ws as [|[k v] ws IH]; intros c.
  - by rewrite app_nil_r.
  - change (putAll ((k, v) :: ws) c) with (putAll ws (cache.put k v c)).
    rewrite IH. cbn [events cache.put fst snd]. by rewrite <- app_assoc.
Qed.

Lemma eventsOf_app (k : string) (ws1 ws2 : list (string * Value)) :
  eventsOf k (ws1 ++ ws2) = eventsOf k ws1 ++ eventsOf k ws2.
Proof. unfold eventsOf. by rewrite filter_app, fmap_app. Qed.

Lemma eventsOf_absent (k : string) (ws : list (string * Value)) :
  k ∉ ws.*1 → eventsOf k ws = [].
Proof.
  induction ws as [|[k' v] ws IH]; intros Hk; [done|].
  rewrite fmap_cons, not_elem_of_cons in Hk. destruct Hk as [Hne Hk].
  unfold eventsOf. rewrite filter_cons_False by (intros E; apply Hne; symmetry; exact E).
  by apply IH.
Qed.


(** The store after a list of updates: the last update of a key wins. *)
Lemma putAll_lookup (k : string) (ws : list (string * Value)) (c : Cache) :
  store (putAll ws c) !! k =
    match last (eventsOf k ws) with
    | Some v => Some v
    | None => store c !! k
    end.
Proof.
  induction ws as [|[k' v] ws IH] using rev_ind; [done|].
  rewrite putAll_app, eventsOf_app. cbn [putAll foldl fst snd store cache.put].
  unfold eventsOf at 2. rewrite filter_cons, filter_nil. cbn [fst].
  destruct (decide (k' = k)) as [->|Hne].
  - rewrite lookup_insert_eq. cbn [fmap list_fmap snd]. by rewrite last_snoc.
  - rewrite lookup_insert_ne by done. cbn [fmap list_fmap]. by rewrite app_nil_r.
Qed.

Lemma putAll_eventsOf (k : string) (ws : list (string * Value)) (c : Cache) :
  eventsOf k (events (putAll ws c)) = eventsOf k (events c) ++ eventsOf k ws.
Proof. by rewrite putAll_events, eventsOf_app. Qed.

(** A key that is not updated keeps its value and gets no change. *)
Lemma putAll_absent (k : string) (ws : list (string * Value)) (c : Cache) :
  k ∉ ws.*1 →
  store (putAll ws c) !! k = store c !! k ∧
  eventsOf k (events (putAll ws c)) = eventsOf k (events c).
Proof.
  intros Hk. rewrite putAll_lookup, putAll_eventsOf, eventsOf_absent by done.
  by rewrite app_nil_r.
Qed.


(** Running the same updates again does not change the store. *)
Lemma putAll_twice (ws : list (string * Value)) (c : Cache) :
  store (putAll ws (putAll ws c)) = store (putAll ws c).
Proof.
  apply map_eq. intros k. rewrite !putAll_lookup.
  by destruct (last (eventsOf k ws)).
Qed.

Lemma zoneKey_inj (zi zj : nat) (f g : string) :
  (zi < 8)%nat → (zj < 8)%nat →
  zoneKey (Z.of_nat zi + 1) f = zoneKey (Z.of_nat zj + 1) g → zi = zj ∧ f = g.
Proof.
  intros Hi Hj. unfold zoneKey.
  do 8 (destruct zi as [|zi];
        [do 8 (destruct zj as [|zj];
               [cbn; intros E; by simplify_eq|]); lia|]).
  lia.
Qed.

Lemma zoneKey_damperKey (zi : nat) : damperKey zi = zoneKey (Z.of_nat zi + 1) "/damperPos".
Proof. reflexivity. Qed.

Lemma zoneWrites_keys (z : TStatZoneConfig) :
  (zoneWrites z).*1 = zoneKey (TStatZoneConfig.ZoneNumber z) <$> zoneSuffixes.
Proof. reflexivity. Qed.

Section PollerWrites.
Context `{Tables}.
Import TStatZoneParams TStatCurrentParams.

Lemma pollZone_writes (z : TStatZoneConfig) (hum : Z) (c : Cache) :
  is_Some (TStatZoneConfig.Hold z) →
  pollZone "mqtt/infinitive" z hum c =
    Ok (TStatZoneConfig.CurrentHumidity z, putAll (zoneWrites z) c).
Proof.
  intros [hold Hhold]. unfold pollZone, zoneWrites, zoneFields. rewrite Hhold.
  rewrite !bind_update. erewrite bind_lift by reflexivity. cbv beta.
  rewrite !bind_update. reflexivity.
Qed.

Lemma pollZones_writes (zones : list TStatZoneConfig) (hum : Z) (c : Cache) :
  Forall (λ z, is_Some (TStatZoneConfig.Hold z)) zones →
  forEach zones (pollZone "mqtt/infinitive") hum c =
    Ok (default hum (TStatZoneConfig.CurrentHumidity <$> last zones),
        putAll (zones ≫= zoneWrites) c).
Proof.
  revert hum c. induction zones as [|z zones IH]; intros hum c Hall; [done|].
  apply Forall_cons in Hall as [Hz Hall].
  cbn [forEach]. erewrite bind_Ok by (by apply pollZone_writes).
  rewrite IH by done. rewrite bind_cons, putAll_app.
  do 2 f_equal. rewrite last_cons. by destruct (last zones).
Qed.

(** The refresh of the cache after a successful read runs the updates of
    [pollWrites], in order. *)
Lemma pollUpdate_writes (c1 : TStatZonesConfig) (c : Cache) :
  Forall (λ z, is_Some (TStatZoneConfig.Hold z)) (TStatZonesConfig.Zones c1) →
  pollUpdate c1 c = Ok (tt, putAll (pollWrites c1) c).
Proof.
  intros Hall. unfold pollUpdate, pollWrites. rewrite bind_update.
  erewrite bind_Ok by (by apply pollZones_writes). cbv beta.
  fold (lastHumidity c1).
  change (?a :: ?l ++ ?r) with ([a] ++ l ++ r). rewrite !putAll_app.
  destruct (0 <? lastHumidity c1).
  - rewrite !bind_update. reflexivity.
  - rewrite bind_ret, !bind_update. reflexivity.
Qed.

End PollerWrites.
(** A string is none of the strings of a list of literals. *)
Ltac str_notin :=
  let Hin := fresh "Hin" in
  intros Hin;
  repeat (apply elem_of_cons in Hin; destruct Hin as [Hin|Hin]; [discriminate Hin|]);
  by apply elem_of_nil in Hin.

Lemma zoneSuffixes_NoDup : NoDup zoneSuffixes.
Proof.
  unfold zoneSuffixes. repeat (apply NoDup_cons; split; [str_notin|]).
  apply NoDup_nil_2.
Qed.

Lemma zoneKey_not_global (n : Z) (f : string) :
  zoneKey n f ∉ [ "tstat"; humidityKey; "mqtt/infinitive/outdoorTemp";
                  "mqtt/infinitive/mode"; "mqtt/infinitive/rawMode" ].
Proof.
  str_notin.
Qed.

Lemma pollKeys_elem (l : list nat) (hum : bool) (k : string) :
  k ∈ pollKeys l hum ↔
    k = "tstat" ∨
    (∃ zi f, zi ∈ l ∧ f ∈ zoneSuffixes ∧ k = zoneKey (Z.of_nat zi + 1) f) ∨
    (hum = true ∧ k = humidityKey) ∨
    k ∈ [ "mqtt/infinitive/outdoorTemp"; "mqtt/infinitive/mode";
          "mqtt/infinitive/rawMode" ].
Proof.
  unfold pollKeys. rewrite elem_of_cons, !elem_of_app, list_elem_of_bind.
  split.
  - intros [->|[(zi & Hk & Hzi)|[Hh|Hg]]]; [by left| | |by do 3 right].
    + right; left. apply list_elem_of_fmap in Hk as (f & -> & Hf). eauto.
    + right; right; left. destruct hum; [|by apply elem_of_nil in Hh].
      apply list_elem_of_singleton in Hh. done.
  - intros [->|[(zi & f & Hzi & Hf & ->)|[[-> ->]|Hg]]]; [by left| | |by do 3 right].
    + right; left. exists zi. split; [|done]. by apply list_elem_of_fmap_2.
    + right; right; left. by apply list_elem_of_singleton.
Qed.

Lemma pollKeys_NoDup (l : list nat) (hum : bool) :
  NoDup l → Forall (λ zi, (zi < 8)%nat) l → NoDup (pollKeys l hum).
Proof.
  intros Hnd Hall. rewrite Forall_forall in Hall. unfold pollKeys.
  apply NoDup_cons. split.
  { rewrite !not_elem_of_app, list_elem_of_bind. split_and!.
    - intros (zi & Hk & _). apply list_elem_of_fmap in Hk as (f & E & _).
      discriminate E.
    - destruct hum; str_notin.
    - str_notin. }
  apply NoDup_app. split_and!.
  - apply NoDup_bind; [| |done].
    + intros zi zj k Hi Hj (f & -> & _)%list_elem_of_fmap (g & E & _)%list_elem_of_fmap.
      by apply zoneKey_inj in E as [-> _]; auto.
    + intros zi Hzi. apply NoDup_fmap_2_strong; [|apply zoneSuffixes_NoDup].
      intros f g _ _ E. by apply zoneKey_inj in E as [_ ->]; auto.
  - intros k (zi & Hk & _)%list_elem_of_bind Hin.
    apply list_elem_of_fmap in Hk as (f & -> & _).
    apply (zoneKey_not_global (Z.of_nat zi + 1) f).
    apply elem_of_app in Hin as [Hin|Hin].
    + destruct hum; [|by apply elem_of_nil in Hin].
      apply list_elem_of_singleton in Hin. rewrite Hin.
      apply list_elem_of_further, list_elem_of_here.
    + do 2 apply list_elem_of_further. exact Hin.
  - destruct hum; cbn [app]; repeat (apply NoDup_cons; split; [str_notin|]);
      apply NoDup_nil_2.
Qed.

Section PollerKeys.
Context `{Tables}.
Import TStatZoneParams TStatCurrentParams.

Lemma zonesWrites_keys cfg params (l : list nat) :
  Forall (λ zi, (zi < 8)%nat) l →
  ((zoneEntry cfg params <$> l) ≫= zoneWrites).*1 =
    l ≫= λ zi, zoneKey (Z.of_nat zi + 1) <$> zoneSuffixes.
Proof.
  induction 1 as [|zi l Hzi Hall IH]; [done|].
  rewrite fmap_cons, !bind_cons, fmap_app, IH, zoneWrites_keys.
  by rewrite zoneEntry_number.
Qed.

Lemma active_slots (params : TStatCurrentParams) :
  NoDup (filter (activeZone params) (seq 0 8)) ∧
  Forall (λ zi, (zi < 8)%nat) (filter (activeZone params) (seq 0 8)).
Proof.
  split; [apply NoDup_filter, NoDup_seq|].
  apply Forall_forall. intros zi [_ Hzi%elem_of_seq]%list_elem_of_filter. lia.
Qed.

(** The keys of a pass that has read both tables. *)
Lemma pollWrites_keys (bus : Bus) cfg params tstat :
  readZoneParams bus devTSTAT = Some cfg →
  readCurrentParams bus devTSTAT = Some params →
  getZonesConfig bus = Some tstat →
  (pollWrites tstat).*1 =
    pollKeys (filter (activeZone params) (seq 0 8)) (0 <? lastHumidity tstat).
Proof.
  intros Hcfg Hpar Hget.
  rewrite (getZonesConfig_Some bus cfg params) in Hget by done.
  injection Hget as <-. unfold pollWrites, pollKeys.
  rewrite fmap_cons, !fmap_app. cbn [TStatZonesConfig.Zones fst].
  rewrite zonesWrites_keys by apply active_slots.
  f_equal. f_equal. f_equal. by destruct (0 <? _).
Qed.

(** A pass of the poller that has read both tables runs the updates of
    [pollWrites]. *)
Lemma pollTick_writes (monArray : list Z) (bus : Bus) (mon_i : nat) (c : Cache)
    (tstat : TStatZonesConfig) :
  getZonesConfig bus = Some tstat →
  monValid monArray mon_i →
  ∃ mon_i', pollTick monArray bus mon_i c = Ok (mon_i', putAll (pollWrites tstat) c).
Proof.
  intros Hget Hv.
  destruct (pollTick_run monArray bus mon_i c Hv) as (mon_i' & c' & Hrun & _ & Hc).
  rewrite Hget in Hc. rewrite pollUpdate_writes in Hc by (by eapply getZonesConfig_Hold).
  assert (c' = putAll (pollWrites tstat) c) as -> by congruence. by exists mon_i'.
Qed.

(** X16. A pass of the poller in which both tables are read publishes, in
    this order: the typed key ["tstat"]; for every active zone slot, in
    increasing slot order, the eight mirror keys of the zone (current
    temperature, humidity, cool setpoint, heat setpoint, fan mode, hold,
    override duration, preset); the humidity key when the humidity of the
    last active zone is positive; the outdoor temperature, the mode and the
    raw mode. No key is published twice in a pass. *)
Theorem poll_publishes (monArray : list Z) (bus : Bus) (mon_i : nat) (c : Cache)
    cfg params :
  readZoneParams bus devTSTAT = Some cfg →
  readCurrentParams bus devTSTAT = Some params →
  monValid monArray mon_i →
  ∃ mon_i' c' tstat,
    getZonesConfig bus = Some tstat ∧
    pollTick monArray bus mon_i c = Ok (mon_i', c') ∧
    events c' = events c ++ pollWrites tstat ∧
    (pollWrites tstat).*1 =
      "tstat" ::
      (filter (activeZone params) (seq 0 8) ≫=
         λ zi, zoneKey (Z.of_nat zi + 1) <$> zoneSuffixes) ++
      (if 0 <? lastHumidity tstat then [humidityKey] else []) ++
      [ "mqtt/infinitive/outdoorTemp"; "mqtt/infinitive/mode";
        "mqtt/infinitive/rawMode" ] ∧
    NoDup (pollWrites tstat).*1 ∧
    length (pollWrites tstat) =
      (4 + 8 * length (filter (activeZone params) (seq 0 8)) +
       (if (0 <? lastHumidity tstat)%Z then 1 else 0))%nat.
Proof.
  intros Hcfg Hpar Hv.
  pose proof (getZonesConfig_Some bus cfg params Hcfg Hpar) as Hget.
  destruct (pollTick_writes monArray bus mon_i c _ Hget Hv) as [mon_i' Hrun].
  eexists mon_i', _, _. split; [exact Hget|]. split; [exact Hrun|].
  split; [apply putAll_events|].
  pose proof (pollWrites_keys bus cfg params _ Hcfg Hpar Hget) as Hkeys.
  split; [exact Hkeys|]. split.
  - rewrite Hkeys. apply pollKeys_NoDup; apply active_slots.
  - rewrite <- (length_fmap fst), Hkeys. unfold pollKeys.
    cbn [length]. rewrite !length_app.
    assert (Hlen : ∀ l : list nat,
              length (l ≫= λ zi, zoneKey (Z.of_nat zi + 1) <$> zoneSuffixes) =
              (8 * length l)%nat).
    { induction l as [|zi l IH]; [done|].
      rewrite bind_cons, length_app, IH, length_fmap. cbn [length zoneSuffixes]. lia. }
    rewrite Hlen. destruct (0 <? _); cbn [length]; lia.
Qed.

End PollerKeys.
Lemma poll_publishes_witness :
  readZoneParams sampleBus devTSTAT = Some sampleZoneParams ∧
  readCurrentParams sampleBus devTSTAT = Some sampleCurrentParams ∧
  monValid rawMonTable 0 ∧
  ∃ mon_i' c' tstat,
    getZonesConfig sampleBus = Some tstat ∧
    pollTick rawMonTable sampleBus 0 mainCache = Ok (mon_i', c') ∧
    events c' = events mainCache ++ pollWrites tstat ∧
    length (pollWrites tstat) = 29%nat.
Proof.
  assert (Hv : monValid rawMonTable 0) by (right; simpl; lia).
  split; [reflexivity|]. split; [reflexivity|]. split; [exact Hv|].
  destruct (poll_publishes rawMonTable sampleBus 0%nat mainCache
              sampleZoneParams sampleCurrentParams eq_refl eq_refl Hv)
    as (mon_i' & c' & tstat & Hget & Hrun & Hev & _ & _ & Hlen).
  exists mon_i', c', tstat. split; [exact Hget|]. split; [exact Hrun|].
  split; [exact Hev|]. rewrite Hlen.
  assert (Hget' : getZonesConfig sampleBus = Some tstat) by exact Hget.
  vm_compute in Hget'. injection Hget' as <-. reflexivity.
Defined.

Section PollerMirror.
Context `{Tables}.
Import TStatZoneParams TStatCurrentParams.




End PollerMirror.

Section PollerFootprint.
Context `{Tables}.
Import TStatZoneParams TStatCurrentParams.

Lemma getZonesConfig_reads (bus : Bus) (tstat : TStatZonesConfig) :
  getZonesConfig bus = Some tstat →
  ∃ cfg params, readZoneParams bus devTSTAT = Some cfg ∧
                readCurrentParams bus devTSTAT = Some params.
Proof.
  intros Hget.
  destruct (readZoneParams bus devTSTAT) as [cfg|] eqn:Hcfg.
  2: { rewrite getZonesConfig_None in Hget by (by left). done. }
  destruct (readCurrentParams bus devTSTAT) as [params|] eqn:Hpar.
  2: { rewrite getZonesConfig_None in Hget by (by right). done. }
  by exists cfg, params.
Qed.

(** X18. A pass of the poller in which both tables are read writes no
    mirror key of a zone slot that is not active: every key
    [mqtt/infinitive/zone/<zi+1>/...] of such a slot keeps the value it had
    and gets no change, so the values mirrored while the slot was active
    stay in the cache. *)
Theorem poll_inactive_zone_untouched (monArray : list Z) (bus : Bus) (mon_i : nat)
    (c : Cache) cfg params (zi : nat) (f : string) :
  readZoneParams bus devTSTAT = Some cfg →
  readCurrentParams bus devTSTAT = Some params →
  monValid monArray mon_i →
  (zi < 8)%nat → ¬ activeZone params zi →
  ∃ mon_i' c',
    pollTick monArray bus mon_i c = Ok (mon_i', c') ∧
    store c' !! zoneKey (Z.of_nat zi + 1) f = store c !! zoneKey (Z.of_nat zi + 1) f ∧
    eventsOf (zoneKey (Z.of_nat zi + 1) f) (events c') =
      eventsOf (zoneKey (Z.of_nat zi + 1) f) (events c).
Proof.
  intros Hcfg Hpar Hv Hzi Hina.
  pose proof (getZonesConfig_Some bus cfg params Hcfg Hpar) as Hget.
  destruct (pollTick_writes monArray bus mon_i c _ Hget Hv) as [mon_i' Hrun].
  eexists mon_i', _. split; [exact Hrun|].
  apply putAll_absent. rewrite (pollWrites_keys bus cfg params) by done.
  rewrite pollKeys_elem. intros [E|[(zj & g & Hzj & _ & E)|[[_ E]|Hin]]].
  - discriminate E.
  - apply list_elem_of_filter in Hzj as [Hact Hzj%elem_of_seq].
    apply zoneKey_inj in E as [-> _]; [done|done|lia].
  - discriminate E.
  - revert Hin. str_notin.
Qed.

Lemma snoopKeys_not_polled (l : list nat) (hum : bool) (k : string) :
  Forall (λ zi, (zi < 8)%nat) l → k ∈ snoopKeys → k ∉ pollKeys l hum.
Proof.
  intros Hall Hk. rewrite Forall_forall in Hall. unfold snoopKeys in Hk.
  rewrite pollKeys_elem.
  apply elem_of_app in Hk as [Hk|Hk].
  - repeat (apply elem_of_cons in Hk as [->|Hk];
            [intros [E|[(zj & g & _ & _ & E)|[[_ E]|Hin]]];
             [discriminate E|discriminate E|discriminate E|revert Hin; str_notin]|]).
    by apply elem_of_nil in Hk.
  - apply list_elem_of_fmap in Hk as (zi & -> & Hzi%elem_of_seq).
    intros [E|[(zj & g & Hzj & Hg & E)|[[_ E]|Hin]]].
    + discriminate E.
    + rewrite zoneKey_damperKey in E.
      apply zoneKey_inj in E as [_ <-]; [|lia|by apply Hall].
      revert Hg. str_notin.
    + discriminate E.
    + revert Hin. str_notin.
Qed.

(** X19. A pass of the poller, whatever the outcome of its reads, neither
    stores nor publishes any key the snoop decoders write: the typed keys
    ["heatpump"], ["blower"] and ["damperpos"], their flat mirror keys and
    the damper position keys of the eight zone slots all keep their
    values. *)
Theorem poll_leaves_snoop_keys (monArray : list Z) (bus : Bus) (mon_i : nat)
    (c : Cache) :
  monValid monArray mon_i →
  ∃ mon_i' c',
    pollTick monArray bus mon_i c = Ok (mon_i', c') ∧
    ∀ k, k ∈ snoopKeys →
      store c' !! k = store c !! k ∧
      eventsOf k (events c') = eventsOf k (events c).
Proof.
  intros Hv.
  destruct (pollTick_run monArray bus mon_i c Hv) as (mon_i' & c' & Hrun & _ & Hc).
  exists mon_i', c'. split; [exact Hrun|]. intros k Hk.
  destruct (getZonesConfig bus) as [tstat|] eqn:Hget; [|by subst].
  rewrite pollUpdate_writes in Hc by (by eapply getZonesConfig_Hold).
  assert (c' = putAll (pollWrites tstat) c) as -> by congruence.
  destruct (getZonesConfig_reads bus tstat Hget) as (cfg & params & Hcfg & Hpar).
  apply putAll_absent. rewrite (pollWrites_keys bus cfg params) by done.
  apply snoopKeys_not_polled; [apply active_slots|done].
Qed.

(** X20. Two passes of the poller in a row that read the same tables leave
    the store after the second pass as it was after the first: the second
    pass stores the same values again. *)
Theorem poll_repeat_store (monArray : list Z) (bus bus' : Bus) (mon_i : nat)
    (c : Cache) :
  getZonesConfig bus' = getZonesConfig bus →
  monValid monArray mon_i →
  ∃ i1 c1 i2 c2,
    pollTick monArray bus mon_i c = Ok (i1, c1) ∧
    pollTick monArray bus' i1 c1 = Ok (i2, c2) ∧
    store c2 = store c1.
Proof.
  intros Hsame Hv.
  destruct (pollTick_run monArray bus mon_i c Hv) as (i1 & c1 & Hrun1 & Hv1 & Hc1).
  destruct (pollTick_run monArray bus' i1 c1 Hv1) as (i2 & c2 & Hrun2 & _ & Hc2).
  exists i1, c1, i2, c2. split; [done|]. split; [done|].
  rewrite Hsame in Hc2.
  destruct (getZonesConfig bus) as [tstat|] eqn:Hget; [|by subst].
  rewrite pollUpdate_writes in Hc1, Hc2 by (by eapply getZonesConfig_Hold).
  assert (c1 = putAll (pollWrites tstat) c) as -> by congruence.
  assert (c2 = putAll (pollWrites tstat) (putAll (pollWrites tstat) c)) as ->
    by congruence.
  apply putAll_twice.
Qed.

End PollerFootprint.

Lemma poll_inactive_zone_untouched_witness :
  readZoneParams sampleBus devTSTAT = Some sampleZoneParams ∧
  readCurrentParams sampleBus devTSTAT = Some sampleCurrentParams ∧
  monValid rawMonTable 0 ∧
  ¬ activeZone sampleCurrentParams 2 ∧
  ∃ mon_i' c',
    pollTick rawMonTable sampleBus 0 mainCache = Ok (mon_i', c') ∧
    store c' !! zoneKey 3 "/currentTemp" = None.
Proof.
  assert (Hv : monValid rawMonTable 0) by (right; simpl; lia).
  assert (Hina : ¬ activeZone sampleCurrentParams 2)
    by (unfold activeZone; simpl; lia).
  split; [reflexivity|]. split; [reflexivity|]. split; [exact Hv|].
  split; [exact Hina|].
  destruct (poll_inactive_zone_untouched rawMonTable sampleBus 0%nat mainCache
              sampleZoneParams sampleCurrentParams 2%nat "/currentTemp"
              eq_refl eq_refl Hv) as (mon_i' & c' & Hrun & Hst & _);
    [lia|exact Hina|].
  exists mon_i', c'. split; [exact Hrun|]. exact Hst.
Defined.

Lemma poll_leaves_snoop_keys_witness :
  monValid rawMonTable 0 ∧
  ∃ mon_i' c',
    pollTick rawMonTable sampleBus 0 mainCache = Ok (mon_i', c') ∧
    store c' !! "blower" = Some (VAirHandler AirHandler.zero).
Proof.
  assert (Hv : monValid rawMonTable 0) by (right; simpl; lia).
  split; [exact Hv|].
  destruct (poll_leaves_snoop_keys rawMonTable sampleBus 0%nat mainCache Hv)
    as (mon_i' & c' & Hrun & Hk).
  exists mon_i', c'. split; [exact Hrun|].
  assert (Hin : "blower" ∈ snoopKeys).
  { unfold snoopKeys. apply elem_of_app. left. do 4 apply list_elem_of_further.
    apply list_elem_of_here. }
  rewrite (proj1 (Hk "blower" Hin)). reflexivity.
Defined.

Lemma poll_repeat_store_witness :
  getZonesConfig sampleBus = getZonesConfig sampleBus ∧
  monValid rawMonTable 0 ∧
  ∃ i1 c1 i2 c2,
    pollTick rawMonTable sampleBus 0 mainCache = Ok (i1, c1) ∧
    pollTick rawMonTable sampleBus i1 c1 = Ok (i2, c2) ∧
    store c2 = store c1.
Proof.
  assert (Hv : monValid rawMonTable 0) by (right; simpl; lia).
  split; [reflexivity|]. split; [exact Hv|].
  exact (poll_repeat_store rawMonTable sampleBus sampleBus 0%nat mainCache eq_refl Hv).
Defined.

(** ** The probe of the raw tables *)

Lemma bind_ext {A B : Type} (m : M A) (k k' : A → M B) (c : Cache) :
  (∀ a c1, k a c1 = k' a c1) → (m ≫= k) c = (m ≫= k') c.
Proof.
  intros Hk. unfold mbind, M_bind. destruct (m c) as [[a c1]|]; [apply Hk|done].
Qed.

Lemma u8_toByte (x : Z) : u8 (toByte x) = x mod 256.
Proof.
  unfold u8, toByte.
  pose proof (Z.mod_pos_bound x 256 ltac:(lia)) as Hb.
  destruct (Byte.of_N (Z.to_N (x mod 256))) as [b|] eqn:E.
  - apply Byte.to_of_N in E. cbn [default from_option id]. rewrite E. lia.
  - apply Byte.of_N_None_iff in E. lia.
Qed.

Section Probe.
Context `{Tables}.

Lemma pollTick_cursor (monArray : list Z) (bus : Bus) (mon_i mon_i' : nat)
    (c c' : Cache) :
  pollTick monArray bus mon_i c = Ok (mon_i', c') →
  mon_i' = if (0 <? length monArray)%nat
           then ((mon_i + 1) mod length monArray)%nat else mon_i.
Proof.
  unfold pollTick. unfold mbind at 1, M_bind at 1.
  destruct (match getZonesConfig bus with
            | Some c1 => pollUpdate c1
            | None => mret tt
            end c) as [[[] c1]|]; [|done].
  destruct (0 <? length monArray)%nat; [|by intros [= <- <-]].
  unfold mbind, M_bind, lift, mret, M_ret.
  destruct (monArray !! mon_i); [|done].
  destruct (getRawData _ _ _); [|done]. by intros [= <- <-].
Qed.

Lemma pollLoop_cursor (monArray : list Z) (ticks : list Bus) (mon_i : nat)
    (c : Cache) :
  monValid monArray mon_i →
  ∃ c', pollLoop monArray ticks mon_i c =
    Ok (if (0 <? length monArray)%nat
        then ((mon_i + length ticks) mod length monArray)%nat else mon_i, c').
Proof.
  revert mon_i c. induction ticks as [|bus ticks IH]; intros mon_i c Hv.
  - exists c. cbn [pollLoop length]. unfold mret, M_ret. do 2 f_equal.
    destruct (Nat.ltb_spec 0 (length monArray)) as [Hpos|Hz]; [|done].
    destruct Hv as [->|Hlt]; [simpl in Hpos; lia|].
    rewrite Nat.add_0_r. symmetry. by apply Nat.mod_small.
  - destruct (pollTick_run monArray bus mon_i c Hv) as (i' & c1 & Hrun & Hv' & _).
    pose proof (pollTick_cursor _ _ _ _ _ _ Hrun) as Hi'.
    destruct (IH i' c1 Hv') as [c' Hloop]. exists c'.
    cbn [pollLoop length]. erewrite bind_Ok by exact Hrun. rewrite Hloop.
    do 2 f_equal. destruct (0 <? length monArray)%nat; [|done]. subst i'.
    rewrite Nat.Div0.add_mod_idemp_l. f_equal. lia.
Qed.

(** X21. [statePoller] never panics, whatever the probe list and the
    outcomes of the reads, and it probes the list round robin: after [n]
    passes the cursor [mon_i] is [n] modulo the length of the list, and it
    stays 0 when the list is empty. *)
Theorem statePoller_round_robin (monArray : list Z) (ticks : list Bus) (c : Cache) :
  ∃ c', statePoller monArray ticks c =
    Ok (match monArray with
        | [] => 0%nat
        | _ => (length ticks mod length monArray)%nat
        end, c').
Proof.
  unfold statePoller.
  destruct (pollLoop_cursor monArray ticks 0 c) as [c' Hloop].
  { destruct monArray; [by left|right; simpl; lia]. }
  exists c'. rewrite Hloop. by destruct monArray.
Qed.

(** X22. The outcome of the raw probe is only logged: two buses that
    answer the reads of the two thermostat tables alike give the same pass
    of the poller, the same cache and the same cursor, whatever they answer
    to the raw reads. *)
Theorem probe_outcome_ignored (monArray : list Z) (bus bus' : Bus) (mon_i : nat)
    (c : Cache) :
  readZoneParams bus' devTSTAT = readZoneParams bus devTSTAT →
  readCurrentParams bus' devTSTAT = readCurrentParams bus devTSTAT →
  pollTick monArray bus' mon_i c = pollTick monArray bus mon_i c.
Proof.
  intros Hcfg Hpar.
  assert (Hget : getZonesConfig bus' = getZonesConfig bus).
  { unfold getZonesConfig. by rewrite Hcfg, Hpar. }
  unfold pollTick. rewrite Hget. apply bind_ext. intros [] c1.
  destruct (0 <? length monArray)%nat; [|done].
  apply bind_ext. intros m c2. by rewrite !getRawData_Ok.
Qed.

(** X23. The table address of the raw probe: for a table number [m] of 16
    bits the two bytes that follow the 0x00 are the big-endian bytes of
    [m]; the probe of such an address does not panic, whatever the bus
    answers. *)
Theorem probe_address (bus : Bus) (m : Z) :
  0 ≤ m < 65536 →
  binary.BigEndian_Uint16
    [toByte (Z.land (Z.shiftr m 8) 0xff); toByte (Z.land m 0xff)] = Ok m ∧
  getRawData bus 0x2001
    [x00; toByte (Z.land (Z.shiftr m 8) 0xff); toByte (Z.land m 0xff)] = Ok tt.
Proof.
  intros Hm. split; [|apply getRawData_Ok].
  rewrite Uint16_be16. f_equal. unfold be16. rewrite !u8_toByte.
  change 255 with (Z.ones 8). rewrite !Z.land_ones, Z.shiftr_div_pow2 by lia.
  change (2 ^ 8) with 256. rewrite !Z.mod_mod by lia.
  rewrite (Z.mod_small (m / 256)) by (split; [apply Z.div_pos; lia|apply Z.div_lt_upper_bound; lia]).
  rewrite (Z.div_mod m 256) at 3 by lia. lia.
Qed.

End Probe.

Lemma probe_outcome_ignored_witness :
  readZoneParams deafProbeBus devTSTAT = readZoneParams sampleBus devTSTAT ∧
  readCurrentParams deafProbeBus devTSTAT = readCurrentParams sampleBus devTSTAT ∧
  pollTick rawMonTable deafProbeBus 0 mainCache =
  pollTick rawMonTable sampleBus 0 mainCache.
Proof.
  split; [reflexivity|]. split; [reflexivity|].
  apply (probe_outcome_ignored rawMonTable sampleBus deafProbeBus 0%nat mainCache);
    reflexivity.
Defined.

Lemma probe_address_witness :
  0 ≤ 0x3b04 < 65536 ∧
  binary.BigEndian_Uint16
    [toByte (Z.land (Z.shiftr 0x3b04 8) 0xff); toByte (Z.land 0x3b04 0xff)] =
    Ok 0x3b04.
Proof.
  assert (Hm : 0 ≤ 0x3b04 < 65536) by lia.
  split; [exact Hm|]. exact (proj1 (probe_address sampleBus 0x3b04 Hm)).
Defined.
(** ** The keys the decoders write *)

Lemma unchanged_refl (c : Cache) (k : string) : unchanged c c k.
Proof. done. Qed.

Lemma unchanged_trans (c1 c2 c3 : Cache) (k : string) :
  unchanged c1 c2 k → unchanged c2 c3 k → unchanged c1 c3 k.
Proof. intros [Hs1 He1] [Hs2 He2]. split; congruence. Qed.

Lemma unchanged_put (c c1 : Cache) (k k' : string) (v : Value) :
  k' ∈ snoopKeys → k ∉ snoopKeys →
  unchanged c c1 k → unchanged c (cache.put k' v c1) k.
Proof.
  intros Hk' Hk Hu. eapply unchanged_trans; [exact Hu|].
  apply put_other. intros ->. done.
Qed.

Lemma damperKey_snooped (zi : nat) : (zi < 8)%nat → damperKey zi ∈ snoopKeys.
Proof.
  intros Hzi. unfold snoopKeys. apply elem_of_app. right.
  apply list_elem_of_fmap_2, elem_of_seq. lia.
Qed.

Ltac snooped_key :=
  unfold snoopKeys; apply elem_of_app; left; by repeat constructor.

Ltac unchanged_puts :=
  repeat first
    [ apply unchanged_refl
    | assumption
    | apply unchanged_put; [snooped_key|assumption|] ].

Lemma snoopHeatPump_footprint `{Tables} (frame : InfinityFrame) (c c' : Cache)
    (k : string) :
  k ∉ snoopKeys → exec (snoopHeatPump frame) c = Ok c' → unchanged c c' k.
Proof.
  intros Hk Hrun. unfold snoopHeatPump, getHeatPump in Hrun.
  unfold exec, cache.update, cache.get, lift, mbind, M_bind, mret, M_ret in Hrun.
  repeat (case_match; simplify_eq); unchanged_puts.
Qed.

Lemma snoopAirHandler_footprint `{Tables} (frame : InfinityFrame) (c c' : Cache)
    (k : string) :
  k ∉ snoopKeys → exec (snoopAirHandler frame) c = Ok c' → unchanged c c' k.
Proof.
  intros Hk Hrun. unfold snoopAirHandler, getAirHandler in Hrun.
  unfold exec, cache.update, cache.get, lift, mbind, M_bind, mret, M_ret in Hrun.
  repeat (case_match; simplify_eq); unchanged_puts.
Qed.

Lemma damperLoop_footprint (data : list byte) (zis : list nat)
    (dp dp' : DamperPosition) (c c' : Cache) (k : string) :
  k ∉ snoopKeys → Forall (λ zi, (zi < 8)%nat) zis →
  forEach zis (damperStep data) dp c = Ok (dp', c') → unchanged c c' k.
Proof.
  intros Hk. revert dp c. induction zis as [|zi zis IH]; intros dp c Hall Hrun.
  - unfold forEach, mret, M_ret in Hrun. by simplify_eq.
  - apply Forall_cons in Hall as [Hzi Hall].
    cbn [forEach] in Hrun. unfold mbind at 1, M_bind at 1 in Hrun.
    destruct (damperStep data zi dp c) as [[dp1 c1]|] eqn:Hstep; [|done].
    eapply unchanged_trans; [|by eapply IH].
    clear -Hstep Hk Hzi.
    unfold damperStep, cache.update, lift, mbind, M_bind, mret, M_ret in Hstep.
    repeat (case_match; simplify_eq); [|done].
    apply unchanged_put; [|done|done].
    by apply (damperKey_snooped zi).
Qed.

Lemma snoopDamper_footprint (frame : InfinityFrame) (c c' : Cache) (k : string) :
  k ∉ snoopKeys → exec (snoopDamper frame) c = Ok c' → unchanged c c' k.
Proof.
  intros Hk Hrun.
  unfold exec, snoopDamper, getDamperPosition, cache.get, lift in Hrun.
  unfold mbind, M_bind, mret, M_ret in Hrun.
  repeat (case_match; simplify_eq); try done.
  all: match goal with
       | Hl : forEach _ _ _ _ = Ok _ |- _ =>
           apply (damperLoop_footprint _ _ _ _ _ _ k Hk) in Hl;
           [|apply Forall_forall; intros zi Hzi%elem_of_seq; lia]
       end.
  all: unfold cache.update in *; simplify_eq.
  all: apply unchanged_put; [snooped_key|done|done].
Qed.

Section Footprint.
Context `{Tables}.

(** X24. The dispatch of a frame to the snoop decoders stores and
    publishes only keys of the decoders: every other key, among them
    ["tstat"] and every mirror key the poller writes, has the same value and
    the same changes afterwards. With X19 the two activities write disjoint
    sets of keys. *)
Theorem snoop_footprint (frame : InfinityFrame) (c c' : Cache) (k : string) :
  exec (dispatch attachSnoops frame) c = Ok c' →
  (k ∉ snoopKeys → unchanged c c' k) ∧
  (∀ l hum, Forall (λ zi, (zi < 8)%nat) l → k ∈ pollKeys l hum → unchanged c c' k).
Proof.
  intros Hrun.
  assert (Hmain : k ∉ snoopKeys → unchanged c c' k).
  { intros Hk. unfold exec, dispatch, attachSnoops in Hrun.
    cbn [forEach srcMin srcMax cb] in Hrun.
    unfold mbind, M_bind, mret, M_ret in Hrun.
    assert (Hcb : ∀ (f : InfinityFrame → M unit) c1 c2 u,
              (∀ a b, exec (f frame) a = Ok b → unchanged a b k) →
              f frame c1 = Ok (u, c2) → unchanged c1 c2 k).
    { intros f c1 c2 u Hf Hr. apply (Hf c1 c2). unfold exec. by rewrite Hr. }
    repeat (case_match; simplify_eq);
      repeat match goal with
             | Hr : snoopHeatPump _ _ = Ok _ |- _ =>
                 apply (Hcb snoopHeatPump) in Hr;
                 [|intros ? ?; by apply snoopHeatPump_footprint]
             | Hr : snoopAirHandler _ _ = Ok _ |- _ =>
                 apply (Hcb snoopAirHandler) in Hr;
                 [|intros ? ?; by apply snoopAirHandler_footprint]
             | Hr : snoopDamper _ _ = Ok _ |- _ =>
                 apply (Hcb snoopDamper) in Hr;
                 [|intros ? ?; by apply snoopDamper_footprint]
             end;
      repeat first [ apply unchanged_refl | assumption
                   | eapply unchanged_trans; [eassumption|] ]. }
  split; [exact Hmain|].
  intros l hum Hall Hin. apply Hmain. intros Hsn.
  by apply (snoopKeys_not_polled l hum k Hall Hsn).
Qed.

End Footprint.

Lemma snoop_footprint_witness :
  ∃ c',
    exec (dispatch attachSnoops sampleHeatPumpFrame) mainCache = Ok c' ∧
    ("tstat" ∉ snoopKeys) ∧
    unchanged mainCache c' "tstat".
Proof.
  assert (Hk : "tstat" ∉ snoopKeys).
  { unfold snoopKeys. intros Hin. apply elem_of_app in Hin as [Hin|Hin].
    - revert Hin. str_notin.
    - revert Hin. cbn [fmap list_fmap seq]. str_notin. }
  eexists. split; [reflexivity|]. split; [exact Hk|].
  exact (proj1 (snoop_footprint sampleHeatPumpFrame mainCache _ "tstat" eq_refl) Hk).
Defined.
(** ** Reachable states *)

Section Progress.
Context `{Tables}.

Lemma snoopDamper_run (frame : InfinityFrame) (c : Cache) (dp : DamperPosition)
    (bs rest : list byte) :
  store c !! "damperpos" = Some (VDamperPosition dp) →
  length (DamperPosition.DamperPos dp) = 8%nat →
  InfinityFrame.data frame = [x00; x03; x19] ++ bs ++ rest →
  length bs = 8%nat →
  ∃ c', exec (snoopDamper frame) c = Ok c'.
Proof.
  intros Hc Hlen Hdata Hbs.
  destruct (damperLoop_run (bs ++ rest) (seq 0 8) dp c)
    as (dp' & c1 & Hrun & _).
  { apply Forall_forall. intros zi Hzi%elem_of_seq.
    rewrite length_app, Hbs, Hlen. lia. }
  { apply NoDup_seq. }
  exists (cache.put "damperpos" (VDamperPosition dp') c1).
  unfold exec, snoopDamper. rewrite Hdata.
  run_lift. erewrite bind_Ok by (by apply getDamperPosition_Some); cbv beta iota.
  run_lift.
  change (drop 3 ([x00; x03; x19] ++ bs ++ rest)) with (bs ++ rest).
  change (take (3 - 0) (drop 0 ([x00; x03; x19] ++ bs ++ rest)))
    with [x00; x03; x19].
  change (bytes.Equal [x00; x03; x19] [x00; x03; x19]) with true. cbv iota.
  erewrite bind_Ok by exact Hrun. reflexivity.
Qed.

(** X25. In every state the program reaches from the cache [main] sets up,
    by frames handed to the decoders and passes of the poller in any order:
    a pass of the poller does not panic, whatever the bus answers; a
    temperature frame from the heat pump range (00 3E 01 and four bytes) is
    decoded into the heat pump view and not dropped for a missing view; a
    damper frame from the zone controller range (00 03 19 and eight bytes)
    is decoded without a panic. Each of these steps leads to a reachable
    state again. *)
Theorem reachable_progress (monArray : list Z) (c : Cache) (mon_i : nat) :
  reachable monArray (c, mon_i) →
  (∀ bus, ∃ mon_i' c',
     pollTick monArray bus mon_i c = Ok (mon_i', c') ∧
     reachable monArray (c', mon_i')) ∧
  (∀ frame b0 b1 b2 b3 rest,
     0x5000 ≤ InfinityFrame.src frame ≤ 0x51ff →
     InfinityFrame.data frame = [x00; x3e; x01; b0; b1; b2; b3] ++ rest →
     ∃ c' hp',
       exec (dispatch attachSnoops frame) c = Ok c' ∧
       store c' !! "heatpump" = Some (VHeatPump hp') ∧
       HeatPump.OutsideTemp hp' = Qmake (be16 b0 b1) 16 ∧
       HeatPump.CoilTemp hp' = Qmake (be16 b2 b3) 16 ∧
       reachable monArray (c', mon_i)) ∧
  (∀ frame bs rest,
     0x6000 ≤ InfinityFrame.src frame ≤ 0x61ff →
     InfinityFrame.data frame = [x00; x03; x19] ++ bs ++ rest →
     length bs = 8%nat →
     ∃ c',
       exec (dispatch attachSnoops frame) c = Ok c' ∧
       reachable monArray (c', mon_i)).
Proof.
  intros Hr.
  destruct (reachable_invariant monArray c mon_i Hr)
    as [((ah & Hah) & (hp & Hhp) & (dp & Hdp & Hlen)) Hv].
  split; [|split].
  - intros bus.
    destruct (pollTick_run monArray bus mon_i c Hv) as (i' & c' & Hrun & _).
    exists i', c'. split; [done|].
    eapply rtc_r; [exact Hr|]. by eapply step_tick.
  - intros frame b0 b1 b2 b3 rest Hsrc Hdata.
    pose proof (snoopHeatPump_temps frame c hp b0 b1 b2 b3 rest Hhp Hdata) as Hrun.
    cbv zeta in Hrun. rewrite <- dispatch_heatPump in Hrun by done.
    eexists _, _. split; [exact Hrun|].
    split; [cbn [store cache.put]; rewrite !lookup_insert_ne by done;
            apply lookup_insert_eq|].
    split; [reflexivity|]. split; [reflexivity|].
    eapply rtc_r; [exact Hr|]. by eapply step_frame.
  - intros frame bs rest Hsrc Hdata Hbs.
    destruct (snoopDamper_run frame c dp bs rest Hdp Hlen Hdata Hbs) as [c' Hrun].
    rewrite <- dispatch_damper in Hrun by done.
    exists c'. split; [done|].
    eapply rtc_r; [exact Hr|]. by eapply step_frame.
Qed.

End Progress.

Lemma reachable_progress_witness :
  reachable rawMonTable (mainCache, 0%nat) ∧
  ∃ mon_i' c',
    pollTick rawMonTable timeoutBus 0 mainCache = Ok (mon_i', c') ∧
    reachable rawMonTable (c', mon_i').
Proof.
  assert (Hr : reachable rawMonTable (mainCache, 0%nat)) by apply rtc_refl.
  split; [exact Hr|].
  exact (proj1 (reachable_progress rawMonTable mainCache 0%nat Hr) timeoutBus).
Defined.

(** ** The heat pump decoder across the revisions *)

(** X26. On every frame and every cache the heat pump decoders of the two
    revisions behave alike on the typed view: one panics exactly when the
    other does, and otherwise they leave the same value and the same
    changes under every key but the three flat mirror keys of the heat pump,
    which only the later revision writes; in particular under
    ["heatpump"]. *)
Theorem heatPump_revisions_agree (frame : InfinityFrame) (c : Cache) :
  match exec (Rev1Decoders.snoopHeatPump frame) c, exec (snoopHeatPump frame) c with
  | Ok c1, Ok c2 =>
      ∀ k, k ∉ heatPumpMirrorKeys →
        store c1 !! k = store c2 !! k ∧
        eventsOf k (events c1) = eventsOf k (events c2)
  | Panic, Panic => True
  | _, _ => False
  end.
Proof.
  unfold exec, Rev1Decoders.snoopHeatPump, snoopHeatPump, getHeatPump.
  unfold cache.update, cache.get, lift, mbind, M_bind, mret, M_ret.
  repeat (case_match; simplify_eq); try done.
  all: intros k Hk.
  all: assert (Hk1 : "mqtt/infinitive/coilTemp" ≠ k)
         by (intros <-; apply Hk; unfold heatPumpMirrorKeys; by repeat constructor).
  all: assert (Hk2 : "mqtt/infinitive/outsideTemp" ≠ k)
         by (intros <-; apply Hk; unfold heatPumpMirrorKeys; by repeat constructor).
  all: assert (Hk3 : "mqtt/infinitive/acStage" ≠ k)
         by (intros <-; apply Hk; unfold heatPumpMirrorKeys; by repeat constructor).
  all: repeat match goal with
              | |- context [cache.put ?k' ?v ?c0] =>
                  lazymatch k' with
                  | "heatpump" => fail
                  | _ => destruct (put_other k k' v c0) as [-> ->]; [done|]
                  end
              end.
  all: done.
Qed.
